(** * DomeLiquid/core: accounting and risk engine

    A shallow embedding of the bank, balance, bank-account wrapper and risk
    engine of [core/], of the loader of an account's positions, and of the
    interest, emissions, health and liquidation price arithmetic, with the
    properties of the specification and further properties of the code
    proved over it.

    Layout: the decimal and 64-bit arithmetic the code computes with, the
    error monad, the data model, the operations (each one under the name of
    the Go function it embeds, methods in a module named after their
    receiver), concrete states, then the theorems.

    Conventions of the embedding:
    - a [decimal.Decimal] is the rational number it denotes;
    - a Go call returning [(T, error)] is a [result T]; a method that
      mutates its receiver is a state transformer [M S T] whose state keeps
      the mutations made before an error is returned;
    - a run-time panic (division by zero in the decimal library, a nil
      pointer dereference) is an outcome of its own;
    - [clk.Now().Unix()] is a fixed reading [clk] of the wrapper's clock, as
      with the mock clock of the tests; log calls are dropped;
    - the [Bank] and [Balance] pointers inside a wrapper or a snapshot entry
      are not nil (the constructors and the snapshot loader fill them in);
    - a store or a price feed manager is the record of the functions called
      on it, and a Go map is its lookup function. *)

From Stdlib Require Import ZArith QArith Qminmax Qpower Bool List Lia Lqa.
Import ListNotations.

Set Implicit Arguments.

(* ================================================================== *)
(** ** 64-bit integers *)

(** Go's [int64]: a value of [Z] with two's complement wrap-around written
    out at every subtraction the code performs on timestamps. *)
Module Int64.

Definition modulus : Z := 2 ^ 64.
Definition half_modulus : Z := 2 ^ 63.

Definition wrap (z : Z) : Z :=
  ((z + half_modulus) mod modulus - half_modulus)%Z.

Definition in_range (z : Z) : Prop :=
  (- half_modulus <= z < half_modulus)%Z.

Definition sub (a b : Z) : Z := wrap (a - b).

End Int64.

(* ================================================================== *)
(** ** Decimals *)

(** [github.com/shopspring/decimal] (v1.4.0 in go.mod) is the program's
    number type: a value [coefficient * 10 ^ exponent] of arbitrary
    precision.  A [Decimal] is modelled by the rational number it denotes;
    the comparisons of the library ([Cmp], [Equal], [IsZero], [Sign])
    observe nothing else.  [Add], [Sub] and [Mul] are exact; [Div] rounds
    the quotient to [DivisionPrecision] decimal places and panics on a zero
    divisor. *)
Module decimal.

Definition Decimal : Type := Q.

Definition Zero : Decimal := 0.

Definition NewFromInt (z : Z) : Decimal := inject_Z z.
Definition NewFromUint64 (z : Z) : Decimal := inject_Z z.

Definition Add (d d2 : Decimal) : Decimal := d + d2.
Definition Sub (d d2 : Decimal) : Decimal := d - d2.
Definition Mul (d d2 : Decimal) : Decimal := d * d2.

Definition Cmp (d d2 : Decimal) : comparison := d ?= d2.

Definition Sign (d : Decimal) : Z := Z.sgn (Qnum d).

Definition Equal (d d2 : Decimal) : bool :=
  match Cmp d d2 with Eq => true | _ => false end.
Definition LessThan (d d2 : Decimal) : bool :=
  match Cmp d d2 with Lt => true | _ => false end.
Definition LessThanOrEqual (d d2 : Decimal) : bool :=
  match Cmp d d2 with Gt => false | _ => true end.
Definition GreaterThan (d d2 : Decimal) : bool :=
  match Cmp d d2 with Gt => true | _ => false end.
Definition GreaterThanOrEqual (d d2 : Decimal) : bool :=
  match Cmp d d2 with Lt => false | _ => true end.

Definition IsZero (d : Decimal) : bool := (Sign d =? 0)%Z.
Definition IsPositive (d : Decimal) : bool := (Sign d =? 1)%Z.
Definition IsNegative (d : Decimal) : bool := (Sign d =? -1)%Z.

(** [Min(first, rest...)] and [Max(first, rest...)] at two arguments: the
    second replaces the first only when strictly smaller (larger). *)
Definition Min (first item : Decimal) : Decimal :=
  match Cmp item first with Lt => item | _ => first end.
Definition Max (first item : Decimal) : Decimal :=
  match Cmp item first with Gt => item | _ => first end.

(** [10 ^ places] *)
Definition pow10 (places : nat) : positive := Nat.iter places (Pos.mul 10) 1%positive.

(** The decimal shifted left by [places] digits, as the fraction
    [numerator / denominator] that the library's [QuoRem] divides. *)
Definition shifted_num (d : Decimal) (places : nat) : Z :=
  (Qnum d * Zpos (pow10 places))%Z.
Definition shifted_den (d : Decimal) : Z := Zpos (Qden d).

(** [Truncate(places)]: digits beyond [places] are cut (towards zero). *)
Definition Truncate (d : Decimal) (places : nat) : Decimal :=
  Z.quot (shifted_num d places) (shifted_den d) # pow10 places.

(** The quotient [n / m] as a whole number, to the nearest and halves away
    from zero: the truncated quotient, moved one step away from zero when
    twice the remainder reaches the divisor. *)
Definition round_num (n m : Z) : Z :=
  (if 2 * Z.abs (Z.rem n m) <? m then Z.quot n m else Z.quot n m + Z.sgn n)%Z.

(** [Round(places)]: to the nearest, halves away from zero. *)
Definition Round (d : Decimal) (places : nat) : Decimal :=
  round_num (shifted_num d places) (shifted_den d) # pow10 places.

(** [RoundCeil(places)]: towards positive infinity. *)
Definition RoundCeil (d : Decimal) (places : nat) : Decimal :=
  (- ((- shifted_num d places) / shifted_den d))%Z # pow10 places.

Definition DivisionPrecision : nat := 16.

(** [DivRound(d2, precision)]: the truncated quotient of [QuoRem], moved
    one unit away from zero when twice the remainder reaches the divisor,
    which is the exact quotient rounded half away from zero.  Meaningful
    for a non-zero divisor only (see [Div]). *)
Definition DivRound (d d2 : Decimal) (precision : nat) : Decimal :=
  Round (d / d2) precision.

(** [IntPart]: the integer part, towards zero. *)
Definition IntPart (d : Decimal) : Z := Z.quot (Qnum d) (Zpos (Qden d)).

(** [Pow(d2)] at an exponent that is a non-negative whole number, the only
    exponent the program uses (HOURS_PER_YEAR): the library multiplies
    exactly, by repeated squaring.  Other exponents are not modelled. *)
Definition Pow (d d2 : Decimal) : Decimal := d ^ IntPart d2.

End decimal.

Import decimal.

(* ================================================================== *)
(** ** Errors, panics and the two monads of the embedding *)

(** The named errors of package [core], and [ExternalError] for whatever a
    collaborator (price adapter, store) hands back. *)
Inductive Error : Type :=
| BankAccountNotFound
| LendingAccountBalanceNotFound
| BankPaused
| BankReduceOnly
| BankAssetCapacityExceeded
| BankLiabilityCapacityExceeded
| ErrBankLiquidityDeficit
| IllegalUtilizationRatio
| NoAssetFound
| NoLiabilityFound
| IllegalBalanceState
| CannotCloseOutstandingEmissions
| OperationRepayOnly
| OperationDepositOnly
| OperationWithdrawOnly
| OperationBorrowOnly
| MathError
| ErrNegativeInterestRate
| RiskEngineInitRejected
| AccountInFlashloan
| AccountNotBankrupt
| ErrAccountNotUnhealthy
| IllegalLiquidation
| IsolatedAccountIllegalState
| ExternalError (code : nat).

(** Run-time panics the modelled code can reach. *)
Inductive PanicKind : Type :=
| DivisionByZero
| NilPointerDereference.

(** What a Go call [(T, error)] comes to: a value, a returned error, or a
    panic that unwinds the caller. *)
Inductive result (A : Type) : Type :=
| Ok (a : A)
| Err (e : Error)
| Panic (p : PanicKind).
Arguments Ok {A} a.
Arguments Err {A} e.
Arguments Panic {A} p.

Definition bind {A B : Type} (r : result A) (k : A -> result B) : result B :=
  match r with
  | Ok a => k a
  | Err e => Err e
  | Panic p => Panic p
  end.

Notation "x <- c ;; k" := (bind c (fun x => k))
  (at level 61, c at next level, right associativity).
Notation "' pat <- c ;; k" := (bind c (fun x => match x with pat => k end))
  (at level 61, pat pattern, c at next level, right associativity).

(** Methods with a pointer receiver mutate the receiver and the mutation
    stays when they return an error: a state monad whose state survives
    [Err]. *)
Definition M (S A : Type) : Type := S -> result A * S.

Definition ret {S A : Type} (a : A) : M S A := fun s => (Ok a, s).
Definition throw {S A : Type} (e : Error) : M S A := fun s => (Err e, s).
Definition get {S : Type} : M S S := fun s => (Ok s, s).
Definition modify {S : Type} (f : S -> S) : M S unit := fun s => (Ok tt, f s).
Definition lift {S A : Type} (r : result A) : M S A := fun s => (r, s).

Definition bindM {S A B : Type} (c : M S A) (k : A -> M S B) : M S B :=
  fun s =>
    match c s with
    | (Ok a, s') => k a s'
    | (Err e, s') => (Err e, s')
    | (Panic p, s') => (Panic p, s')
    end.

Notation "x <~ c ;; k" := (bindM c (fun x => k))
  (at level 61, c at next level, right associativity).
Notation "' pat <~ c ;; k" := (bindM c (fun x => match x with pat => k end))
  (at level 61, pat pattern, c at next level, right associativity).

(** A call statement whose returned error is dropped ([ba.ClaimEmissions(..)]
    on a line of its own): the mutation stays, the error does not; a panic
    still unwinds. *)
Definition discard {S : Type} (c : M S unit) : M S unit :=
  fun s =>
    match c s with
    | (Panic p, s') => (Panic p, s')
    | (_, s') => (Ok tt, s')
    end.

(** Running a method of a part of the state on the whole state. *)
Definition zoom {S T A : Type} (proj : S -> T) (upd : T -> S -> S)
  (c : M T A) : M S A :=
  fun s => let (r, t') := c (proj s) in (r, upd t' s).

(** [if err != nil { return err }] around a check that returns at most an
    error. *)
Definition check {S : Type} (r : option Error) : M S unit :=
  match r with
  | Some e => throw e
  | None => ret tt
  end.

(** The errors a computation may return: [raises_only P c] when every error
    [c] returns, from any state, satisfies [P]. *)
Definition raises_only {S A : Type} (P : Error -> Prop) (c : M S A) : Prop :=
  forall s e, fst (c s) = Err e -> P e.

(* ================================================================== *)
(** ** Constants and enumerations *)

Definition SECONDS_PER_YEAR : Z := 31536000.
Definition MIN_EMISSIONS_START_TIME : Z := 1681989983.
(** [365.25 * 24], an untyped constant that is the whole number 8766. *)
Definition HOURS_PER_YEAR : Z := 8766.

Definition ONE : Decimal := NewFromInt 1.
Definition ZERO_AMOUNT_THRESHOLD : Decimal := Zero.
Definition EMPTY_BALANCE_THRESHOLD : Decimal := 1 # 100000000.
Definition BANKRUPT_THRESHOLD : Decimal := 1 # 100000000.
Definition MAX_CONF_INTERVAL : Decimal := 5 # 100.

(** [math.MaxUint64], the value of a limit that is switched off. *)
Definition MaxUint64 : Z := 18446744073709551615.

Inductive RequirementType : Type := Initial | Maintenance | Equity.
Inductive OraclePriceType : Type := TimeWeighted | RealTime.
Inductive PriceBias : Type := Low | High | Original.
Inductive BalanceSide : Type :=
  BalanceSideAssets | BalanceSideLiabilities | BalanceSideEmpty.
Inductive RiskTier : Type := Collateral | Isolated.
Inductive BankOperationalState : Type :=
| BankOperationalStatePaused
| BankOperationalStateOperational
| BankOperationalStateReduceOnly
| BankOperationalStateNone.
Inductive OracleSetup : Type := MixinOracle.

Inductive BalanceIncreaseType : Type :=
| BalanceIncreaseTypeAny
| BalanceIncreaseTypeRepayOnly
| BalanceIncreaseTypeDepositOnly
| BalanceIncreaseTypeBypassDepositLimit.

Inductive BalanceDecreaseType : Type :=
| BalanceDecreaseTypeAny
| BalanceDecreaseTypeWithdrawOnly
| BalanceDecreaseTypeBorrowOnly
| BalanceDecreaseTypeBypassBorrowLimit.

Definition BalanceIncreaseType_eqb (a b : BalanceIncreaseType) : bool :=
  match a, b with
  | BalanceIncreaseTypeAny, BalanceIncreaseTypeAny
  | BalanceIncreaseTypeRepayOnly, BalanceIncreaseTypeRepayOnly
  | BalanceIncreaseTypeDepositOnly, BalanceIncreaseTypeDepositOnly
  | BalanceIncreaseTypeBypassDepositLimit, BalanceIncreaseTypeBypassDepositLimit => true
  | _, _ => false
  end.

Definition BalanceDecreaseType_eqb (a b : BalanceDecreaseType) : bool :=
  match a, b with
  | BalanceDecreaseTypeAny, BalanceDecreaseTypeAny
  | BalanceDecreaseTypeWithdrawOnly, BalanceDecreaseTypeWithdrawOnly
  | BalanceDecreaseTypeBorrowOnly, BalanceDecreaseTypeBorrowOnly
  | BalanceDecreaseTypeBypassBorrowLimit, BalanceDecreaseTypeBypassBorrowLimit => true
  | _, _ => false
  end.

(** Bank flags, an 8-bit set. *)
Definition BankFlags : Type := Z.
Definition BankFlagsBorrowActive : BankFlags := Z.shiftl 1 0.
Definition BankFlagsLendingActive : BankFlags := Z.shiftl 1 1.
Definition BankFlagsPermissionlessBadDebtSettlement : BankFlags := Z.shiftl 1 2.
Definition BankFlagsEmissionsActive : BankFlags :=
  Z.lor BankFlagsBorrowActive BankFlagsLendingActive.

Definition BankFlagsGroupActive : BankFlags :=
  Z.lor BankFlagsPermissionlessBadDebtSettlement BankFlagsEmissionsActive.

(** Account flags, an 8-bit set. *)
Definition AccountFlags : Type := Z.
Definition DisabledFlag : AccountFlags := Z.shiftl 1 0.
Definition InFlashloanFlag : AccountFlags := Z.shiftl 1 1.
Definition FlashloanEnabledFlag : AccountFlags := Z.shiftl 1 2.
Definition TransferAuthorityAllowedFlag : AccountFlags := Z.shiftl 1 3.

(** A uuid, sixteen bytes read as one number. *)
Definition UUID : Type := Z.

Definition GetOraclePriceType (rt : RequirementType) : OraclePriceType :=
  match rt with
  | Initial | Equity => TimeWeighted
  | Maintenance => RealTime
  end.

(** [Decimal.Div]: [DivRound] at [DivisionPrecision]; the library panics
    with "decimal division by 0" on a zero divisor. *)
Definition Div (d d2 : Decimal) : result Decimal :=
  if IsZero d2 then Panic DivisionByZero
  else Ok (DivRound d d2 DivisionPrecision).

(** The errors of the two [Validate] methods, which return nothing but an
    error. *)
Inductive ConfigError : Type :=
| InvalidConfig
| ErrOptimalUr
| ErrPlateauIr
| ErrMaxIr
| ErrPlateauGreaterThanMax.

(* ================================================================== *)
(** ** Interest rate configuration (core/bank.go) *)

Module InterestRateConfig.

Record t : Type := {
  OptimalUtilizationRate : Decimal;
  PlateauInterestRate : Decimal;
  MaxInterestRate : Decimal;
  InsuranceFeeFixedApr : Decimal;
  InsuranceIrFee : Decimal;
  ProtocolFixedFeeApr : Decimal;
  ProtocolIrFee : Decimal
}.

Definition InterestRateCurve (i : t) (utilizationRatio : Decimal)
  : result Decimal :=
  let optimalUr := OptimalUtilizationRate i in
  let plateauIr := PlateauInterestRate i in
  let maxIr := MaxInterestRate i in
  if LessThanOrEqual utilizationRatio optimalUr then
    Div (Mul utilizationRatio plateauIr) optimalUr
  else
    let oneMinusOptimalUr := Sub ONE optimalUr in
    let maxIrMinusPlateau := Sub maxIr plateauIr in
    let utilizationRatioMinusOptimalUr := Sub utilizationRatio optimalUr in
    q <- Div utilizationRatioMinusOptimalUr oneMinusOptimalUr ;;
    Ok (Add (Mul q maxIrMinusPlateau) plateauIr).

Definition CalcFeeRate (baseRate irFee fixedFeeApr : Decimal) : Decimal :=
  Add (Mul baseRate irFee) fixedFeeApr.

(** Returns (lendingRate, borrowingRate, groupFeesApr, insuranceFeesApr). *)
Definition CalcInterestRate (i : t) (utilizationRatio : Decimal)
  : result (Decimal * Decimal * Decimal * Decimal) :=
  let protocolIrFee := ProtocolIrFee i in
  let insuranceIrFee := InsuranceIrFee i in
  let protocolFixedFeeApr := ProtocolFixedFeeApr i in
  let insuranceFeeFixedApr := InsuranceFeeFixedApr i in
  let rateFee := Add protocolIrFee insuranceIrFee in
  let totalFixedFeeApr := Add protocolFixedFeeApr insuranceFeeFixedApr in
  baseRate <- InterestRateCurve i utilizationRatio ;;
  let lendingRate := Mul baseRate utilizationRatio in
  let borrowingRate := Add (Mul baseRate (Add ONE rateFee)) totalFixedFeeApr in
  let groupFeesApr := CalcFeeRate baseRate protocolIrFee protocolFixedFeeApr in
  let insuranceFeesApr := CalcFeeRate baseRate insuranceIrFee insuranceFeeFixedApr in
  if LessThan lendingRate Zero
     || LessThan borrowingRate Zero
     || LessThan groupFeesApr Zero
     || LessThan insuranceFeesApr Zero
  then Err ErrNegativeInterestRate
  else Ok (lendingRate, borrowingRate, groupFeesApr, insuranceFeesApr).

(** [Validate] returns nothing but an error: [None] is [nil]. *)
Definition Validate (i : t) : option ConfigError :=
  let optimalUr := OptimalUtilizationRate i in
  let plateauIr := PlateauInterestRate i in
  let maxIr := MaxInterestRate i in
  if LessThanOrEqual optimalUr Zero || GreaterThanOrEqual optimalUr ONE
  then Some ErrOptimalUr
  else if LessThanOrEqual plateauIr Zero then Some ErrPlateauIr
  else if LessThanOrEqual maxIr Zero then Some ErrMaxIr
  else if GreaterThanOrEqual plateauIr maxIr then Some ErrPlateauGreaterThanMax
  else None.

End InterestRateConfig.

(* ================================================================== *)
(** ** Interest, value and emissions arithmetic (core/utils.go,
       core/bank_account.go) *)

(** [weight] is a pointer in the source: [None] is [nil]. *)
Definition CalcValue (amount price : Decimal) (weight : option Decimal)
  : result Decimal :=
  if IsZero amount then Ok Zero
  else
    let weighted_asset_amount :=
      match weight with
      | Some w => Mul amount w
      | None => amount
      end in
    Ok (Mul weighted_asset_amount price).

(** The error value [errors.New("price is zero")], which has no name in
    the source. *)
Definition errPriceIsZero : Error := ExternalError 0.

Definition CalcAmount (value price : Decimal) : result Decimal :=
  if IsZero price then Err errPriceIsZero
  else Div value price.

(** [timeDelta] is a [uint64], converted with [int64(timeDelta)]. *)
Definition CalcAccruedInterestPaymentPerPeriod
  (apr : Decimal) (timeDelta : Z) (value : Decimal) : result Decimal :=
  irPerPeriod <- Div (Mul apr (NewFromInt (Int64.wrap timeDelta)))
                     (NewFromInt SECONDS_PER_YEAR) ;;
  let newValue := Mul value (Add ONE irPerPeriod) in
  Ok newValue.

Definition CalcInterestPaymentForPeriod
  (apr : Decimal) (timeDelta : Z) (value : Decimal) : result Decimal :=
  Div (Mul (Mul value apr) (NewFromInt (Int64.wrap timeDelta)))
      (NewFromInt SECONDS_PER_YEAR).

(** [timeDelta] is a [uint64]; the helpers convert it back with
    [int64(timeDelta)].  Returns (accruedAssetShareValue,
    accruedLiabilityShareValue, groupFeePaymentForPeriod,
    insuranceFeePaymentForPeriod). *)
Definition CalcInterestRateAccrualStateChanges
  (timeDelta : Z) (totalAssetsAmount totalLiabilitiesAmount : Decimal)
  (interestRateConfig : InterestRateConfig.t)
  (assetShareValue liabilityShareValue : Decimal)
  : result (Decimal * Decimal * Decimal * Decimal) :=
  utilizationRate <- Div totalLiabilitiesAmount totalAssetsAmount ;;
  '(lendingApr, borrowingApr, groupFeeApr, insuranceFeeApr) <-
     InterestRateConfig.CalcInterestRate interestRateConfig utilizationRate ;;
  accruedAssetShareValue <-
    CalcAccruedInterestPaymentPerPeriod lendingApr timeDelta assetShareValue ;;
  accruedLiabilityShareValue <-
    CalcAccruedInterestPaymentPerPeriod borrowingApr timeDelta liabilityShareValue ;;
  groupFeePaymentForPeriod <-
    CalcInterestPaymentForPeriod groupFeeApr timeDelta totalLiabilitiesAmount ;;
  insuranceFeePaymentForPeriod <-
    CalcInterestPaymentForPeriod insuranceFeeApr timeDelta totalLiabilitiesAmount ;;
  Ok (accruedAssetShareValue, accruedLiabilityShareValue,
      groupFeePaymentForPeriod, insuranceFeePaymentForPeriod).

Definition AprToApy (apr : Decimal) : result Decimal :=
  let hoursPerYear := NewFromInt HOURS_PER_YEAR in
  if IsZero hoursPerYear then Ok Zero
  else
    q <- Div apr hoursPerYear ;;
    Ok (Round (Sub (Pow (Add ONE q) hoursPerYear) ONE) 8).

Definition CalcEmissions (period : Z) (balanceAmount emissionsRate : Decimal)
  : result Decimal :=
  if (period <=? 0)%Z then Ok Zero
  else if LessThanOrEqual emissionsRate Zero then Err MathError
  else if LessThanOrEqual balanceAmount Zero then Err MathError
  else
    Div (Mul (Mul balanceAmount emissionsRate) (NewFromInt period))
        (NewFromInt SECONDS_PER_YEAR).

(* ================================================================== *)
(** ** Bank configuration and bank (core/bank.go) *)

Module BankConfig.

Record t : Type := {
  AssetWeightInit : Decimal;
  AssetWeightMaint : Decimal;
  LiabilityWeightInit : Decimal;
  LiabilityWeightMaint : Decimal;
  DepositLimit : Decimal;
  LiabilityLimit : Decimal;
  InterestRateConfig : InterestRateConfig.t;
  OperationalState : BankOperationalState;
  RiskTier : RiskTier;
  TotalAssetValueInitLimit : Decimal;
  OracleSetup : OracleSetup;
  OracleMaxAge : Z
}.

Definition GetWeight (bc : t) (requirementType : RequirementType)
  (balanceSide : BalanceSide) : Decimal :=
  match requirementType, balanceSide with
  | Initial, BalanceSideAssets => AssetWeightInit bc
  | Initial, BalanceSideLiabilities => LiabilityWeightInit bc
  | Maintenance, BalanceSideAssets => AssetWeightMaint bc
  | Maintenance, BalanceSideLiabilities => LiabilityWeightMaint bc
  | Equity, _ => ONE
  | _, _ => Zero
  end.

Definition IsDepositLimitActive (bc : t) : bool :=
  negb (Equal (DepositLimit bc) (NewFromUint64 MaxUint64)).

Definition IsBorrowLimitActive (bc : t) : bool :=
  negb (Equal (LiabilityLimit bc) (NewFromUint64 MaxUint64)).

Definition UsdInitLimitActive (bc : t) : bool :=
  negb (Equal (TotalAssetValueInitLimit bc) (NewFromUint64 MaxUint64)).

Definition GetWeights (bc : t) (requirementType : RequirementType)
  : Decimal * Decimal :=
  match requirementType with
  | Initial => (AssetWeightInit bc, LiabilityWeightInit bc)
  | Maintenance => (AssetWeightMaint bc, LiabilityWeightMaint bc)
  | Equity => (ONE, ONE)
  end.

(** [Validate] returns nothing but an error: [None] is [nil]. *)
Definition Validate (bc : t) : option ConfigError :=
  let assetInitW := AssetWeightInit bc in
  let assetMaintW := AssetWeightMaint bc in
  if negb (GreaterThanOrEqual assetInitW Zero && LessThanOrEqual assetInitW ONE)
  then Some InvalidConfig
  else if negb (GreaterThanOrEqual assetMaintW assetInitW)
  then Some InvalidConfig
  else
    let liabInitW := LiabilityWeightInit bc in
    let liabMaintW := LiabilityWeightMaint bc in
    if LessThan liabInitW ONE then Some InvalidConfig
    else if GreaterThan liabMaintW liabInitW || LessThan liabMaintW ONE
    then Some InvalidConfig
    else
      match InterestRateConfig.Validate (InterestRateConfig bc) with
      | Some err => Some err
      | None =>
          match RiskTier bc with
          | Isolated =>
              if negb (Equal assetInitW Zero) then Some InvalidConfig
              else if negb (Equal assetMaintW Zero) then Some InvalidConfig
              else None
          | Collateral => None
          end
      end.

End BankConfig.

Definition GetConfidenceInterval (price : Decimal) : Decimal :=
  Mul price MAX_CONF_INTERVAL.

Definition isWeightedPrice (requirementType : RequirementType) : bool :=
  match requirementType with
  | Initial => true
  | _ => false
  end.

(** Go's [^flag] on a [uint8]: the complement within eight bits. *)
Definition uint8_not (x : Z) : Z := Z.land (Z.lnot x) 255.

Module Bank.

(** The fields with a number, a flag set or a time in them; the three
    name strings of the Go struct are read by no operation below and are
    left out. *)
Record t : Type := {
  Id : UUID;
  GroupId : UUID;
  AssetShareValue : Decimal;
  LiabilityShareValue : Decimal;
  LiquidityVault : Decimal;
  InsuranceVault : Decimal;
  FeeVault : Decimal;
  CollectedInsuranceFeesOutstanding : Decimal;
  CollectedGroupFeesOutstanding : Decimal;
  TotalLiabilityShares : Decimal;
  TotalAssetShares : Decimal;
  Flags : BankFlags;
  BankConfig : BankConfig.t;
  EmissionsRate : Decimal;
  EmissionsRemaining : Decimal;
  CreatedAt : Z;
  LastUpdate : Z;
  DeletedAt : Z
}.

(** Field assignments [b.F = v]. *)
Definition set_AssetShareValue (v : Decimal) (b : t) : t :=
  {| Id := Id b; GroupId := GroupId b; AssetShareValue := v;
     LiabilityShareValue := LiabilityShareValue b;
     LiquidityVault := LiquidityVault b; InsuranceVault := InsuranceVault b;
     FeeVault := FeeVault b;
     CollectedInsuranceFeesOutstanding := CollectedInsuranceFeesOutstanding b;
     CollectedGroupFeesOutstanding := CollectedGroupFeesOutstanding b;
     TotalLiabilityShares := TotalLiabilityShares b;
     TotalAssetShares := TotalAssetShares b; Flags := Flags b;
     BankConfig := BankConfig b; EmissionsRate := EmissionsRate b;
     EmissionsRemaining := EmissionsRemaining b; CreatedAt := CreatedAt b;
     LastUpdate := LastUpdate b; DeletedAt := DeletedAt b |}.

Definition set_LiabilityShareValue (v : Decimal) (b : t) : t :=
  {| Id := Id b; GroupId := GroupId b; AssetShareValue := AssetShareValue b;
     LiabilityShareValue := v;
     LiquidityVault := LiquidityVault b; InsuranceVault := InsuranceVault b;
     FeeVault := FeeVault b;
     CollectedInsuranceFeesOutstanding := CollectedInsuranceFeesOutstanding b;
     CollectedGroupFeesOutstanding := CollectedGroupFeesOutstanding b;
     TotalLiabilityShares := TotalLiabilityShares b;
     TotalAssetShares := TotalAssetShares b; Flags := Flags b;
     BankConfig := BankConfig b; EmissionsRate := EmissionsRate b;
     EmissionsRemaining := EmissionsRemaining b; CreatedAt := CreatedAt b;
     LastUpdate := LastUpdate b; DeletedAt := DeletedAt b |}.

Definition set_LiquidityVault (v : Decimal) (b : t) : t :=
  {| Id := Id b; GroupId := GroupId b; AssetShareValue := AssetShareValue b;
     LiabilityShareValue := LiabilityShareValue b;
     LiquidityVault := v; InsuranceVault := InsuranceVault b;
     FeeVault := FeeVault b;
     CollectedInsuranceFeesOutstanding := CollectedInsuranceFeesOutstanding b;
     CollectedGroupFeesOutstanding := CollectedGroupFeesOutstanding b;
     TotalLiabilityShares := TotalLiabilityShares b;
     TotalAssetShares := TotalAssetShares b; Flags := Flags b;
     BankConfig := BankConfig b; EmissionsRate := EmissionsRate b;
     EmissionsRemaining := EmissionsRemaining b; CreatedAt := CreatedAt b;
     LastUpdate := LastUpdate b; DeletedAt := DeletedAt b |}.

Definition set_CollectedInsuranceFeesOutstanding (v : Decimal) (b : t) : t :=
  {| Id := Id b; GroupId := GroupId b; AssetShareValue := AssetShareValue b;
     LiabilityShareValue := LiabilityShareValue b;
     LiquidityVault := LiquidityVault b; InsuranceVault := InsuranceVault b;
     FeeVault := FeeVault b;
     CollectedInsuranceFeesOutstanding := v;
     CollectedGroupFeesOutstanding := CollectedGroupFeesOutstanding b;
     TotalLiabilityShares := TotalLiabilityShares b;
     TotalAssetShares := TotalAssetShares b; Flags := Flags b;
     BankConfig := BankConfig b; EmissionsRate := EmissionsRate b;
     EmissionsRemaining := EmissionsRemaining b; CreatedAt := CreatedAt b;
     LastUpdate := LastUpdate b; DeletedAt := DeletedAt b |}.

Definition set_CollectedGroupFeesOutstanding (v : Decimal) (b : t) : t :=
  {| Id := Id b; GroupId := GroupId b; AssetShareValue := AssetShareValue b;
     LiabilityShareValue := LiabilityShareValue b;
     LiquidityVault := LiquidityVault b; InsuranceVault := InsuranceVault b;
     FeeVault := FeeVault b;
     CollectedInsuranceFeesOutstanding := CollectedInsuranceFeesOutstanding b;
     CollectedGroupFeesOutstanding := v;
     TotalLiabilityShares := TotalLiabilityShares b;
     TotalAssetShares := TotalAssetShares b; Flags := Flags b;
     BankConfig := BankConfig b; EmissionsRate := EmissionsRate b;
     EmissionsRemaining := EmissionsRemaining b; CreatedAt := CreatedAt b;
     LastUpdate := LastUpdate b; DeletedAt := DeletedAt b |}.

Definition set_TotalLiabilityShares (v : Decimal) (b : t) : t :=
  {| Id := Id b; GroupId := GroupId b; AssetShareValue := AssetShareValue b;
     LiabilityShareValue := LiabilityShareValue b;
     LiquidityVault := LiquidityVault b; InsuranceVault := InsuranceVault b;
     FeeVault := FeeVault b;
     CollectedInsuranceFeesOutstanding := CollectedInsuranceFeesOutstanding b;
     CollectedGroupFeesOutstanding := CollectedGroupFeesOutstanding b;
     TotalLiabilityShares := v;
     TotalAssetShares := TotalAssetShares b; Flags := Flags b;
     BankConfig := BankConfig b; EmissionsRate := EmissionsRate b;
     EmissionsRemaining := EmissionsRemaining b; CreatedAt := CreatedAt b;
     LastUpdate := LastUpdate b; DeletedAt := DeletedAt b |}.

Definition set_TotalAssetShares (v : Decimal) (b : t) : t :=
  {| Id := Id b; GroupId := GroupId b; AssetShareValue := AssetShareValue b;
     LiabilityShareValue := LiabilityShareValue b;
     LiquidityVault := LiquidityVault b; InsuranceVault := InsuranceVault b;
     FeeVault := FeeVault b;
     CollectedInsuranceFeesOutstanding := CollectedInsuranceFeesOutstanding b;
     CollectedGroupFeesOutstanding := CollectedGroupFeesOutstanding b;
     TotalLiabilityShares := TotalLiabilityShares b;
     TotalAssetShares := v; Flags := Flags b;
     BankConfig := BankConfig b; EmissionsRate := EmissionsRate b;
     EmissionsRemaining := EmissionsRemaining b; CreatedAt := CreatedAt b;
     LastUpdate := LastUpdate b; DeletedAt := DeletedAt b |}.

Definition set_EmissionsRemaining (v : Decimal) (b : t) : t :=
  {| Id := Id b; GroupId := GroupId b; AssetShareValue := AssetShareValue b;
     LiabilityShareValue := LiabilityShareValue b;
     LiquidityVault := LiquidityVault b; InsuranceVault := InsuranceVault b;
     FeeVault := FeeVault b;
     CollectedInsuranceFeesOutstanding := CollectedInsuranceFeesOutstanding b;
     CollectedGroupFeesOutstanding := CollectedGroupFeesOutstanding b;
     TotalLiabilityShares := TotalLiabilityShares b;
     TotalAssetShares := TotalAssetShares b; Flags := Flags b;
     BankConfig := BankConfig b; EmissionsRate := EmissionsRate b;
     EmissionsRemaining := v; CreatedAt := CreatedAt b;
     LastUpdate := LastUpdate b; DeletedAt := DeletedAt b |}.

Definition set_LastUpdate (v : Z) (b : t) : t :=
  {| Id := Id b; GroupId := GroupId b; AssetShareValue := AssetShareValue b;
     LiabilityShareValue := LiabilityShareValue b;
     LiquidityVault := LiquidityVault b; InsuranceVault := InsuranceVault b;
     FeeVault := FeeVault b;
     CollectedInsuranceFeesOutstanding := CollectedInsuranceFeesOutstanding b;
     CollectedGroupFeesOutstanding := CollectedGroupFeesOutstanding b;
     TotalLiabilityShares := TotalLiabilityShares b;
     TotalAssetShares := TotalAssetShares b; Flags := Flags b;
     BankConfig := BankConfig b; EmissionsRate := EmissionsRate b;
     EmissionsRemaining := EmissionsRemaining b; CreatedAt := CreatedAt b;
     LastUpdate := v; DeletedAt := DeletedAt b |}.

Definition GetFlag (b : t) (flag : BankFlags) : bool :=
  (Z.land (Flags b) flag =? flag)%Z.

Definition GetLiabilityAmount (b : t) (shares : Decimal) : result Decimal :=
  Ok (Mul shares (LiabilityShareValue b)).

Definition GetAssetAmount (b : t) (shares : Decimal) : result Decimal :=
  Ok (Mul shares (AssetShareValue b)).

Definition GetAssetShares (b : t) (value : Decimal) : result Decimal :=
  Div value (AssetShareValue b).

Definition GetLiabilityShares (b : t) (value : Decimal) : result Decimal :=
  Div value (LiabilityShareValue b).

Definition ChangeAssetShares (shares : Decimal) (bypassDepositLimit : bool)
  : M t unit :=
  b0 <~ get ;;
  let totalAssetShares := Add (TotalAssetShares b0) shares in
  _ <~ modify (set_TotalAssetShares totalAssetShares) ;;
  b <~ get ;;
  if IsPositive shares
     && BankConfig.IsDepositLimitActive (BankConfig b)
     && negb bypassDepositLimit
  then
    totalDepositsAmount <~ lift (GetAssetAmount b totalAssetShares) ;;
    let depositLimit := BankConfig.DepositLimit (BankConfig b) in
    if GreaterThan totalDepositsAmount depositLimit
    then throw BankAssetCapacityExceeded
    else ret tt
  else ret tt.

Definition ChangeLiabilityShares (shares : Decimal) (bypassBorrowLimit : bool)
  : M t unit :=
  b0 <~ get ;;
  let totalLiabilityShares := TotalLiabilityShares b0 in
  _ <~ modify (set_TotalLiabilityShares (Add totalLiabilityShares shares)) ;;
  b <~ get ;;
  if negb bypassBorrowLimit
     && IsPositive shares
     && BankConfig.IsBorrowLimitActive (BankConfig b)
  then
    totalLiabilityAmount <~ lift (GetLiabilityAmount b (TotalLiabilityShares b)) ;;
    let borrowLimit := BankConfig.LiabilityLimit (BankConfig b) in
    if GreaterThanOrEqual totalLiabilityAmount borrowLimit
    then throw BankLiabilityCapacityExceeded
    else ret tt
  else ret tt.

Definition MaybeGetAssetWeightInitDiscount (b : t) (price : Decimal)
  : result Decimal :=
  if BankConfig.UsdInitLimitActive (BankConfig b) then
    bankTotalAssetsAmount <- GetAssetAmount b (TotalAssetShares b) ;;
    bankTotalAssetsValue <- CalcValue bankTotalAssetsAmount price None ;;
    if IsZero bankTotalAssetsValue then Ok bankTotalAssetsValue
    else
      let totalAssetValueInitLimit :=
        BankConfig.TotalAssetValueInitLimit (BankConfig b) in
      if GreaterThanOrEqual bankTotalAssetsValue totalAssetValueInitLimit then
        Div totalAssetValueInitLimit bankTotalAssetsValue
      else Ok Zero
  else Ok Zero.

Definition GetTotalAssetQuantity (b : t) : Decimal :=
  Mul (TotalAssetShares b) (AssetShareValue b).

Definition GetTotalLiabilityQuantity (b : t) : Decimal :=
  Mul (TotalLiabilityShares b) (LiabilityShareValue b).

Definition CheckUtilizationRatio (b : t) : result unit :=
  totalAssets <- GetAssetAmount b (TotalAssetShares b) ;;
  totalLiabilities <- GetLiabilityAmount b (TotalLiabilityShares b) ;;
  if LessThan totalAssets totalLiabilities then Err IllegalUtilizationRatio
  else Ok tt.

Definition NormalizeLiquidityVault : M t unit :=
  b <~ get ;;
  if LessThan (LiquidityVault b) EMPTY_BALANCE_THRESHOLD
  then modify (set_LiquidityVault Zero)
  else ret tt.

(** [uint64(timeDelta)] of a 64-bit signed value. *)
Definition uint64_of_int64 (z : Z) : Z := (z mod Int64.modulus)%Z.

Definition AccrueInterest (currentTimestamp : Z) : M t unit :=
  b0 <~ get ;;
  let timeDelta := Int64.sub currentTimestamp (LastUpdate b0) in
  if (timeDelta <=? 0)%Z then ret tt
  else
    _ <~ modify (set_LastUpdate currentTimestamp) ;;
    b <~ get ;;
    totalAssets <~ lift (GetAssetAmount b (TotalAssetShares b)) ;;
    totalLiabilities <~ lift (GetLiabilityAmount b (TotalLiabilityShares b)) ;;
    if IsZero totalAssets || IsZero totalLiabilities then ret tt
    else
      '(accruedAssetShareValue, accruedLiabilityShareValue,
        groupFeePaymentForPeriod, insuranceFeePaymentForPeriod) <~
         lift (CalcInterestRateAccrualStateChanges
                 (uint64_of_int64 timeDelta) totalAssets totalLiabilities
                 (BankConfig.InterestRateConfig (BankConfig b))
                 (AssetShareValue b) (LiabilityShareValue b)) ;;
      _ <~ modify (set_AssetShareValue accruedAssetShareValue) ;;
      _ <~ modify (set_LiabilityShareValue accruedLiabilityShareValue) ;;
      _ <~ modify (fun b => set_CollectedGroupFeesOutstanding
             (Add (CollectedGroupFeesOutstanding b) groupFeePaymentForPeriod) b) ;;
      _ <~ modify (fun b => set_CollectedInsuranceFeesOutstanding
             (Add (CollectedInsuranceFeesOutstanding b) insuranceFeePaymentForPeriod) b) ;;
      b1 <~ get ;;
      _ <~ (if IsPositive (LiquidityVault b1) then
              _ <~ modify (set_LiquidityVault
                     (Sub (Sub (LiquidityVault b1) insuranceFeePaymentForPeriod)
                          groupFeePaymentForPeriod)) ;;
              NormalizeLiquidityVault
            else ret tt) ;;
      b2 <~ get ;;
      if IsNegative (LiquidityVault b2) then throw ErrBankLiquidityDeficit
      else ret tt.

Definition AssertOperationalMode (b : t)
  (isAssetOrLiabilityAmountIncreasing : bool) : result unit :=
  match BankConfig.OperationalState (BankConfig b) with
  | BankOperationalStatePaused => Err BankPaused
  | BankOperationalStateOperational => Ok tt
  | BankOperationalStateReduceOnly =>
      if isAssetOrLiabilityAmountIncreasing then Err BankReduceOnly
      else Ok tt
  | BankOperationalStateNone => Ok tt
  end.

Definition set_Flags (v : BankFlags) (b : t) : t :=
  {| Id := Id b; GroupId := GroupId b; AssetShareValue := AssetShareValue b;
     LiabilityShareValue := LiabilityShareValue b;
     LiquidityVault := LiquidityVault b; InsuranceVault := InsuranceVault b;
     FeeVault := FeeVault b;
     CollectedInsuranceFeesOutstanding := CollectedInsuranceFeesOutstanding b;
     CollectedGroupFeesOutstanding := CollectedGroupFeesOutstanding b;
     TotalLiabilityShares := TotalLiabilityShares b;
     TotalAssetShares := TotalAssetShares b; Flags := v;
     BankConfig := BankConfig b; EmissionsRate := EmissionsRate b;
     EmissionsRemaining := EmissionsRemaining b; CreatedAt := CreatedAt b;
     LastUpdate := LastUpdate b; DeletedAt := DeletedAt b |}.

Definition set_InsuranceVault (v : Decimal) (b : t) : t :=
  {| Id := Id b; GroupId := GroupId b; AssetShareValue := AssetShareValue b;
     LiabilityShareValue := LiabilityShareValue b;
     LiquidityVault := LiquidityVault b; InsuranceVault := v;
     FeeVault := FeeVault b;
     CollectedInsuranceFeesOutstanding := CollectedInsuranceFeesOutstanding b;
     CollectedGroupFeesOutstanding := CollectedGroupFeesOutstanding b;
     TotalLiabilityShares := TotalLiabilityShares b;
     TotalAssetShares := TotalAssetShares b; Flags := Flags b;
     BankConfig := BankConfig b; EmissionsRate := EmissionsRate b;
     EmissionsRemaining := EmissionsRemaining b; CreatedAt := CreatedAt b;
     LastUpdate := LastUpdate b; DeletedAt := DeletedAt b |}.

Definition OverrideEmissionsFlag (flag : BankFlags) : M t unit :=
  modify (set_Flags flag).

Definition UpdateFlag (value : bool) (flag : BankFlags) : M t unit :=
  if value
  then modify (fun b => set_Flags (Z.lor (Flags b) flag) b)
  else modify (fun b => set_Flags (Z.land (Flags b) (uint8_not flag)) b).

Definition VerifyEmissionsFlags (flags : BankFlags) : bool :=
  (Z.land flags BankFlagsEmissionsActive =? flags)%Z.

Definition VerifyGroupFlags (flags : BankFlags) : bool :=
  (Z.land flags BankFlagsGroupActive =? flags)%Z.

Definition SocializeLoss (lossAmount : Decimal) : M t unit :=
  b <~ get ;;
  if IsZero (TotalAssetShares b)
     || GreaterThanOrEqual lossAmount
          (Mul (TotalAssetShares b) (AssetShareValue b))
  then ret tt
  else
    let totalAssetShares := TotalAssetShares b in
    let oldAssetShareValue := AssetShareValue b in
    newShareValue <~
      lift (Div (Sub (Mul totalAssetShares oldAssetShareValue) lossAmount)
                totalAssetShares) ;;
    modify (set_AssetShareValue newShareValue).

Definition TransferFromInsuranceToLiquidity (amount : Decimal) : M t unit :=
  _ <~ modify (fun b => set_InsuranceVault (Sub (InsuranceVault b) amount) b) ;;
  modify (fun b => set_LiquidityVault (Add (LiquidityVault b) amount) b).

Definition GetAssetQuantity (b : t) (assetShares : Decimal) : Decimal :=
  Mul assetShares (AssetShareValue b).

Definition GetLiabilityQuantity (b : t) (liabilityShares : Decimal) : Decimal :=
  Mul liabilityShares (LiabilityShareValue b).

Definition GetPriceWithConfidence (b : t) (oraclePrice : Decimal)
  (weighted : bool) : Decimal :=
  oraclePrice.

Definition GetPrice (b : t) (oraclePrice : Decimal) (priceBias : PriceBias)
  (weightedPrice : bool) : Decimal :=
  let price := GetPriceWithConfidence b oraclePrice weightedPrice in
  let confidenceInterval := GetConfidenceInterval price in
  match priceBias with
  | Low => Sub price confidenceInterval
  | High => Add price confidenceInterval
  | Original => price
  end.

Definition ComputeUsdValue (b : t) (oraclePrice quantity : Decimal)
  (priceBias : PriceBias) (weightedPrice : bool) (weight : Decimal)
  (scaleToBase : bool) : Decimal :=
  let price := GetPrice b oraclePrice priceBias weightedPrice in
  Mul (Mul quantity price) weight.

(** [GetAssetWeight] and [ComputeAssetUsdValue] call each other in the
    source; the cycle ends after one round, because [GetAssetWeight] calls
    [ComputeAssetUsdValue] at [Equity] only, where the weight is [ONE]
    without a further call.  [ComputeAssetUsdValueEquity] is that inner
    call, [ComputeAssetUsdValue(oraclePrice, assetShares, Equity,
    priceBias)], with its own calls of [GetAssetWeight(Equity, ..)] and of
    [isWeightedPrice(Equity)] evaluated. *)
Definition ComputeAssetUsdValueEquity (b : t) (oraclePrice assetShares : Decimal)
  (priceBias : PriceBias) : Decimal :=
  let assetQuantity := GetAssetQuantity b assetShares in
  let assetWeight := ONE in
  let isWeighted := isWeightedPrice Equity in
  ComputeUsdValue b oraclePrice assetQuantity priceBias isWeighted assetWeight true.

Definition GetAssetWeight (b : t) (requirementType : RequirementType)
  (oraclePrice : Decimal) (ignoreSoftLimits : bool) : result Decimal :=
  match requirementType with
  | Initial =>
      let isSoftLimitDisabled :=
        IsZero (BankConfig.TotalAssetValueInitLimit (BankConfig b)) in
      if ignoreSoftLimits || isSoftLimitDisabled
      then Ok (BankConfig.AssetWeightInit (BankConfig b))
      else
        let totalBankCollateralValue :=
          ComputeAssetUsdValueEquity b oraclePrice (TotalAssetShares b) Low in
        if GreaterThan totalBankCollateralValue
             (BankConfig.TotalAssetValueInitLimit (BankConfig b))
        then
          q <- Div (BankConfig.TotalAssetValueInitLimit (BankConfig b))
                   totalBankCollateralValue ;;
          Ok (Mul q (BankConfig.AssetWeightInit (BankConfig b)))
        else Ok (BankConfig.AssetWeightInit (BankConfig b))
  | Maintenance => Ok (BankConfig.AssetWeightMaint (BankConfig b))
  | Equity => Ok ONE
  end.

Definition ComputeAssetUsdValue (b : t) (oraclePrice assetShares : Decimal)
  (requirementType : RequirementType) (priceBias : PriceBias)
  : result Decimal :=
  let assetQuantity := GetAssetQuantity b assetShares in
  assetWeight <- GetAssetWeight b requirementType oraclePrice false ;;
  let isWeighted := isWeightedPrice requirementType in
  Ok (ComputeUsdValue b oraclePrice assetQuantity priceBias isWeighted
        assetWeight true).

Definition GetLiabilityWeight (b : t) (requirementType : RequirementType)
  : Decimal :=
  match requirementType with
  | Initial => BankConfig.LiabilityWeightInit (BankConfig b)
  | Maintenance => BankConfig.LiabilityWeightMaint (BankConfig b)
  | Equity => ONE
  end.

Definition ComputeLiabilityUsdValue (b : t)
  (oraclePrice liabilityShares : Decimal)
  (requirementType : RequirementType) (priceBias : PriceBias) : Decimal :=
  let liabilityQuantity := GetLiabilityQuantity b liabilityShares in
  let liabilityWeight := GetLiabilityWeight b requirementType in
  let isWeighted := isWeightedPrice requirementType in
  ComputeUsdValue b oraclePrice liabilityQuantity priceBias isWeighted
    liabilityWeight true.

Definition ComputeTvl (b : t) (oraclePrice : Decimal) : result Decimal :=
  assets <- ComputeAssetUsdValue b oraclePrice (TotalAssetShares b) Equity
              Original ;;
  Ok (Sub assets
        (ComputeLiabilityUsdValue b oraclePrice (TotalLiabilityShares b)
           Equity Original)).

Definition ComputeUtilizationRate (b : t) : result Decimal :=
  let totalDeposits := GetTotalAssetQuantity b in
  if IsZero totalDeposits then Ok Zero
  else Div (GetTotalLiabilityQuantity b) totalDeposits.

(** [now] is [clk.Now().Unix()].  An error of [CalcInterestRate] turns
    into the answer (0, 0). *)
Definition ComputeRemainingCapacity (b : t) (now : Z)
  : result (Decimal * Decimal) :=
  let totalDeposits := GetTotalAssetQuantity b in
  let remainingCapacity :=
    Max Zero (Sub (BankConfig.DepositLimit (BankConfig b)) totalDeposits) in
  let totalBorrows := GetTotalLiabilityQuantity b in
  let remainingBorrowCapacity :=
    Max Zero (Sub (BankConfig.LiabilityLimit (BankConfig b)) totalBorrows) in
  let durationSinceLastAccrual := Int64.sub now (LastUpdate b) in
  utilizationRate <- ComputeUtilizationRate b ;;
  match InterestRateConfig.CalcInterestRate
          (BankConfig.InterestRateConfig (BankConfig b)) utilizationRate with
  | Panic p => Panic p
  | Err _ => Ok (Zero, Zero)
  | Ok (lendingRate, borrowingRate, _, _) =>
      l <- Div (Mul lendingRate (NewFromInt durationSinceLastAccrual))
               (NewFromInt SECONDS_PER_YEAR) ;;
      let outstandingLendingInterest := Mul l totalDeposits in
      r <- Div (Mul borrowingRate (NewFromInt durationSinceLastAccrual))
               (NewFromInt SECONDS_PER_YEAR) ;;
      let outstandingBorrowInterest := Mul r totalBorrows in
      Ok (Sub remainingCapacity outstandingLendingInterest,
          Sub remainingBorrowCapacity outstandingBorrowInterest)
  end.

End Bank.

(* ================================================================== *)
(** ** Balance (core/balance.go) and account (core/account.go) *)

Module Balance.

Record t : Type := {
  AccountId : UUID;
  BankId : UUID;
  Active : bool;
  AssetShares : Decimal;
  LiabilityShares : Decimal;
  EmissionsOutstanding : Decimal;
  LastUpdate : Z
}.

Definition set_AssetShares (v : Decimal) (b : t) : t :=
  {| AccountId := AccountId b; BankId := BankId b; Active := Active b;
     AssetShares := v; LiabilityShares := LiabilityShares b;
     EmissionsOutstanding := EmissionsOutstanding b;
     LastUpdate := LastUpdate b |}.

Definition set_LiabilityShares (v : Decimal) (b : t) : t :=
  {| AccountId := AccountId b; BankId := BankId b; Active := Active b;
     AssetShares := AssetShares b; LiabilityShares := v;
     EmissionsOutstanding := EmissionsOutstanding b;
     LastUpdate := LastUpdate b |}.

Definition set_EmissionsOutstanding (v : Decimal) (b : t) : t :=
  {| AccountId := AccountId b; BankId := BankId b; Active := Active b;
     AssetShares := AssetShares b; LiabilityShares := LiabilityShares b;
     EmissionsOutstanding := v;
     LastUpdate := LastUpdate b |}.

Definition set_LastUpdate (v : Z) (b : t) : t :=
  {| AccountId := AccountId b; BankId := BankId b; Active := Active b;
     AssetShares := AssetShares b; LiabilityShares := LiabilityShares b;
     EmissionsOutstanding := EmissionsOutstanding b;
     LastUpdate := v |}.

Definition IsEmpty (b : t) (side : BalanceSide) : bool :=
  match side with
  | BalanceSideAssets => LessThan (AssetShares b) EMPTY_BALANCE_THRESHOLD
  | BalanceSideLiabilities => LessThan (LiabilityShares b) EMPTY_BALANCE_THRESHOLD
  | BalanceSideEmpty => true
  end.

Definition ChangeAssetShares (delta : Decimal) : M t unit :=
  b <~ get ;;
  let assetShares := Add (AssetShares b) delta in
  if LessThan assetShares Zero then throw BankLiabilityCapacityExceeded
  else modify (set_AssetShares assetShares).

Definition ChangeLiabilityShares (delta : Decimal) : M t unit :=
  b <~ get ;;
  let liabilityShares := Add (LiabilityShares b) delta in
  if LessThan liabilityShares Zero then throw BankLiabilityCapacityExceeded
  else modify (set_LiabilityShares liabilityShares).

(** [now] is the reading of the clock handed in. *)
Definition EmptyDeactivated (now : Z) : M t unit :=
  modify (fun b =>
    {| AccountId := AccountId b; BankId := BankId b; Active := false;
       AssetShares := Zero; LiabilityShares := Zero;
       EmissionsOutstanding := Zero; LastUpdate := now |}).

Definition Close (now : Z) : M t unit :=
  b <~ get ;;
  if GreaterThanOrEqual (EmissionsOutstanding b) EMPTY_BALANCE_THRESHOLD
  then throw CannotCloseOutstandingEmissions
  else EmptyDeactivated now.

Definition GetSide (b : t) : result BalanceSide :=
  let assetShares := AssetShares b in
  let liabilityShares := LiabilityShares b in
  if GreaterThan assetShares ZERO_AMOUNT_THRESHOLD
     && GreaterThan liabilityShares ZERO_AMOUNT_THRESHOLD
  then Err IllegalBalanceState
  else if GreaterThanOrEqual assetShares EMPTY_BALANCE_THRESHOLD
  then Ok BalanceSideAssets
  else if GreaterThanOrEqual liabilityShares EMPTY_BALANCE_THRESHOLD
  then Ok BalanceSideLiabilities
  else Ok BalanceSideEmpty.

(** [now] is the reading of the clock handed in. *)
Definition NewBalance (now : Z) (accountId bankId : UUID) : t :=
  {| AccountId := accountId; BankId := bankId; Active := true;
     AssetShares := Zero; LiabilityShares := Zero;
     EmissionsOutstanding := Zero; LastUpdate := now |}.

(** Returns (assetsValue, liabilitiesValue). *)
Definition ComputeUsdValue (b : t) (bank : Bank.t) (oraclePrice : Decimal)
  (requirementType : RequirementType) : result (Decimal * Decimal) :=
  assetsValue <- Bank.ComputeAssetUsdValue bank oraclePrice (AssetShares b)
                   requirementType Original ;;
  let liabilitiesValue :=
    Bank.ComputeLiabilityUsdValue bank oraclePrice (LiabilityShares b)
      requirementType Original in
  Ok (assetsValue, liabilitiesValue).

Definition GetUsdValueWithPriceBias (b : t) (bank : Bank.t)
  (oraclePrice : Decimal) (requirementType : RequirementType)
  : result (Decimal * Decimal) :=
  assetsValue <- Bank.ComputeAssetUsdValue bank oraclePrice (AssetShares b)
                   requirementType Low ;;
  let liabilitiesValue :=
    Bank.ComputeLiabilityUsdValue bank oraclePrice (LiabilityShares b)
      requirementType High in
  Ok (assetsValue, liabilitiesValue).

Definition ComputeQuantity (b : t) (bank : Bank.t) : Decimal * Decimal :=
  let assetsQuantity := Bank.GetAssetQuantity bank (AssetShares b) in
  let liabilitiesQuantity := Bank.GetLiabilityQuantity bank (LiabilityShares b) in
  (assetsQuantity, liabilitiesQuantity).

End Balance.

Module Account.

(** The type [AccountFlags], which the field of the same name hides. *)
Definition flags : Type := AccountFlags.

Record t : Type := {
  Id : UUID;
  GroupId : UUID;
  AccountFlags : flags;
  Index : Z;
  CreatedAt : Z;
  UpdatedAt : Z
}.

Definition GetFlag (a : t) (flag : flags) : bool :=
  negb (Z.land (AccountFlags a) flag =? 0)%Z.

Definition set_AccountFlags (v : flags) (a : t) : t :=
  {| Id := Id a; GroupId := GroupId a; AccountFlags := v; Index := Index a;
     CreatedAt := CreatedAt a; UpdatedAt := UpdatedAt a |}.

Definition SetFlag (flag : flags) : M t unit :=
  modify (fun a => set_AccountFlags (Z.lor (AccountFlags a) flag) a).

Definition UnsetFlag (flag : flags) : M t unit :=
  modify (fun a =>
    set_AccountFlags (Z.land (AccountFlags a) (uint8_not flag)) a).

End Account.

(** The function [GetAccountHealth] of core/account.go. *)
Definition GetAccountHealth (totalAssets totalLiabilities : Decimal)
  : result Decimal :=
  let health := ONE in
  if IsZero totalLiabilities then Ok health
  else if IsPositive totalAssets
  then Div (Sub totalAssets totalLiabilities) totalAssets
  else Ok health.

(* ================================================================== *)
(** ** The bank-account wrapper (core/bank_account.go) *)

Module BankAccountWrapper.

(** [clk] is the reading [clk.Now().Unix()] of the clock the wrapper was
    built with; [Balance] and [Bank] are the two objects the wrapper
    points to and mutates. *)
Record t : Type := {
  clk : Z;
  Balance : Balance.t;
  Bank : Bank.t
}.

Definition set_Balance (v : Balance.t) (ba : t) : t :=
  {| clk := clk ba; Balance := v; Bank := Bank ba |}.
Definition set_Bank (v : Bank.t) (ba : t) : t :=
  {| clk := clk ba; Balance := Balance ba; Bank := v |}.

Definition onBalance {A : Type} (c : M Balance.t A) : M t A :=
  zoom Balance set_Balance c.
Definition onBank {A : Type} (c : M Bank.t A) : M t A :=
  zoom Bank set_Bank c.

Definition ClaimEmissions (currentTimestamp : Z) : M t unit :=
  ba <~ get ;;
  side <~ lift (Balance.GetSide (Balance ba)) ;;
  let claim (balanceAmount : Decimal) : M t unit :=
    let lastUpdate := Balance.LastUpdate (Balance ba) in
    let lastUpdate :=
      if (lastUpdate <? MIN_EMISSIONS_START_TIME)%Z then currentTimestamp
      else lastUpdate in
    let period := Int64.sub currentTimestamp lastUpdate in
    if (period <=? 0)%Z then ret tt
    else
      let emissionsRate := Bank.EmissionsRate (Bank ba) in
      _ <~ onBalance (modify (Balance.set_LastUpdate currentTimestamp)) ;;
      emissions <~ lift (CalcEmissions period balanceAmount emissionsRate) ;;
      ba1 <~ get ;;
      let emissionsReal := Min emissions (Bank.EmissionsRemaining (Bank ba1)) in
      _ <~ onBalance (modify (fun b => Balance.set_EmissionsOutstanding
             (Add (Balance.EmissionsOutstanding b) emissionsReal) b)) ;;
      onBank (modify (fun b => Bank.set_EmissionsRemaining
             (Sub (Bank.EmissionsRemaining b) emissionsReal) b)) in
  match side with
  | BalanceSideAssets =>
      if Bank.GetFlag (Bank ba) BankFlagsLendingActive then
        amount <~ lift (Bank.GetAssetAmount (Bank ba)
                          (Balance.AssetShares (Balance ba))) ;;
        claim amount
      else ret tt
  | BalanceSideLiabilities =>
      if Bank.GetFlag (Bank ba) BankFlagsBorrowActive then
        amount <~ lift (Bank.GetLiabilityAmount (Bank ba)
                          (Balance.LiabilityShares (Balance ba))) ;;
        claim amount
      else ret tt
  | BalanceSideEmpty => ret tt
  end.

Definition IncreaseBalanceInternal (balanceDelta : Decimal)
  (operationType : BalanceIncreaseType) : M t unit :=
  ba0 <~ get ;;
  let currentTimestamp := clk ba0 in
  _ <~ discard (ClaimEmissions currentTimestamp) ;;
  ba <~ get ;;
  let currentLiabilityShares := Balance.LiabilityShares (Balance ba) in
  currentLiabilityAmount <~
    lift (Bank.GetLiabilityAmount (Bank ba) currentLiabilityShares) ;;
  let liabilityAmountDecrease := Min currentLiabilityAmount balanceDelta in
  let assetAmountIncrease :=
    Max (Sub balanceDelta currentLiabilityAmount) Zero in
  _ <~ match operationType with
       | BalanceIncreaseTypeRepayOnly =>
           if negb (IsZero assetAmountIncrease) then throw OperationRepayOnly
           else ret tt
       | BalanceIncreaseTypeDepositOnly =>
           if negb (IsZero liabilityAmountDecrease) then throw OperationDepositOnly
           else ret tt
       | _ => ret tt
       end ;;
  _ <~ lift (Bank.AssertOperationalMode (Bank ba)
               (GreaterThan assetAmountIncrease ZERO_AMOUNT_THRESHOLD)) ;;
  assetSharesIncrease <~ lift (Bank.GetAssetShares (Bank ba) assetAmountIncrease) ;;
  _ <~ onBalance (Balance.ChangeAssetShares assetSharesIncrease) ;;
  _ <~ onBank (Bank.ChangeAssetShares assetSharesIncrease
                 (BalanceIncreaseType_eqb operationType
                    BalanceIncreaseTypeBypassDepositLimit)) ;;
  ba1 <~ get ;;
  liabilitySharesDecrease <~
    lift (Bank.GetLiabilityShares (Bank ba1) liabilityAmountDecrease) ;;
  _ <~ onBalance (Balance.ChangeLiabilityShares
                    (Mul liabilitySharesDecrease (NewFromInt (-1)))) ;;
  _ <~ onBank (Bank.ChangeLiabilityShares
                 (Mul liabilitySharesDecrease (NewFromInt (-1))) true) ;;
  ba2 <~ get ;;
  lift (Bank.CheckUtilizationRatio (Bank ba2)).

Definition DecreaseBalanceInternal (balanceDelta : Decimal)
  (operationType : BalanceDecreaseType) : M t unit :=
  ba0 <~ get ;;
  let currentTimestamp := clk ba0 in
  _ <~ ClaimEmissions currentTimestamp ;;
  ba <~ get ;;
  let currentAssetShares := Balance.AssetShares (Balance ba) in
  currentAssetAmount <~
    lift (Bank.GetAssetAmount (Bank ba) currentAssetShares) ;;
  let assetAmountDecrease := Min currentAssetAmount balanceDelta in
  let liabilityAmountIncrease :=
    Max (Sub balanceDelta currentAssetAmount) Zero in
  _ <~ match operationType with
       | BalanceDecreaseTypeWithdrawOnly =>
           if negb (IsZero liabilityAmountIncrease) then throw OperationWithdrawOnly
           else ret tt
       | BalanceDecreaseTypeBorrowOnly =>
           if negb (IsZero assetAmountDecrease) then throw OperationBorrowOnly
           else ret tt
       | _ => ret tt
       end ;;
  _ <~ lift (Bank.AssertOperationalMode (Bank ba)
               (GreaterThan liabilityAmountIncrease ZERO_AMOUNT_THRESHOLD)) ;;
  assetSharesDecrease <~ lift (Bank.GetAssetShares (Bank ba) assetAmountDecrease) ;;
  _ <~ onBalance (Balance.ChangeAssetShares
                    (Mul assetSharesDecrease (NewFromInt (-1)))) ;;
  _ <~ onBank (Bank.ChangeAssetShares
                 (Mul assetSharesDecrease (NewFromInt (-1))) false) ;;
  ba1 <~ get ;;
  liabilitySharesIncrease <~
    lift (Bank.GetLiabilityShares (Bank ba1) liabilityAmountIncrease) ;;
  _ <~ onBalance (Balance.ChangeLiabilityShares liabilitySharesIncrease) ;;
  _ <~ onBank (Bank.ChangeLiabilityShares liabilitySharesIncrease
                 (BalanceDecreaseType_eqb operationType
                    BalanceDecreaseTypeBypassBorrowLimit)) ;;
  ba2 <~ get ;;
  lift (Bank.CheckUtilizationRatio (Bank ba2)).

Definition Deposit (amount : Decimal) : M t unit :=
  IncreaseBalanceInternal amount BalanceIncreaseTypeAny.
Definition Repay (amount : Decimal) : M t unit :=
  IncreaseBalanceInternal amount BalanceIncreaseTypeRepayOnly.
Definition Withdraw (amount : Decimal) : M t unit :=
  DecreaseBalanceInternal amount BalanceDecreaseTypeWithdrawOnly.
Definition Borrow (amount : Decimal) : M t unit :=
  DecreaseBalanceInternal amount BalanceDecreaseTypeAny.

(** Returns the amount to hand out. *)
Definition WithdrawAll : M t Decimal :=
  ba0 <~ get ;;
  let currentTimestamp := clk ba0 in
  _ <~ ClaimEmissions currentTimestamp ;;
  ba <~ get ;;
  _ <~ lift (Bank.AssertOperationalMode (Bank ba) false) ;;
  let totalAssetShares := Balance.AssetShares (Balance ba) in
  let totalLiabilityShares := Balance.LiabilityShares (Balance ba) in
  currentLiabilityAmount <~
    lift (Bank.GetLiabilityAmount (Bank ba) totalLiabilityShares) ;;
  if negb (LessThan currentLiabilityAmount EMPTY_BALANCE_THRESHOLD)
  then throw NoAssetFound
  else
    currentAssetAmount <~
      lift (Bank.GetAssetAmount (Bank ba) totalAssetShares) ;;
    if negb (GreaterThan currentAssetAmount ZERO_AMOUNT_THRESHOLD)
    then throw NoAssetFound
    else
      _ <~ onBalance (Balance.Close (clk ba)) ;;
      _ <~ discard (onBank (Bank.ChangeAssetShares
                              (Mul totalAssetShares (NewFromInt (-1))) false)) ;;
      ba1 <~ get ;;
      _ <~ lift (Bank.CheckUtilizationRatio (Bank ba1)) ;;
      let splWithdrawAmount := Truncate currentAssetAmount 8 in
      _ <~ onBank (modify (fun b => Bank.set_CollectedInsuranceFeesOutstanding
             (Add (Bank.CollectedInsuranceFeesOutstanding b)
                  (Sub currentAssetAmount splWithdrawAmount)) b)) ;;
      ret splWithdrawAmount.

(** Returns the amount the user owes. *)
Definition RepayAll : M t Decimal :=
  ba0 <~ get ;;
  let currentTimestamp := clk ba0 in
  _ <~ discard (ClaimEmissions currentTimestamp) ;;
  ba <~ get ;;
  _ <~ lift (Bank.AssertOperationalMode (Bank ba) false) ;;
  let totalAssetAmount := Balance.AssetShares (Balance ba) in
  let totalLiabilityAmount := Balance.LiabilityShares (Balance ba) in
  currentLiabilityAmount <~
    lift (Bank.GetLiabilityAmount (Bank ba) totalLiabilityAmount) ;;
  if negb (GreaterThan currentLiabilityAmount ZERO_AMOUNT_THRESHOLD)
  then throw NoLiabilityFound
  else
    currentAssetAmount <~
      lift (Bank.GetAssetAmount (Bank ba) totalAssetAmount) ;;
    if negb (LessThan currentAssetAmount EMPTY_BALANCE_THRESHOLD)
    then throw NoAssetFound
    else
      _ <~ onBalance (Balance.Close (clk ba)) ;;
      _ <~ onBank (Bank.ChangeLiabilityShares
                     (Mul totalLiabilityAmount (NewFromInt (-1))) false) ;;
      let splDepositAmount := RoundCeil currentLiabilityAmount 5 in
      let insuranceFeeIncrease := Sub splDepositAmount currentLiabilityAmount in
      _ <~ onBank (modify (fun b => Bank.set_CollectedInsuranceFeesOutstanding
             (Add (Bank.CollectedInsuranceFeesOutstanding b)
                  insuranceFeeIncrease) b)) ;;
      ba1 <~ get ;;
      _ <~ (if IsPositive (Bank.LiquidityVault (Bank ba1)) then
              _ <~ onBank (modify (fun b => Bank.set_LiquidityVault
                     (Sub (Bank.LiquidityVault b) insuranceFeeIncrease) b)) ;;
              onBank Bank.NormalizeLiquidityVault
            else ret tt) ;;
      ba2 <~ get ;;
      if IsNegative (Bank.LiquidityVault (Bank ba2))
      then throw ErrBankLiquidityDeficit
      else ret splDepositAmount.

Definition IncreaseBalance (amount : Decimal) : M t unit :=
  IncreaseBalanceInternal amount BalanceIncreaseTypeAny.
Definition IncreaseBalanceInLiquidation (amount : Decimal) : M t unit :=
  IncreaseBalanceInternal amount BalanceIncreaseTypeBypassDepositLimit.
Definition DecreaseBalanceInLiquidation (amount : Decimal) : M t unit :=
  DecreaseBalanceInternal amount BalanceDecreaseTypeBypassBorrowLimit.

Definition CloseBalance : M t unit :=
  ba0 <~ get ;;
  let currentTimestamp := clk ba0 in
  _ <~ discard (ClaimEmissions currentTimestamp) ;;
  ba <~ get ;;
  currentLiabilityAmount <~
    lift (Bank.GetLiabilityAmount (Bank ba)
            (Balance.LiabilityShares (Balance ba))) ;;
  currentAssetAmount <~
    lift (Bank.GetAssetAmount (Bank ba) (Balance.AssetShares (Balance ba))) ;;
  if negb (LessThan currentLiabilityAmount EMPTY_BALANCE_THRESHOLD)
  then throw IllegalBalanceState
  else if negb (LessThan currentAssetAmount EMPTY_BALANCE_THRESHOLD)
  then throw IllegalBalanceState
  else onBalance (Balance.Close (clk ba)).

(** Returns the amount that can be paid out; the function returns no
    error. *)
Definition SettleEmissionsAndGetTransferAmount : M t Decimal :=
  ba0 <~ get ;;
  let currentTimestamp := clk ba0 in
  _ <~ discard (ClaimEmissions currentTimestamp) ;;
  ba <~ get ;;
  let emissionsOutstanding := Balance.EmissionsOutstanding (Balance ba) in
  let emissionsOutstandingFloored := Truncate emissionsOutstanding 8 in
  let emissionsOutstanding :=
    Sub emissionsOutstanding emissionsOutstandingFloored in
  _ <~ onBalance (modify (Balance.set_EmissionsOutstanding emissionsOutstanding)) ;;
  ba1 <~ get ;;
  _ <~ (if GreaterThan (Balance.EmissionsOutstanding (Balance ba1)) Zero then
          _ <~ onBank (modify (fun b => Bank.set_EmissionsRemaining
                 (Add (Bank.EmissionsRemaining b)
                      (Balance.EmissionsOutstanding (Balance ba1))) b)) ;;
          onBalance (modify (Balance.set_EmissionsOutstanding Zero))
        else ret tt) ;;
  ret emissionsOutstandingFloored.

End BankAccountWrapper.

(** *** The cases of [ClaimEmissions], named for the statements below *)

(** [period], as [ClaimEmissions] computes it from the balance's stamp. *)
Definition emissionsPeriod (now : Z) (ba : BankAccountWrapper.t) : Z :=
  let bal := BankAccountWrapper.Balance ba in
  Int64.sub now
    (if (Balance.LastUpdate bal <? MIN_EMISSIONS_START_TIME)%Z then now
     else Balance.LastUpdate bal).

(** [balanceAmount] is [amount]: the balance is on the asset side of a bank
    with [LendingActive], or on the liability side of one with
    [BorrowActive]. *)
Definition claimable (ba : BankAccountWrapper.t) (amount : Decimal) : Prop :=
  let bal := BankAccountWrapper.Balance ba in
  let bank := BankAccountWrapper.Bank ba in
  (Balance.GetSide bal = Ok BalanceSideAssets
   /\ Bank.GetFlag bank BankFlagsLendingActive = true
   /\ amount = Mul (Balance.AssetShares bal) (Bank.AssetShareValue bank))
  \/ (Balance.GetSide bal = Ok BalanceSideLiabilities
      /\ Bank.GetFlag bank BankFlagsBorrowActive = true
      /\ amount = Mul (Balance.LiabilityShares bal) (Bank.LiabilityShareValue bank)).

(** The wrapper once the balance's stamp is set to [now]. *)
Definition stamped (now : Z) (ba : BankAccountWrapper.t) : BankAccountWrapper.t :=
  BankAccountWrapper.set_Balance
    (Balance.set_LastUpdate now (BankAccountWrapper.Balance ba)) ba.

(** The wrapper once [amount] has moved from the bank's emissions budget to
    the balance. *)
Definition credited (now : Z) (ba : BankAccountWrapper.t) (amount : Decimal)
  : BankAccountWrapper.t :=
  let bal := BankAccountWrapper.Balance ba in
  let bank := BankAccountWrapper.Bank ba in
  {| BankAccountWrapper.clk := BankAccountWrapper.clk ba;
     BankAccountWrapper.Balance :=
       Balance.set_EmissionsOutstanding
         (Add (Balance.EmissionsOutstanding bal) amount)
         (Balance.set_LastUpdate now bal);
     BankAccountWrapper.Bank :=
       Bank.set_EmissionsRemaining
         (Sub (Bank.EmissionsRemaining bank) amount) bank |}.

(** What [ClaimEmissions] leaves untouched: the clock, the shares of the
    balance, the share values, the totals and the configuration of the
    bank. *)
Definition same_position (ba s : BankAccountWrapper.t) : Prop :=
  BankAccountWrapper.clk s = BankAccountWrapper.clk ba
  /\ Balance.AssetShares (BankAccountWrapper.Balance s)
     = Balance.AssetShares (BankAccountWrapper.Balance ba)
  /\ Balance.LiabilityShares (BankAccountWrapper.Balance s)
     = Balance.LiabilityShares (BankAccountWrapper.Balance ba)
  /\ Bank.AssetShareValue (BankAccountWrapper.Bank s)
     = Bank.AssetShareValue (BankAccountWrapper.Bank ba)
  /\ Bank.LiabilityShareValue (BankAccountWrapper.Bank s)
     = Bank.LiabilityShareValue (BankAccountWrapper.Bank ba)
  /\ Bank.TotalAssetShares (BankAccountWrapper.Bank s)
     = Bank.TotalAssetShares (BankAccountWrapper.Bank ba)
  /\ Bank.TotalLiabilityShares (BankAccountWrapper.Bank s)
     = Bank.TotalLiabilityShares (BankAccountWrapper.Bank ba)
  /\ Bank.BankConfig (BankAccountWrapper.Bank s)
     = Bank.BankConfig (BankAccountWrapper.Bank ba).

(** The errors [ClaimEmissions] can return. *)
Definition claim_error (e : Error) : Prop :=
  e = IllegalBalanceState \/ e = MathError.

(** The errors of the share mutations and of the final utilization check. *)
Definition mutation_error (e : Error) : Prop :=
  e = BankLiabilityCapacityExceeded \/ e = BankAssetCapacityExceeded
  \/ e = IllegalUtilizationRatio.

(** The liquidity vault after [RepayAll] has taken the rounding surplus
    from it. *)
Definition vaultAfterRepayAll (vault surplus : Decimal) : Decimal :=
  if IsPositive vault
  then if LessThan (Sub vault surplus) EMPTY_BALANCE_THRESHOLD then Zero
       else Sub vault surplus
  else vault.

(** [x * timeDelta / SECONDS_PER_YEAR], as the accrual helpers compute it. *)
Definition perPeriod (timeDelta : Z) (x : Decimal) : Decimal :=
  DivRound (Mul x (NewFromInt timeDelta)) (NewFromInt SECONDS_PER_YEAR)
    DivisionPrecision.

(* ================================================================== *)
(** ** A position with its price feed, and the risk engine
       (core/bank_account.go, core/risk_engine.go) *)

(** The [PriceAdapter] interface. *)
Record PriceAdapter : Type := {
  GetPriceOfType : OraclePriceType -> PriceBias -> result Decimal;
  GetAllPriceType : result (Decimal * Decimal * Decimal)
}.

Module BankAccountWithPriceFeed.

(** [PriceFeed] is an interface value: [None] is [nil]. *)
Record t : Type := {
  Bank : Bank.t;
  Balance : Balance.t;
  PriceFeed : option PriceAdapter
}.

Definition CalcWeightedLiabs (ba : t) (requirementType : RequirementType)
  : result Decimal :=
  match BankConfig.RiskTier (Bank.BankConfig (Bank ba)) with
  | Collateral =>
      match PriceFeed ba with
      | None => Ok Zero
      | Some priceFeed =>
          let liabilityWeight :=
            BankConfig.GetWeight (Bank.BankConfig (Bank ba))
              requirementType BalanceSideLiabilities in
          higherPrice <-
            GetPriceOfType priceFeed (GetOraclePriceType requirementType) High ;;
          amount <- Bank.GetLiabilityAmount (Bank ba)
                      (Balance.LiabilityShares (Balance ba)) ;;
          CalcValue amount higherPrice (Some liabilityWeight)
      end
  | _ => Ok Zero
  end.

Definition CalcWeightedAssets (ba : t) (requirementType : RequirementType)
  : result Decimal :=
  match BankConfig.RiskTier (Bank.BankConfig (Bank ba)) with
  | Collateral =>
      match PriceFeed ba with
      | None => Ok Zero
      | Some priceFeed =>
          let assetWeight :=
            BankConfig.GetWeight (Bank.BankConfig (Bank ba))
              requirementType BalanceSideAssets in
          lowPrice <-
            GetPriceOfType priceFeed (GetOraclePriceType requirementType) Low ;;
          assetWeight <-
            match requirementType with
            | Initial =>
                discount <- Bank.MaybeGetAssetWeightInitDiscount (Bank ba) lowPrice ;;
                if GreaterThan discount Zero
                then Ok (Mul assetWeight discount)
                else Ok assetWeight
            | _ => Ok assetWeight
            end ;;
          amount <- Bank.GetAssetAmount (Bank ba)
                      (Balance.AssetShares (Balance ba)) ;;
          weightedPrice <- CalcValue amount lowPrice (Some assetWeight) ;;
          Ok weightedPrice
      end
  | _ => Ok Zero
  end.

(** Returns (weighted assets, weighted liabilities). *)
Definition CalcWeightedAssetsAndLiabsValues (ba : t)
  (requirementType : RequirementType) : result (Decimal * Decimal) :=
  side <- Balance.GetSide (Balance ba) ;;
  match side with
  | BalanceSideAssets =>
      assets <- CalcWeightedAssets ba requirementType ;;
      Ok (assets, Zero)
  | BalanceSideLiabilities =>
      liabs <- CalcWeightedLiabs ba requirementType ;;
      Ok (Zero, liabs)
  | BalanceSideEmpty => Ok (Zero, Zero)
  end.

(** A method on a pointer: the receiver [None] is the nil pointer, and
    reading [ba.Balance] through it panics. *)
Definition IsEmpty (ba : option t) (side : BalanceSide) : result bool :=
  match ba with
  | None => Panic NilPointerDereference
  | Some a => Ok (Balance.IsEmpty (Balance a) side)
  end.

End BankAccountWithPriceFeed.

(* ================================================================== *)
(** ** Loading the positions of an account (core/bank_account.go) *)

(** The calls made on [BankAccountService] (its stores) and on
    [PriceAdapterMgr]; the context argument is dropped.  A bank, an
    account or a list handed back without an error is not nil; the price
    adapter, an interface value, may be.  [FindBalance] hands back a
    pointer and an error, and its caller looks at both: [None] is [nil] in
    either place. *)
Record BankAccountService : Type := {
  FindBalance : UUID -> UUID -> option Balance.t * option Error;
  ListBalances : UUID -> UUID -> result (list Balance.t);
  GetBankById : UUID -> result Bank.t;
  GetAccountById : UUID -> result Account.t
}.

Record PriceAdapterMgr : Type := {
  GetPriceAdapter : Bank.t -> result (option PriceAdapter)
}.

(** [uuid.Nil] *)
Definition uuid_Nil : UUID := 0%Z.

(** [changedBankAccountsMap], a Go map from bank ids to wrappers, as its
    lookup: a later wrapper of the list replaces an earlier one of the
    same bank. *)
Definition changedBankAccountsMap
  (changedBankAccounts : list BankAccountWrapper.t)
  : UUID -> option BankAccountWrapper.t :=
  fold_left
    (fun m bankAccount k =>
       if (k =? Bank.Id (BankAccountWrapper.Bank bankAccount))%Z
       then Some bankAccount else m k)
    changedBankAccounts (fun _ => None).

(** The loop of the case without stored balances; [bankAccounts] is the
    slice built so far. *)
Fixpoint loadChangedBankAccounts (priceFeedMgr : PriceAdapterMgr)
  (changedBankAccounts : list BankAccountWrapper.t)
  (bankAccounts : list BankAccountWithPriceFeed.t)
  : result (list BankAccountWithPriceFeed.t) :=
  match changedBankAccounts with
  | [] => Ok bankAccounts
  | bankAccount :: rest =>
      priceFeed <-
        GetPriceAdapter priceFeedMgr (BankAccountWrapper.Bank bankAccount) ;;
      loadChangedBankAccounts priceFeedMgr rest
        (bankAccounts ++
         [{| BankAccountWithPriceFeed.Bank := BankAccountWrapper.Bank bankAccount;
             BankAccountWithPriceFeed.Balance :=
               BankAccountWrapper.Balance bankAccount;
             BankAccountWithPriceFeed.PriceFeed := priceFeed |}])
  end.

(** The loop over the stored balances. *)
Fixpoint loadBalances (bankAccountService : BankAccountService)
  (priceFeedMgr : PriceAdapterMgr)
  (changedBankAccountsMap : UUID -> option BankAccountWrapper.t)
  (balances : list Balance.t)
  (bankAccounts : list BankAccountWithPriceFeed.t)
  : result (list BankAccountWithPriceFeed.t) :=
  match balances with
  | [] => Ok bankAccounts
  | balance :: rest =>
      bank <- GetBankById bankAccountService (Balance.BankId balance) ;;
      priceFeed <- GetPriceAdapter priceFeedMgr bank ;;
      let stored :=
        {| BankAccountWithPriceFeed.Bank := bank;
           BankAccountWithPriceFeed.Balance := balance;
           BankAccountWithPriceFeed.PriceFeed := priceFeed |} in
      match changedBankAccountsMap (Balance.BankId balance) with
      | Some bankAccount =>
          if (Bank.Id (BankAccountWrapper.Bank bankAccount) =? Bank.Id bank)%Z
          then
            loadBalances bankAccountService priceFeedMgr changedBankAccountsMap
              rest
              (bankAccounts ++
               [{| BankAccountWithPriceFeed.Bank :=
                     BankAccountWrapper.Bank bankAccount;
                   BankAccountWithPriceFeed.Balance :=
                     BankAccountWrapper.Balance bankAccount;
                   BankAccountWithPriceFeed.PriceFeed := priceFeed |}])
          else
            loadBalances bankAccountService priceFeedMgr changedBankAccountsMap
              rest (bankAccounts ++ [stored])
      | None =>
          loadBalances bankAccountService priceFeedMgr changedBankAccountsMap
            rest (bankAccounts ++ [stored])
      end
  end.

(** The loop that adds the changed accounts whose bank is not among
    [existingBankIds], a set that is computed once, before the loop. *)
Fixpoint loadMissingChangedBankAccounts (priceFeedMgr : PriceAdapterMgr)
  (existingBankIds : UUID -> bool)
  (changedBankAccounts : list BankAccountWrapper.t)
  (bankAccounts : list BankAccountWithPriceFeed.t)
  : result (list BankAccountWithPriceFeed.t) :=
  match changedBankAccounts with
  | [] => Ok bankAccounts
  | changedAccount :: rest =>
      if negb (existingBankIds (Bank.Id (BankAccountWrapper.Bank changedAccount)))
      then
        priceFeed <-
          GetPriceAdapter priceFeedMgr (BankAccountWrapper.Bank changedAccount) ;;
        loadMissingChangedBankAccounts priceFeedMgr existingBankIds rest
          (bankAccounts ++
           [{| BankAccountWithPriceFeed.Bank :=
                 BankAccountWrapper.Bank changedAccount;
               BankAccountWithPriceFeed.Balance :=
                 BankAccountWrapper.Balance changedAccount;
               BankAccountWithPriceFeed.PriceFeed := priceFeed |}])
      else
        loadMissingChangedBankAccounts priceFeedMgr existingBankIds rest
          bankAccounts
  end.

Definition LoadBankAccountWithPriceFeeds
  (bankAccountService : BankAccountService) (accountId : UUID)
  (changedBankAccounts : list BankAccountWrapper.t)
  (priceFeedMgr : PriceAdapterMgr)
  : result (list BankAccountWithPriceFeed.t) :=
  let changedBankAccountsMap := changedBankAccountsMap changedBankAccounts in
  balances <- ListBalances bankAccountService accountId uuid_Nil ;;
  if Nat.eqb (length balances) 0
  then loadChangedBankAccounts priceFeedMgr changedBankAccounts []
  else
    bankAccounts <-
      loadBalances bankAccountService priceFeedMgr changedBankAccountsMap
        balances [] ;;
    let existingBankIds (k : UUID) : bool :=
      existsb (fun account =>
                 (Bank.Id (BankAccountWithPriceFeed.Bank account) =? k)%Z)
              bankAccounts in
    loadMissingChangedBankAccounts priceFeedMgr existingBankIds
      changedBankAccounts bankAccounts.

(* ================================================================== *)
(** ** The risk engine (core/risk_engine.go) *)

Module RiskEngine.

Record t : Type := {
  MarginfiAccount : Account.t;
  BankAccountsWithPrice : list BankAccountWithPriceFeed.t
}.

(** The loop of [GetAccountHealthComponents], from the running totals. *)
Fixpoint sumHealthComponents (l : list BankAccountWithPriceFeed.t)
  (requirementType : RequirementType) (totalAssets totalLiabilities : Decimal)
  : result (Decimal * Decimal) :=
  match l with
  | [] => Ok (totalAssets, totalLiabilities)
  | a :: rest =>
      '(assets, liabilities) <-
         BankAccountWithPriceFeed.CalcWeightedAssetsAndLiabsValues a requirementType ;;
      sumHealthComponents rest requirementType
        (Add totalAssets assets) (Add totalLiabilities liabilities)
  end.

Definition GetAccountHealthComponents (r : t)
  (requirementType : RequirementType) : result (Decimal * Decimal) :=
  sumHealthComponents (BankAccountsWithPrice r) requirementType Zero Zero.

(** The loop that looks the target bank up: every match overwrites the
    pointer, so the last one stays; [None] is the nil it starts from. *)
Fixpoint findLiabilityBankBalance (l : list BankAccountWithPriceFeed.t)
  (bankId : UUID) (liabilityBankBalance : option BankAccountWithPriceFeed.t)
  : option BankAccountWithPriceFeed.t :=
  match l with
  | [] => liabilityBankBalance
  | a :: rest =>
      findLiabilityBankBalance rest bankId
        (if (Balance.BankId (BankAccountWithPriceFeed.Balance a) =? bankId)%Z
         then Some a else liabilityBankBalance)
  end.

Definition CheckPreLiquidationConditionAndGetAccountHealth (r : t)
  (bankId : UUID) : result Decimal :=
  if Account.GetFlag (MarginfiAccount r) InFlashloanFlag
  then Err AccountInFlashloan
  else
    let liabilityBankBalance :=
      findLiabilityBankBalance (BankAccountsWithPrice r) bankId None in
    match liabilityBankBalance with
    | None => Err LendingAccountBalanceNotFound
    | Some _ =>
        e1 <- BankAccountWithPriceFeed.IsEmpty liabilityBankBalance
                BalanceSideLiabilities ;;
        if e1 then Err IllegalLiquidation
        else
          e2 <- BankAccountWithPriceFeed.IsEmpty liabilityBankBalance
                  BalanceSideAssets ;;
          if negb e2 then Err IllegalLiquidation
          else
            '(totalAssets, totalLiabilities) <-
               GetAccountHealthComponents r Maintenance ;;
            let accountHealth := Sub totalAssets totalLiabilities in
            if negb (LessThanOrEqual accountHealth Zero)
            then Err ErrAccountNotUnhealthy
            else Ok accountHealth
    end.

Definition CheckPostLiquidationConditionAndGetAccountHealth (r : t)
  (bankId : UUID) (preLiquidationHealth : Decimal) : result Decimal :=
  if Account.GetFlag (MarginfiAccount r) InFlashloanFlag
  then Err AccountInFlashloan
  else
    let liabilityBankBalance :=
      findLiabilityBankBalance (BankAccountsWithPrice r) bankId None in
    e1 <- BankAccountWithPriceFeed.IsEmpty liabilityBankBalance
            BalanceSideLiabilities ;;
    if e1 then Err IllegalLiquidation
    else
      e2 <- BankAccountWithPriceFeed.IsEmpty liabilityBankBalance
              BalanceSideAssets ;;
      if negb e2 then Err IllegalLiquidation
      else
        '(totalAssets, totalLiabilities) <-
           GetAccountHealthComponents r Maintenance ;;
        let accountHealth := Sub totalAssets totalLiabilities in
        if negb (LessThanOrEqual accountHealth Zero)
        then Err ErrAccountNotUnhealthy
        else if LessThanOrEqual accountHealth preLiquidationHealth
        then Err IllegalLiquidation
        else Ok accountHealth.

Definition CheckAccountBankrupt (r : t) : result unit :=
  if Account.GetFlag (MarginfiAccount r) InFlashloanFlag
  then Err AccountInFlashloan
  else
    '(totalAssets, totalLiabilities) <- GetAccountHealthComponents r Equity ;;
    if negb (LessThan totalAssets totalLiabilities)
    then Err AccountNotBankrupt
    else if LessThan totalAssets BANKRUPT_THRESHOLD
    then Err AccountNotBankrupt
    else if LessThan totalLiabilities ZERO_AMOUNT_THRESHOLD
    then Err AccountNotBankrupt
    else Ok tt.

Definition GetAccountHealth (r : t) (requirementType : RequirementType)
  : result Decimal :=
  '(totalAssets, totalLiabilities) <-
     GetAccountHealthComponents r requirementType ;;
  Ok (Sub totalAssets totalLiabilities).

(** [a.Bank.BankConfig.RiskTier == Isolated] *)
Definition isIsolated (a : BankAccountWithPriceFeed.t) : bool :=
  match BankConfig.RiskTier
          (Bank.BankConfig (BankAccountWithPriceFeed.Bank a)) with
  | Isolated => true
  | Collateral => false
  end.

Definition CheckAccountRiskTiers (r : t) : result unit :=
  let balancesWithLiablities :=
    filter (fun a => negb (Balance.IsEmpty (BankAccountWithPriceFeed.Balance a)
                             BalanceSideLiabilities))
           (BankAccountsWithPrice r) in
  let nBalancesWithLiablities := length balancesWithLiablities in
  let isInIsolatedRiskTier :=
    fold_left (fun isInIsolatedRiskTier a =>
                 if isIsolated a then true else isInIsolatedRiskTier)
              balancesWithLiablities false in
  if isInIsolatedRiskTier && negb (Nat.eqb nBalancesWithLiablities 1)
  then Err IsolatedAccountIllegalState
  else Ok tt.

Definition CheckAccountHealth (r : t) (requirementType : RequirementType)
  : result unit :=
  '(totalAssets, totalLiabilities) <-
     GetAccountHealthComponents r requirementType ;;
  if negb (GreaterThanOrEqual totalAssets totalLiabilities)
  then Err RiskEngineInitRejected
  else CheckAccountRiskTiers r.

(** The constructors of the engine ([NewRiskEngine],
    [NewRiskEngineNoFlashloanCheck]) and the check that builds an engine of
    its own. *)
Definition NewRiskEngineNoFlashloanCheck
  (bankAccountService : BankAccountService) (account : Account.t)
  (bankAccounts : list BankAccountWrapper.t) (priceFeedMgr : PriceAdapterMgr)
  : result t :=
  bankAccountsWithPrice <-
    LoadBankAccountWithPriceFeeds bankAccountService (Account.Id account)
      bankAccounts priceFeedMgr ;;
  Ok {| MarginfiAccount := account;
        BankAccountsWithPrice := bankAccountsWithPrice |}.

Definition NewRiskEngine
  (bankAccountService : BankAccountService) (account : Account.t)
  (bankAccounts : list BankAccountWrapper.t) (priceFeedMgr : PriceAdapterMgr)
  : result t :=
  if Account.GetFlag account InFlashloanFlag then Err AccountInFlashloan
  else NewRiskEngineNoFlashloanCheck bankAccountService account bankAccounts
         priceFeedMgr.

Definition CheckAccountInitHealth (r : t)
  (bankAccountService : BankAccountService) (account : Account.t)
  (bankAccounts : list BankAccountWrapper.t) (priceFeedMgr : PriceAdapterMgr)
  : result unit :=
  if Account.GetFlag account InFlashloanFlag then Ok tt
  else
    noFlashloanCheck <-
      NewRiskEngineNoFlashloanCheck bankAccountService (MarginfiAccount r)
        bankAccounts priceFeedMgr ;;
    CheckAccountHealth noFlashloanCheck Initial.

End RiskEngine.

(* ================================================================== *)
(** ** Health components and liquidation price from the stores
       (core/utils.go) *)

(** [gorm.ErrRecordNotFound], an error of the store that
    [ComputeLiquidationPriceForBank] tells from the others. *)
Definition gorm_ErrRecordNotFound : Error := ExternalError 1.

Definition is_ErrRecordNotFound (e : Error) : bool :=
  match e with
  | ExternalError 1 => true
  | _ => false
  end.

(** The error value [errors.Errorf("bank %s not found", ..)]. *)
Definition errBankNotFound : Error := ExternalError 2.

(** A method call on the adapter [GetPriceAdapter] handed back: on a nil
    interface value it panics. *)
Definition adapterPrice (priceAdapter : option PriceAdapter)
  (priceType : OraclePriceType) (bias : PriceBias) : result Decimal :=
  match priceAdapter with
  | None => Panic NilPointerDereference
  | Some a => GetPriceOfType a priceType bias
  end.

(** The loop of [ComputeHealthComponents] over the balances that are left,
    from the running totals; [banks] is the map from bank ids to banks. *)
Fixpoint sumUsdValues (banks : UUID -> option Bank.t)
  (priceFeedMgr : PriceAdapterMgr) (marginReqType : RequirementType)
  (filteredBalances : list Balance.t) (totalAssets totalLiabilities : Decimal)
  : result (Decimal * Decimal) :=
  match filteredBalances with
  | [] => Ok (totalAssets, totalLiabilities)
  | balance :: rest =>
      match banks (Balance.BankId balance) with
      | None => Err errBankNotFound
      | Some bank =>
          priceAdapter <- GetPriceAdapter priceFeedMgr bank ;;
          price <- adapterPrice priceAdapter TimeWeighted Original ;;
          '(assets, liabilities) <-
             Balance.GetUsdValueWithPriceBias balance bank price marginReqType ;;
          sumUsdValues banks priceFeedMgr marginReqType rest
            (Add totalAssets assets) (Add totalLiabilities liabilities)
      end
  end.

Definition ComputeHealthComponents (bankAccountService : BankAccountService)
  (banks : UUID -> option Bank.t) (priceFeedMgr : PriceAdapterMgr)
  (accountId : UUID) (marginReqType : RequirementType)
  (excludedBanks : list UUID) : result (Decimal * Decimal) :=
  account <- GetAccountById bankAccountService accountId ;;
  balances <- ListBalances bankAccountService (Account.Id account) uuid_Nil ;;
  let filteredBalances :=
    filter (fun balance =>
              negb (existsb (Z.eqb (Balance.BankId balance)) excludedBanks))
           balances in
  sumUsdValues banks priceFeedMgr marginReqType filteredBalances Zero Zero.

(** The loop over the changed accounts: the balance of the first wrapper
    for this account and bank replaces the pointer, and the loop ends. *)
Fixpoint changedBalance (changedbankAccounts : list BankAccountWrapper.t)
  (accountId bankId : UUID) (balance : option Balance.t) : option Balance.t :=
  match changedbankAccounts with
  | [] => balance
  | ba :: rest =>
      if (Balance.AccountId (BankAccountWrapper.Balance ba) =? accountId)%Z
         && (Balance.BankId (BankAccountWrapper.Balance ba) =? bankId)%Z
      then Some (BankAccountWrapper.Balance ba)
      else changedBalance rest accountId bankId balance
  end.

(** The statements that follow the two cases of
    [ComputeLiquidationPriceForBank]: a price that is zero or negative is
    given out as zero. *)
Definition clampLiquidationPrice (liquidationPrice : Decimal)
  : result Decimal :=
  if IsZero liquidationPrice || LessThan liquidationPrice Zero
  then Ok Zero
  else Ok liquidationPrice.

Definition ComputeLiquidationPriceForBank
  (bankAccountService : BankAccountService) (banks : UUID -> option Bank.t)
  (changedbankAccounts : list BankAccountWrapper.t)
  (priceFeedMgr : PriceAdapterMgr) (accountId bankId : UUID)
  (marginReqType : RequirementType) : result Decimal :=
  match banks bankId with
  | None => Err errBankNotFound
  | Some bank =>
      let (balance, err) := FindBalance bankAccountService bankId accountId in
      _ <- match err with
           | Some e => if is_ErrRecordNotFound e then Ok tt else Err e
           | None => Ok tt
           end ;;
      match changedBalance changedbankAccounts accountId bankId balance with
      | None => Ok Zero
      | Some balance =>
          if negb (Balance.Active balance) then Ok Zero
          else
            let isLending := IsZero (Balance.LiabilityShares balance) in
            '(assets, liabilities) <-
               ComputeHealthComponents bankAccountService banks priceFeedMgr
                 accountId marginReqType [bankId] ;;
            priceInfo <- GetPriceAdapter priceFeedMgr bank ;;
            price <- adapterPrice priceInfo TimeWeighted Original ;;
            let '(assetsQuantity, liabilitiesQuantity) :=
              Balance.ComputeQuantity balance bank in
            if isLending then
              if IsZero liabilities then Ok Zero
              else if IsZero assetsQuantity then Ok Zero
              else
                assetWeight <-
                  Bank.GetAssetWeight bank marginReqType price false ;;
                let priceConfidence :=
                  Sub (Bank.GetPrice bank price Original false)
                      (Bank.GetPrice bank price Low false) in
                let denominator := Mul assetsQuantity assetWeight in
                if IsZero denominator then Ok Zero
                else
                  q <- Div assets denominator ;;
                  clampLiquidationPrice
                    (Add (Sub liabilities q) priceConfidence)
            else
              if IsZero liabilitiesQuantity then Ok Zero
              else
                let liabWeight := Bank.GetLiabilityWeight bank marginReqType in
                let priceConfidence :=
                  Sub (Bank.GetPrice bank price High false)
                      (Bank.GetPrice bank price Original false) in
                let denominator := Mul liabilitiesQuantity liabWeight in
                if IsZero denominator then Ok Zero
                else
                  q <- Div (Sub assets liabilities) denominator ;;
                  clampLiquidationPrice (Sub q priceConfidence)
      end
  end.

(* ================================================================== *)
(** ** Concrete states, for the scenarios of the specification *)

Module Scenario.

(** The curve of the "interest curve continuity" scenario:
    optimalUr = 0.8, plateauIr = 0.1, maxIr = 1.0, and no fees. *)
Definition rates : InterestRateConfig.t :=
  {| InterestRateConfig.OptimalUtilizationRate := 8 # 10;
     InterestRateConfig.PlateauInterestRate := 1 # 10;
     InterestRateConfig.MaxInterestRate := 1;
     InterestRateConfig.InsuranceFeeFixedApr := 0;
     InterestRateConfig.InsuranceIrFee := 0;
     InterestRateConfig.ProtocolFixedFeeApr := 0;
     InterestRateConfig.ProtocolIrFee := 0 |}.

(** The "limits" scenario: depositLimit = 100 (active), and a liability
    limit of 50. *)
Definition config : BankConfig.t :=
  {| BankConfig.AssetWeightInit := 1;
     BankConfig.AssetWeightMaint := 1;
     BankConfig.LiabilityWeightInit := 1;
     BankConfig.LiabilityWeightMaint := 1;
     BankConfig.DepositLimit := 100;
     BankConfig.LiabilityLimit := 50;
     BankConfig.InterestRateConfig := rates;
     BankConfig.OperationalState := BankOperationalStateOperational;
     BankConfig.RiskTier := Collateral;
     BankConfig.TotalAssetValueInitLimit := NewFromUint64 MaxUint64;
     BankConfig.OracleSetup := MixinOracle;
     BankConfig.OracleMaxAge := 60%Z |}.

(** A bank with the given totals and liquidity, share values at one, both
    emissions flags set, an emissions rate of zero and an emissions budget
    of 5, last updated at [MIN_EMISSIONS_START_TIME]. *)
Definition bank (totalAssetShares totalLiabilityShares liquidityVault : Decimal)
  : Bank.t :=
  {| Bank.Id := 7%Z; Bank.GroupId := 1%Z;
     Bank.AssetShareValue := ONE; Bank.LiabilityShareValue := ONE;
     Bank.LiquidityVault := liquidityVault;
     Bank.InsuranceVault := 0; Bank.FeeVault := 0;
     Bank.CollectedInsuranceFeesOutstanding := 0;
     Bank.CollectedGroupFeesOutstanding := 0;
     Bank.TotalLiabilityShares := totalLiabilityShares;
     Bank.TotalAssetShares := totalAssetShares;
     Bank.Flags := BankFlagsEmissionsActive;
     Bank.BankConfig := config;
     Bank.EmissionsRate := 0;
     Bank.EmissionsRemaining := 5;
     Bank.CreatedAt := MIN_EMISSIONS_START_TIME;
     Bank.LastUpdate := MIN_EMISSIONS_START_TIME;
     Bank.DeletedAt := 0%Z |}.

Definition with_EmissionsRate (rate : Decimal) (b : Bank.t) : Bank.t :=
  {| Bank.Id := Bank.Id b; Bank.GroupId := Bank.GroupId b;
     Bank.AssetShareValue := Bank.AssetShareValue b;
     Bank.LiabilityShareValue := Bank.LiabilityShareValue b;
     Bank.LiquidityVault := Bank.LiquidityVault b;
     Bank.InsuranceVault := Bank.InsuranceVault b;
     Bank.FeeVault := Bank.FeeVault b;
     Bank.CollectedInsuranceFeesOutstanding := Bank.CollectedInsuranceFeesOutstanding b;
     Bank.CollectedGroupFeesOutstanding := Bank.CollectedGroupFeesOutstanding b;
     Bank.TotalLiabilityShares := Bank.TotalLiabilityShares b;
     Bank.TotalAssetShares := Bank.TotalAssetShares b;
     Bank.Flags := Bank.Flags b;
     Bank.BankConfig := Bank.BankConfig b;
     Bank.EmissionsRate := rate;
     Bank.EmissionsRemaining := Bank.EmissionsRemaining b;
     Bank.CreatedAt := Bank.CreatedAt b;
     Bank.LastUpdate := Bank.LastUpdate b;
     Bank.DeletedAt := Bank.DeletedAt b |}.

(** A position of account 3 in bank 7, last updated at
    [MIN_EMISSIONS_START_TIME]. *)
Definition balance (assetShares liabilityShares : Decimal) : Balance.t :=
  {| Balance.AccountId := 3%Z; Balance.BankId := 7%Z; Balance.Active := true;
     Balance.AssetShares := assetShares;
     Balance.LiabilityShares := liabilityShares;
     Balance.EmissionsOutstanding := 0;
     Balance.LastUpdate := MIN_EMISSIONS_START_TIME |}.

Definition account (accountFlags : AccountFlags) : Account.t :=
  {| Account.Id := 3%Z; Account.GroupId := 1%Z;
     Account.AccountFlags := accountFlags; Account.Index := 0%Z;
     Account.CreatedAt := MIN_EMISSIONS_START_TIME;
     Account.UpdatedAt := MIN_EMISSIONS_START_TIME |}.

(** An adapter that answers every request with the same price. *)
Definition fixedPrice (price : Decimal) : PriceAdapter :=
  {| GetPriceOfType := fun _ _ => Ok price;
     GetAllPriceType := Ok (price, price, price) |}.

(** The account's position in bank 7 at a price of one. *)
Definition position (assetShares liabilityShares : Decimal)
  : BankAccountWithPriceFeed.t :=
  {| BankAccountWithPriceFeed.Bank := bank assetShares liabilityShares 0;
     BankAccountWithPriceFeed.Balance := balance assetShares liabilityShares;
     BankAccountWithPriceFeed.PriceFeed := Some (fixedPrice 1) |}.

Definition engine (l : list BankAccountWithPriceFeed.t) : RiskEngine.t :=
  {| RiskEngine.MarginfiAccount := account 0%Z;
     RiskEngine.BankAccountsWithPrice := l |}.

(** A wrapper whose clock reads [seconds] after the balance's last
    update. *)
Definition wrapper (seconds : Z) (bal : Balance.t) (b : Bank.t)
  : BankAccountWrapper.t :=
  {| BankAccountWrapper.clk := (MIN_EMISSIONS_START_TIME + seconds)%Z;
     BankAccountWrapper.Balance := bal;
     BankAccountWrapper.Bank := b |}.

(** A store with one balance, of account 3 in bank 7, and the bank of id
    7; and a manager whose adapter answers every request with a price of
    one. *)
Definition service : BankAccountService :=
  {| FindBalance := fun bankId accountId =>
       if (bankId =? 7)%Z && (accountId =? 3)%Z
       then (Some (balance 10 0), None)
       else (None, Some gorm_ErrRecordNotFound);
     ListBalances := fun accountId _ =>
       if (accountId =? 3)%Z then Ok [balance 10 0] else Ok [];
     GetBankById := fun bankId =>
       if (bankId =? 7)%Z then Ok (bank 50 5 0) else Err BankAccountNotFound;
     GetAccountById := fun accountId =>
       if (accountId =? 3)%Z then Ok (account 0%Z) else Err BankAccountNotFound |}.

Definition feeds : PriceAdapterMgr :=
  {| GetPriceAdapter := fun _ => Ok (Some (fixedPrice 1)) |}.

Definition banks (bankId : UUID) : option Bank.t :=
  if (bankId =? 7)%Z then Some (bank 50 5 0) else None.

End Scenario.

(* ================================================================== *)
(** * Properties *)

(** ** Decimal comparisons as order relations *)

Section DecimalOrder.

Variables d d2 : Decimal.

Local Ltac by_cmp :=
  unfold LessThan, LessThanOrEqual, GreaterThan, GreaterThanOrEqual, Equal, Cmp;
  destruct (Qcompare_spec d d2); split; intros;
  try discriminate; try reflexivity; try lra; exfalso; lra.

Lemma LessThan_lt : LessThan d d2 = true <-> d < d2.
Proof. by_cmp. Qed.

Lemma LessThan_false : LessThan d d2 = false <-> d2 <= d.
Proof. by_cmp. Qed.

Lemma GreaterThan_gt : GreaterThan d d2 = true <-> d2 < d.
Proof. by_cmp. Qed.

Lemma GreaterThan_false : GreaterThan d d2 = false <-> d <= d2.
Proof. by_cmp. Qed.

Lemma LessThanOrEqual_le : LessThanOrEqual d d2 = true <-> d <= d2.
Proof. by_cmp. Qed.

Lemma LessThanOrEqual_false : LessThanOrEqual d d2 = false <-> d2 < d.
Proof. by_cmp. Qed.

Lemma GreaterThanOrEqual_ge : GreaterThanOrEqual d d2 = true <-> d2 <= d.
Proof. by_cmp. Qed.

Lemma GreaterThanOrEqual_false : GreaterThanOrEqual d d2 = false <-> d < d2.
Proof. by_cmp. Qed.

Lemma Equal_eq : Equal d d2 = true <-> d == d2.
Proof. by_cmp. Qed.

Lemma IsZero_eq : IsZero d = true <-> d == 0.
Proof.
  unfold IsZero, Sign, Qeq. destruct d as [n m]; simpl.
  rewrite Z.eqb_eq, Z.sgn_null_iff. lia.
Qed.

Lemma IsZero_false : IsZero d = false <-> ~ d == 0.
Proof.
  rewrite <- IsZero_eq. destruct (IsZero d); split; congruence.
Qed.

Lemma IsPositive_lt : IsPositive d = true <-> 0 < d.
Proof.
  unfold IsPositive, Sign, Qlt. destruct d as [n m]; simpl.
  rewrite Z.eqb_eq, Z.sgn_pos_iff. lia.
Qed.

Lemma IsPositive_false : IsPositive d = false <-> d <= 0.
Proof.
  unfold IsPositive, Sign, Qle. destruct d as [n m]; simpl.
  rewrite Z.eqb_neq. destruct n; simpl; split; intros; try lia; congruence.
Qed.

Lemma IsNegative_lt : IsNegative d = true <-> d < 0.
Proof.
  unfold IsNegative, Sign, Qlt. destruct d as [n m]; simpl.
  rewrite Z.eqb_eq, Z.sgn_neg_iff. lia.
Qed.

Lemma IsNegative_false : IsNegative d = false <-> 0 <= d.
Proof.
  unfold IsNegative, Sign, Qle. destruct d as [n m]; simpl.
  rewrite Z.eqb_neq. destruct n; simpl; split; intros; try lia; congruence.
Qed.

Lemma Min_le_first : Min d d2 <= d.
Proof.
  unfold Min, Cmp. destruct (Qcompare_spec d2 d); lra.
Qed.

Lemma Min_le_item : Min d d2 <= d2.
Proof.
  unfold Min, Cmp. destruct (Qcompare_spec d2 d); lra.
Qed.

Lemma Min_glb (x : Decimal) : x <= d -> x <= d2 -> x <= Min d d2.
Proof.
  unfold Min, Cmp. destruct (d2 ?= d); auto.
Qed.

End DecimalOrder.

(** ** Rounding *)

Section Rounding.

Local Open Scope Z_scope.

Lemma round_num_nonneg_eq n m :
  0 <= n -> 0 < m -> round_num n m = (2 * n + m) / (2 * m).
Proof.
  intros Hn Hm. unfold round_num.
  rewrite Z.quot_div_nonneg, Z.rem_mod_nonneg by lia.
  pose proof (Z.div_mod n m ltac:(lia)) as Hdm.
  pose proof (Z.mod_pos_bound n m Hm) as Hb.
  rewrite Z.abs_eq by lia.
  destruct (Z.ltb_spec (2 * (n mod m)) m).
  - apply Z.div_unique with (r := 2 * (n mod m) + m); lia.
  - assert (0 < n)
      by (destruct (Z.eq_dec n 0); [subst; rewrite Z.mod_0_l in *; lia | lia]).
    rewrite Z.sgn_pos by lia.
    apply Z.div_unique with (r := 2 * (n mod m) - m); lia.
Qed.

Lemma round_num_opp n m : 0 < m -> round_num (- n) m = - round_num n m.
Proof.
  intros Hm. unfold round_num.
  rewrite Z.quot_opp_l, Z.rem_opp_l, Z.abs_opp, Z.sgn_opp by lia.
  destruct (_ <? _); lia.
Qed.

Lemma div_le_cross a b c d :
  0 < b -> 0 < d -> a * d <= c * b -> a / b <= c / d.
Proof.
  intros Hb Hd H.
  rewrite <- (Z.div_mul_cancel_r a b d), <- (Z.div_mul_cancel_r c d b) by lia.
  rewrite (Z.mul_comm d b). apply Z.div_le_mono; nia.
Qed.

Lemma round_num_sign n m : 0 < m -> 0 <= n -> 0 <= round_num n m.
Proof.
  intros Hm Hn. rewrite round_num_nonneg_eq by lia.
  apply Z.div_pos; lia.
Qed.

Lemma round_num_mono n1 m1 n2 m2 :
  0 < m1 -> 0 < m2 -> n1 * m2 <= n2 * m1 -> round_num n1 m1 <= round_num n2 m2.
Proof.
  intros H1 H2 H.
  destruct (Z_le_gt_dec 0 n1) as [Hn1|Hn1].
  - assert (0 <= n2) by nia.
    rewrite !round_num_nonneg_eq by lia.
    apply div_le_cross; nia.
  - destruct (Z_le_gt_dec n2 0) as [Hn2|Hn2].
    + rewrite <- (Z.opp_involutive n1), <- (Z.opp_involutive n2).
      rewrite (@round_num_opp (- n1)), (@round_num_opp (- n2)) by lia.
      rewrite !round_num_nonneg_eq by lia.
      apply -> Z.opp_le_mono. apply div_le_cross; nia.
    + pose proof (@round_num_sign n2 m2 H2 ltac:(lia)).
      pose proof (@round_num_sign (- n1) m1 H1 ltac:(lia)) as Hs.
      rewrite round_num_opp in Hs by lia. lia.
Qed.

Local Open Scope Q_scope.

Lemma Round_mono x y p : x <= y -> Round x p <= Round y p.
Proof.
  intros H. unfold Round, Qle; simpl.
  apply Z.mul_le_mono_nonneg_r; [lia|].
  apply round_num_mono; unfold shifted_den, shifted_num; try lia.
  unfold Qle in H. nia.
Qed.

Lemma Round_nonneg x p : 0 <= x -> 0 <= Round x p.
Proof.
  intros H. unfold Round, Qle; simpl. rewrite Z.mul_1_r.
  apply round_num_sign; unfold shifted_den, shifted_num; [lia|].
  unfold Qle in H; simpl in H. nia.
Qed.

(** [Round] sees the number only, not the fraction that denotes it. *)
Lemma Round_comp x y p : x == y -> Round x p = Round y p.
Proof.
  intros H.
  assert (H1 : Round x p <= Round y p) by (apply Round_mono; lra).
  assert (H2 : Round y p <= Round x p) by (apply Round_mono; lra).
  unfold Round, Qle in *; simpl in H1, H2.
  f_equal. nia.
Qed.

(** [Div] returns a value exactly when the divisor is not zero. *)
Lemma Div_ok d d2 :
  ~ d2 == 0 -> Div d d2 = Ok (DivRound d d2 DivisionPrecision).
Proof.
  intros H. unfold Div. apply IsZero_false in H. now rewrite H.
Qed.

Lemma Div_zero d d2 : d2 == 0 -> Div d d2 = Panic DivisionByZero.
Proof.
  intros H. unfold Div. apply IsZero_eq in H. now rewrite H.
Qed.

Lemma Div_no_error d d2 e : Div d d2 <> Err e.
Proof. unfold Div. destruct (IsZero d2); discriminate. Qed.

Lemma DivRound_nonneg d d2 p : 0 <= d -> 0 < d2 -> 0 <= DivRound d d2 p.
Proof.
  intros H1 H2. apply Round_nonneg.
  apply Qle_shift_div_l; [assumption|lra].
Qed.

Lemma DivRound_mono d d' d2 p :
  0 < d2 -> d <= d' -> DivRound d d2 p <= DivRound d' d2 p.
Proof.
  intros H2 H. apply Round_mono. unfold Qdiv.
  apply Qmult_le_compat_r; [assumption|].
  apply Qlt_le_weak, Qinv_lt_0_compat, H2.
Qed.

End Rounding.

(* ================================================================== *)
(** ** Concrete scenarios of the specification *)

(** CalcValue(100, 2, weight 0.5) = 100; CalcValue(0, 2, 0.5) = 0;
    CalcValue(100, 2, nil) = 200. *)
Example CalcValue_weighted :
  exists v, CalcValue 100 2 (Some (1 # 2)) = Ok v /\ v == 100.
Proof. eexists. split; reflexivity. Qed.

Example CalcValue_zero_amount :
  CalcValue 0 2 (Some (1 # 2)) = Ok Zero.
Proof. reflexivity. Qed.

Example CalcValue_no_weight :
  exists v, CalcValue 100 2 None = Ok v /\ v == 200.
Proof. eexists. split; reflexivity. Qed.

(** With optimalUr = 0.8, plateauIr = 0.1, maxIr = 1.0: the base rate is 0.1
    at u = 0.8 and 0.55 at u = 0.9. *)
Example InterestRateCurve_at_optimal :
  exists v, InterestRateConfig.InterestRateCurve Scenario.rates (8 # 10) = Ok v
            /\ v == 1 # 10.
Proof. eexists. split; [vm_compute|]; reflexivity. Qed.

Example InterestRateCurve_above_optimal :
  exists v, InterestRateConfig.InterestRateCurve Scenario.rates (9 # 10) = Ok v
            /\ v == 55 # 100.
Proof. eexists. split; [vm_compute|]; reflexivity. Qed.

(** A curve with optimalUr = 0 makes the division panic. *)
Example InterestRateCurve_zero_optimal :
  InterestRateConfig.InterestRateCurve
    {| InterestRateConfig.OptimalUtilizationRate := 0;
       InterestRateConfig.PlateauInterestRate := 1 # 10;
       InterestRateConfig.MaxInterestRate := 1;
       InterestRateConfig.InsuranceFeeFixedApr := 0;
       InterestRateConfig.InsuranceIrFee := 0;
       InterestRateConfig.ProtocolFixedFeeApr := 0;
       InterestRateConfig.ProtocolIrFee := 0 |} 0
  = Panic DivisionByZero.
Proof. reflexivity. Qed.

(** Rounding to the nearest, halves away from zero; truncation; ceiling. *)
Example Round_half_up : Round (15 # 10) 0 == 2 /\ Round (- (15 # 10)) 0 == - (2).
Proof. split; reflexivity. Qed.

Example Truncate_cuts : Truncate (123456789 # 1000000000) 8 == 12345678 # 100000000.
Proof. reflexivity. Qed.

Example RoundCeil_up : RoundCeil (1000001 # 1000000) 5 == 100001 # 100000.
Proof. reflexivity. Qed.

(* ================================================================== *)
(** ** Capacity limits of a bank *)

(** Unfolding the little state monad in a goal. *)
Ltac run_monad :=
  unfold bindM, get, modify, ret, throw, lift, check, zoom, discard; simpl.

Section BankCapacity.

Variable b : Bank.t.
Variable delta : Decimal.

(** What [ChangeAssetShares] leaves in the bank, whatever it returns. *)
Lemma ChangeAssetShares_state (bypass : bool) :
  snd (Bank.ChangeAssetShares delta bypass b)
  = Bank.set_TotalAssetShares (Add (Bank.TotalAssetShares b) delta) b.
Proof.
  unfold Bank.ChangeAssetShares. run_monad.
  destruct (IsPositive delta && _ && _); simpl; [|reflexivity].
  destruct (GreaterThan _ _); reflexivity.
Qed.

Lemma ChangeLiabilityShares_state (bypass : bool) :
  snd (Bank.ChangeLiabilityShares delta bypass b)
  = Bank.set_TotalLiabilityShares (Add (Bank.TotalLiabilityShares b) delta) b.
Proof.
  unfold Bank.ChangeLiabilityShares. run_monad.
  destruct (negb bypass && _ && _); simpl; [|reflexivity].
  destruct (GreaterThanOrEqual _ _); reflexivity.
Qed.

(** What [ChangeAssetShares] returns, by the guard of its check. *)
Lemma ChangeAssetShares_result (bypass : bool) :
  fst (Bank.ChangeAssetShares delta bypass b)
  = if IsPositive delta
       && BankConfig.IsDepositLimitActive (Bank.BankConfig b)
       && negb bypass
       && GreaterThan
            (Bank.GetTotalAssetQuantity (snd (Bank.ChangeAssetShares delta bypass b)))
            (BankConfig.DepositLimit (Bank.BankConfig b))
    then Err BankAssetCapacityExceeded else Ok tt.
Proof.
  rewrite ChangeAssetShares_state.
  unfold Bank.ChangeAssetShares, Bank.GetTotalAssetQuantity. run_monad.
  destruct (IsPositive delta && _ && _); simpl; [|reflexivity].
  destruct (GreaterThan _ _); reflexivity.
Qed.

Lemma ChangeLiabilityShares_result (bypass : bool) :
  fst (Bank.ChangeLiabilityShares delta bypass b)
  = if negb bypass
       && IsPositive delta
       && BankConfig.IsBorrowLimitActive (Bank.BankConfig b)
       && GreaterThanOrEqual
            (Bank.GetTotalLiabilityQuantity (snd (Bank.ChangeLiabilityShares delta bypass b)))
            (BankConfig.LiabilityLimit (Bank.BankConfig b))
    then Err BankLiabilityCapacityExceeded else Ok tt.
Proof.
  rewrite ChangeLiabilityShares_state.
  unfold Bank.ChangeLiabilityShares, Bank.GetTotalLiabilityQuantity. run_monad.
  destruct (negb bypass && _ && _); simpl; [|reflexivity].
  destruct (GreaterThanOrEqual _ _); reflexivity.
Qed.

End BankCapacity.

(** C4.  With [delta > 0], the limit active and no bypass,
    [ChangeAssetShares] fails with [BankAssetCapacityExceeded] exactly when
    the total deposit amount of the post-state (updated total asset shares
    times the asset share value) exceeds the deposit limit, and returns no
    error exactly when that amount is at most the limit; with the bypass it
    returns no error.  [ChangeLiabilityShares] fails with
    [BankLiabilityCapacityExceeded] exactly when the total liability amount
    of the post-state is not strictly below the liability limit, and
    returns no error exactly when it is. *)
Theorem change_shares_capacity_limits :
  forall (b : Bank.t) (delta : Decimal),
    0 < delta ->
    let afterDeposit := snd (Bank.ChangeAssetShares delta false b) in
    let afterBorrow := snd (Bank.ChangeLiabilityShares delta false b) in
    (BankConfig.IsDepositLimitActive (Bank.BankConfig b) = true ->
       (fst (Bank.ChangeAssetShares delta false b) = Err BankAssetCapacityExceeded
        <-> BankConfig.DepositLimit (Bank.BankConfig b)
            < Bank.GetTotalAssetQuantity afterDeposit)
       /\ (fst (Bank.ChangeAssetShares delta false b) = Ok tt
           <-> Bank.GetTotalAssetQuantity afterDeposit
               <= BankConfig.DepositLimit (Bank.BankConfig b)))
    /\ fst (Bank.ChangeAssetShares delta true b) = Ok tt
    /\ (BankConfig.IsBorrowLimitActive (Bank.BankConfig b) = true ->
          (fst (Bank.ChangeLiabilityShares delta false b)
             = Err BankLiabilityCapacityExceeded
           <-> ~ Bank.GetTotalLiabilityQuantity afterBorrow
                 < BankConfig.LiabilityLimit (Bank.BankConfig b))
          /\ (fst (Bank.ChangeLiabilityShares delta false b) = Ok tt
              <-> Bank.GetTotalLiabilityQuantity afterBorrow
                  < BankConfig.LiabilityLimit (Bank.BankConfig b))).
Proof.
  intros b delta Hpos afterDeposit afterBorrow.
  apply IsPositive_lt in Hpos.
  repeat split.
  - rewrite ChangeAssetShares_result, Hpos, H. simpl.
    fold afterDeposit.
    destruct (GreaterThan _ _) eqn:E; [intros _|discriminate].
    now apply GreaterThan_gt.
  - rewrite ChangeAssetShares_result, Hpos, H. simpl.
    fold afterDeposit. intros Hlt. apply GreaterThan_gt in Hlt.
    now rewrite Hlt.
  - rewrite ChangeAssetShares_result, Hpos, H. simpl.
    fold afterDeposit.
    destruct (GreaterThan _ _) eqn:E; [discriminate|intros _].
    now apply GreaterThan_false.
  - rewrite ChangeAssetShares_result, Hpos, H. simpl.
    fold afterDeposit. intros Hle. apply GreaterThan_false in Hle.
    now rewrite Hle.
  - rewrite ChangeAssetShares_result. simpl.
    now rewrite andb_false_r.
  - rewrite ChangeLiabilityShares_result, Hpos, H. simpl.
    fold afterBorrow.
    destruct (GreaterThanOrEqual _ _) eqn:E; [intros _|discriminate].
    apply GreaterThanOrEqual_ge in E. lra.
  - rewrite ChangeLiabilityShares_result, Hpos, H. simpl.
    fold afterBorrow. intros Hn.
    destruct (GreaterThanOrEqual _ _) eqn:E; [reflexivity|].
    apply GreaterThanOrEqual_false in E. contradiction.
  - rewrite ChangeLiabilityShares_result, Hpos, H. simpl.
    fold afterBorrow.
    destruct (GreaterThanOrEqual _ _) eqn:E; [discriminate|intros _].
    now apply GreaterThanOrEqual_false.
  - rewrite ChangeLiabilityShares_result, Hpos, H. simpl.
    fold afterBorrow. intros Hlt. apply GreaterThanOrEqual_false in Hlt.
    now rewrite Hlt.
Qed.

Lemma change_shares_capacity_limits_witness :
  0 < 101
  /\ BankConfig.IsDepositLimitActive (Bank.BankConfig (Scenario.bank 0 0 0)) = true
  /\ fst (Bank.ChangeAssetShares 101 false (Scenario.bank 0 0 0))
     = Err BankAssetCapacityExceeded
  /\ fst (Bank.ChangeAssetShares 101 true (Scenario.bank 0 0 0)) = Ok tt
  /\ fst (Bank.ChangeLiabilityShares 50 false (Scenario.bank 0 0 0))
     = Err BankLiabilityCapacityExceeded.
Proof.
  assert (H101 : 0 < 101) by reflexivity.
  assert (H50 : 0 < 50) by reflexivity.
  destruct (change_shares_capacity_limits (Scenario.bank 0 0 0) H101)
    as (Hd & Hb & _).
  destruct (change_shares_capacity_limits (Scenario.bank 0 0 0) H50)
    as (_ & _ & Hl).
  split; [exact H101|].
  split; [reflexivity|].
  split; [apply Hd; reflexivity|].
  split; [exact Hb|].
  apply Hl; [reflexivity|]. vm_compute. discriminate.
Defined.

(** C10.  Both methods store the new total before they look at the limit:
    when [ChangeAssetShares] returns [BankAssetCapacityExceeded] the bank's
    [TotalAssetShares] is the old total plus the rejected delta, and when
    [ChangeLiabilityShares] returns [BankLiabilityCapacityExceeded] the
    bank's [TotalLiabilityShares] is the old total plus the rejected delta;
    in both cases the bank differs from the bank before the call. *)
Theorem change_shares_error_keeps_new_total :
  forall (b : Bank.t) (delta : Decimal) (bypass : bool),
    (fst (Bank.ChangeAssetShares delta bypass b) = Err BankAssetCapacityExceeded ->
       let b' := snd (Bank.ChangeAssetShares delta bypass b) in
       Bank.TotalAssetShares b' = Add (Bank.TotalAssetShares b) delta
       /\ ~ Bank.TotalAssetShares b' == Bank.TotalAssetShares b
       /\ b' <> b)
    /\ (fst (Bank.ChangeLiabilityShares delta bypass b)
          = Err BankLiabilityCapacityExceeded ->
        let b' := snd (Bank.ChangeLiabilityShares delta bypass b) in
        Bank.TotalLiabilityShares b' = Add (Bank.TotalLiabilityShares b) delta
        /\ ~ Bank.TotalLiabilityShares b' == Bank.TotalLiabilityShares b
        /\ b' <> b).
Proof.
  intros b delta bypass. split.
  - rewrite ChangeAssetShares_result, ChangeAssetShares_state.
    destruct (IsPositive delta) eqn:Hpos; [|discriminate]. intros _.
    apply IsPositive_lt in Hpos. simpl.
    assert (Hne : ~ Add (Bank.TotalAssetShares b) delta == Bank.TotalAssetShares b)
      by (unfold Add; lra).
    repeat split; [exact Hne|].
    intros Heq. apply Hne.
    apply (f_equal Bank.TotalAssetShares) in Heq. simpl in Heq.
    rewrite Heq. reflexivity.
  - rewrite ChangeLiabilityShares_result, ChangeLiabilityShares_state.
    destruct (IsPositive delta) eqn:Hpos;
      [|rewrite andb_false_r; discriminate]. intros _.
    apply IsPositive_lt in Hpos. simpl.
    assert (Hne : ~ Add (Bank.TotalLiabilityShares b) delta
                    == Bank.TotalLiabilityShares b)
      by (unfold Add; lra).
    repeat split; [exact Hne|].
    intros Heq. apply Hne.
    apply (f_equal Bank.TotalLiabilityShares) in Heq. simpl in Heq.
    rewrite Heq. reflexivity.
Qed.

Lemma change_shares_error_keeps_new_total_witness :
  fst (Bank.ChangeAssetShares 101 false (Scenario.bank 0 0 0))
    = Err BankAssetCapacityExceeded
  /\ Bank.TotalAssetShares (snd (Bank.ChangeAssetShares 101 false (Scenario.bank 0 0 0)))
     = Add 0 101
  /\ fst (Bank.ChangeLiabilityShares 50 false (Scenario.bank 0 0 0))
       = Err BankLiabilityCapacityExceeded
  /\ Bank.TotalLiabilityShares
       (snd (Bank.ChangeLiabilityShares 50 false (Scenario.bank 0 0 0)))
     = Add 0 50.
Proof.
  destruct (change_shares_error_keeps_new_total (Scenario.bank 0 0 0) 101 false)
    as (Ha & _).
  destruct (change_shares_error_keeps_new_total (Scenario.bank 0 0 0) 50 false)
    as (_ & Hl).
  split; [reflexivity|].
  split; [apply Ha; reflexivity|].
  split; [reflexivity|].
  apply Hl; reflexivity.
Defined.

(* ================================================================== *)
(** ** The risk engine's liquidation and bankruptcy gates *)

Section TargetPosition.

Variable bankId : UUID.

(** The position the lookup loop ends with is a position of the snapshot
    for the target bank, unless it is the pointer the loop started from. *)
Lemma findLiabilityBankBalance_found :
  forall l acc a,
    RiskEngine.findLiabilityBankBalance l bankId acc = Some a ->
    (In a l /\ Balance.BankId (BankAccountWithPriceFeed.Balance a) = bankId) \/ acc = Some a.
Proof.
  induction l as [|x l IH]; simpl; intros acc a H.
  - now right.
  - apply IH in H. destruct H as [[Hin Hid]|H]; [left; auto|].
    destruct (Z.eqb_spec (Balance.BankId (BankAccountWithPriceFeed.Balance x)) bankId) as [E|E].
    + injection H as <-. left; auto.
    + now right.
Qed.

(** Without a position for the target bank the pointer stays as it was. *)
Lemma findLiabilityBankBalance_absent :
  forall l acc,
    Forall (fun a => Balance.BankId (BankAccountWithPriceFeed.Balance a) <> bankId) l ->
    RiskEngine.findLiabilityBankBalance l bankId acc = acc.
Proof.
  induction l as [|x l IH]; simpl; intros acc H; [reflexivity|].
  inversion H as [|? ? Hx Hl]; subst.
  rewrite IH by assumption.
  destruct (Z.eqb_spec (Balance.BankId (BankAccountWithPriceFeed.Balance x)) bankId); [contradiction|reflexivity].
Qed.

End TargetPosition.

(** What [CheckAccountBankrupt] accepts: the three tests as they are coded. *)
Lemma CheckAccountBankrupt_accepts :
  forall r : RiskEngine.t,
    RiskEngine.CheckAccountBankrupt r = Ok tt <->
    Account.GetFlag (RiskEngine.MarginfiAccount r) InFlashloanFlag = false
    /\ exists totalAssets totalLiabilities,
         RiskEngine.GetAccountHealthComponents r Equity
           = Ok (totalAssets, totalLiabilities)
         /\ totalAssets < totalLiabilities
         /\ BANKRUPT_THRESHOLD <= totalAssets
         /\ ZERO_AMOUNT_THRESHOLD <= totalLiabilities.
Proof.
  intros r. unfold RiskEngine.CheckAccountBankrupt.
  destruct (Account.GetFlag _ _).
  { split; [discriminate|]. now intros [? _]. }
  destruct (RiskEngine.GetAccountHealthComponents r Equity) as [[a l]|e|p]; simpl.
  - destruct (LessThan a l) eqn:E1; simpl.
    + destruct (LessThan a BANKRUPT_THRESHOLD) eqn:E2.
      * split; [discriminate|].
        intros (_ & a' & l' & Heq & _ & H & _). injection Heq as <- <-.
        apply LessThan_lt in E2. lra.
      * destruct (LessThan l ZERO_AMOUNT_THRESHOLD) eqn:E3.
        -- split; [discriminate|].
           intros (_ & a' & l' & Heq & _ & _ & H). injection Heq as <- <-.
           apply LessThan_lt in E3. lra.
        -- split; [intros _|reflexivity]. split; [reflexivity|].
           exists a, l. apply LessThan_lt in E1.
           apply LessThan_false in E2. apply LessThan_false in E3. auto.
    + split; [discriminate|].
      intros (_ & a' & l' & Heq & H & _). injection Heq as <- <-.
      apply LessThan_false in E1. lra.
  - split; [discriminate|]. intros (_ & a' & l' & Heq & _). discriminate.
  - split; [discriminate|]. intros (_ & a' & l' & Heq & _). discriminate.
Qed.

(** C1, as the code has it.  On an account that is not in a flashloan and
    whose Equity totals satisfy the three conditions of the specification
    ([assets < liabilities], [assets < BANKRUPT_THRESHOLD],
    [liabilities > ZERO_AMOUNT_THRESHOLD]), [CheckAccountBankrupt] does not
    succeed: it returns [AccountNotBankrupt], because the second test
    rejects [assets < BANKRUPT_THRESHOLD] instead of requiring it. *)
Theorem CheckAccountBankrupt_rejects_bankrupt_totals :
  forall (r : RiskEngine.t) (totalAssets totalLiabilities : Decimal),
    Account.GetFlag (RiskEngine.MarginfiAccount r) InFlashloanFlag = false ->
    RiskEngine.GetAccountHealthComponents r Equity
      = Ok (totalAssets, totalLiabilities) ->
    totalAssets < totalLiabilities ->
    totalAssets < BANKRUPT_THRESHOLD ->
    ZERO_AMOUNT_THRESHOLD < totalLiabilities ->
    RiskEngine.CheckAccountBankrupt r = Err AccountNotBankrupt.
Proof.
  intros r a l Hflag Hcomp H1 H2 _.
  unfold RiskEngine.CheckAccountBankrupt. rewrite Hflag, Hcomp. simpl.
  apply LessThan_lt in H1. apply LessThan_lt in H2.
  now rewrite H1, H2.
Qed.

(** An account with a single debt of one unit and no assets. *)
Lemma CheckAccountBankrupt_rejects_bankrupt_totals_witness :
  exists totalAssets totalLiabilities,
    RiskEngine.GetAccountHealthComponents
      (Scenario.engine [Scenario.position 0 1]) Equity
      = Ok (totalAssets, totalLiabilities)
    /\ totalAssets == 0 /\ totalLiabilities == 1
    /\ RiskEngine.CheckAccountBankrupt (Scenario.engine [Scenario.position 0 1])
       = Err AccountNotBankrupt.
Proof.
  eexists. eexists.
  split; [vm_compute; reflexivity|].
  split; [reflexivity|]. split; [reflexivity|].
  eapply CheckAccountBankrupt_rejects_bankrupt_totals;
    [reflexivity | vm_compute; reflexivity | reflexivity ..].
Defined.

(** C7.  On a snapshot with no position for the target bank (account not in
    a flashloan) the lookup leaves the nil pointer: the post-liquidation
    check calls [IsEmpty] through it and panics with a nil pointer
    dereference, where the pre-liquidation check tests the pointer and
    returns [LendingAccountBalanceNotFound]. *)
Theorem post_liquidation_check_nil_dereference :
  forall (r : RiskEngine.t) (bankId : UUID) (preLiquidationHealth : Decimal),
    Account.GetFlag (RiskEngine.MarginfiAccount r) InFlashloanFlag = false ->
    Forall (fun a => Balance.BankId (BankAccountWithPriceFeed.Balance a) <> bankId)
           (RiskEngine.BankAccountsWithPrice r) ->
    RiskEngine.CheckPostLiquidationConditionAndGetAccountHealth
      r bankId preLiquidationHealth = Panic NilPointerDereference
    /\ RiskEngine.CheckPreLiquidationConditionAndGetAccountHealth r bankId
       = Err LendingAccountBalanceNotFound.
Proof.
  intros r bankId pre Hflag Habsent.
  unfold RiskEngine.CheckPostLiquidationConditionAndGetAccountHealth,
    RiskEngine.CheckPreLiquidationConditionAndGetAccountHealth.
  rewrite Hflag, (findLiabilityBankBalance_absent _ Habsent).
  split; reflexivity.
Qed.

(** The account holds a position in bank 7 only; bank 8 is the target. *)
Lemma post_liquidation_check_nil_dereference_witness :
  RiskEngine.CheckPostLiquidationConditionAndGetAccountHealth
    (Scenario.engine [Scenario.position 0 1]) 8%Z (-2) = Panic NilPointerDereference
  /\ RiskEngine.CheckPreLiquidationConditionAndGetAccountHealth
       (Scenario.engine [Scenario.position 0 1]) 8%Z
     = Err LendingAccountBalanceNotFound.
Proof.
  apply post_liquidation_check_nil_dereference.
  - reflexivity.
  - repeat constructor. discriminate.
Defined.

(** C2.  [CheckPostLiquidationConditionAndGetAccountHealth] returns a health
    only when the snapshot has a position for the target bank whose
    liability side is not empty and whose asset side is empty, the value
    returned is the Maintenance health (weighted assets minus weighted
    liabilities), it is at most zero and it is strictly above
    [preLiquidationHealth].  With the positional conditions met, a positive
    Maintenance health gives [ErrAccountNotUnhealthy], and one that is at
    most zero but not above [preLiquidationHealth] gives
    [IllegalLiquidation]. *)
Theorem post_liquidation_check_sound :
  forall (r : RiskEngine.t) (bankId : UUID) (preLiquidationHealth : Decimal),
    (forall postHealth,
       RiskEngine.CheckPostLiquidationConditionAndGetAccountHealth
         r bankId preLiquidationHealth = Ok postHealth ->
       (exists a,
          In a (RiskEngine.BankAccountsWithPrice r)
          /\ Balance.BankId (BankAccountWithPriceFeed.Balance a) = bankId
          /\ Balance.IsEmpty (BankAccountWithPriceFeed.Balance a)
               BalanceSideLiabilities = false
          /\ Balance.IsEmpty (BankAccountWithPriceFeed.Balance a)
               BalanceSideAssets = true)
       /\ (exists totalAssets totalLiabilities,
             RiskEngine.GetAccountHealthComponents r Maintenance
               = Ok (totalAssets, totalLiabilities)
             /\ postHealth = Sub totalAssets totalLiabilities)
       /\ postHealth <= 0
       /\ preLiquidationHealth < postHealth)
    /\ (forall a totalAssets totalLiabilities,
          Account.GetFlag (RiskEngine.MarginfiAccount r) InFlashloanFlag = false ->
          RiskEngine.findLiabilityBankBalance
            (RiskEngine.BankAccountsWithPrice r) bankId None = Some a ->
          Balance.IsEmpty (BankAccountWithPriceFeed.Balance a)
            BalanceSideLiabilities = false ->
          Balance.IsEmpty (BankAccountWithPriceFeed.Balance a)
            BalanceSideAssets = true ->
          RiskEngine.GetAccountHealthComponents r Maintenance
            = Ok (totalAssets, totalLiabilities) ->
          (0 < Sub totalAssets totalLiabilities ->
           RiskEngine.CheckPostLiquidationConditionAndGetAccountHealth
             r bankId preLiquidationHealth = Err ErrAccountNotUnhealthy)
          /\ (Sub totalAssets totalLiabilities <= 0 ->
              Sub totalAssets totalLiabilities <= preLiquidationHealth ->
              RiskEngine.CheckPostLiquidationConditionAndGetAccountHealth
                r bankId preLiquidationHealth = Err IllegalLiquidation)
          /\ (Sub totalAssets totalLiabilities <= 0 ->
              preLiquidationHealth < Sub totalAssets totalLiabilities ->
              RiskEngine.CheckPostLiquidationConditionAndGetAccountHealth
                r bankId preLiquidationHealth
              = Ok (Sub totalAssets totalLiabilities))).
Proof.
  intros r bankId pre. split.
  - intros h. unfold RiskEngine.CheckPostLiquidationConditionAndGetAccountHealth.
    destruct (Account.GetFlag _ _); [discriminate|].
    destruct (RiskEngine.findLiabilityBankBalance _ bankId None) as [a|] eqn:Hfind;
      cbn [bind BankAccountWithPriceFeed.IsEmpty]; [|discriminate].
    destruct (Balance.IsEmpty (BankAccountWithPriceFeed.Balance a)
                BalanceSideLiabilities) eqn:HL; [discriminate|].
    destruct (Balance.IsEmpty (BankAccountWithPriceFeed.Balance a)
                BalanceSideAssets) eqn:HA; cbn [negb]; [|discriminate].
    destruct (RiskEngine.GetAccountHealthComponents r Maintenance)
      as [[ta tl]|e|p] eqn:Hcomp; cbn [bind]; try discriminate.
    destruct (LessThanOrEqual (Sub ta tl) Zero) eqn:Hle; cbn [negb];
      [|discriminate].
    destruct (LessThanOrEqual (Sub ta tl) pre) eqn:Hpre; [discriminate|].
    intros [= <-].
    apply findLiabilityBankBalance_found in Hfind.
    destruct Hfind as [[Hin Hid]|Hnone]; [|discriminate].
    apply LessThanOrEqual_le in Hle. apply LessThanOrEqual_false in Hpre.
    split; [exists a; auto|].
    split; [exists ta, tl; auto|]. auto.
  - intros a ta tl Hflag Hfind HL HA Hcomp.
    unfold RiskEngine.CheckPostLiquidationConditionAndGetAccountHealth.
    rewrite Hflag, Hfind. cbn [bind BankAccountWithPriceFeed.IsEmpty].
    rewrite HL, HA, Hcomp. cbn [bind negb]. unfold Zero.
    repeat split.
    + intros H. apply LessThanOrEqual_false in H. now rewrite H.
    + intros H1 H2. apply LessThanOrEqual_le in H1, H2. now rewrite H1, H2.
    + intros H1 H2. apply LessThanOrEqual_le in H1.
      apply LessThanOrEqual_false in H2. now rewrite H1, H2.
Qed.

(** A debt of one unit at a price of one: the post-liquidation health is
    -1, above the health of -2 measured before. *)
Lemma post_liquidation_check_sound_witness :
  exists postHealth,
    RiskEngine.CheckPostLiquidationConditionAndGetAccountHealth
      (Scenario.engine [Scenario.position 0 1]) 7%Z (-2) = Ok postHealth
    /\ postHealth == -1
    /\ postHealth <= 0
    /\ -2 < postHealth.
Proof.
  eexists. split; [vm_compute; reflexivity|].
  split; [reflexivity|].
  eapply (post_liquidation_check_sound (Scenario.engine [Scenario.position 0 1])
            7%Z (-2)).
  vm_compute. reflexivity.
Defined.

(* ================================================================== *)
(** ** APR to APY *)

Section Compounding.

(** A power with a positive exponent is monotone on non-negative bases. *)
Lemma Qpower_positive_le_compat (a b : Q) (n : positive) :
  0 <= a -> a <= b -> Qpower_positive a n <= Qpower_positive b n.
Proof.
  intros Ha Hab.
  assert (Hb : 0 <= b) by lra.
  unfold Qpower_positive.
  induction n as [n IH|n IH|]; simpl.
  - pose proof (Qpower_pos_positive a n Ha) as Hp. unfold Qpower_positive in Hp.
    apply Qmult_le_compat_nonneg; [split; assumption|].
    split; [apply Qmult_le_0_compat; assumption|].
    apply Qmult_le_compat_nonneg; split; assumption.
  - pose proof (Qpower_pos_positive a n Ha) as Hp. unfold Qpower_positive in Hp.
    apply Qmult_le_compat_nonneg; split; assumption.
  - assumption.
Qed.

(** [AprToApy] always returns a value, the rounded compound rate. *)
Lemma AprToApy_value (apr : Decimal) :
  AprToApy apr
  = Ok (Round
          (Sub (Add ONE (DivRound apr (NewFromInt HOURS_PER_YEAR) DivisionPrecision)
                ^ HOURS_PER_YEAR)
               ONE) 8).
Proof. reflexivity. Qed.

(** The compound rate when [1 + apr / HOURS_PER_YEAR] is the number [x]. *)
Lemma AprToApy_at (apr x y : Decimal) :
  Add ONE (DivRound apr (NewFromInt HOURS_PER_YEAR) DivisionPrecision) == x ->
  x ^ HOURS_PER_YEAR - 1 == y ->
  AprToApy apr = Ok (Round y 8).
Proof.
  intros Hx Hy. rewrite AprToApy_value. f_equal. apply Round_comp.
  unfold Sub, ONE, NewFromInt. rewrite Hx. exact Hy.
Qed.

End Compounding.

(** C8, where it fails.  At -17532 the base [1 + apr / HOURS_PER_YEAR] is -1
    and the even power gives an APY of 0; at the larger input -8766 the base
    is 0 and the APY is -1. *)
Lemma AprToApy_not_monotone :
  NewFromInt (-17532) <= NewFromInt (-8766)
  /\ AprToApy (NewFromInt (-17532)) = Ok (Round 0 8)
  /\ AprToApy (NewFromInt (-8766)) = Ok (Round (-1) 8)
  /\ ~ Round 0 8 <= Round (-1) 8.
Proof.
  split; [vm_compute; discriminate|].
  split; [apply (@AprToApy_at _ (-1)); vm_compute; reflexivity|].
  split; [apply (@AprToApy_at _ 0); vm_compute; reflexivity|].
  vm_compute. intros H. now apply H.
Qed.

(** C8, as the code has it.  [AprToApy(0)] is zero, and [AprToApy] is
    monotone non-decreasing on the inputs that are not below
    [-HOURS_PER_YEAR], where the base [1 + apr / HOURS_PER_YEAR] of the
    power is not negative: for [-HOURS_PER_YEAR <= apr1 <= apr2] both calls
    return a value and the first is at most the second. *)
Theorem AprToApy_zero_and_monotone :
  (exists y, AprToApy 0 = Ok y /\ y == 0)
  /\ forall apr1 apr2 : Decimal,
       - NewFromInt HOURS_PER_YEAR <= apr1 ->
       apr1 <= apr2 ->
       exists y1 y2,
         AprToApy apr1 = Ok y1 /\ AprToApy apr2 = Ok y2 /\ y1 <= y2.
Proof.
  split.
  - exists (Round 0 8). split; [|reflexivity].
    apply (@AprToApy_at _ 1); vm_compute; reflexivity.
  - intros apr1 apr2 Hlow Hle.
    do 2 eexists. split; [apply AprToApy_value|].
    split; [apply AprToApy_value|].
    set (h := NewFromInt HOURS_PER_YEAR) in *.
    assert (Hh : 0 < h) by reflexivity.
    set (q1 := DivRound apr1 h DivisionPrecision).
    set (q2 := DivRound apr2 h DivisionPrecision).
    assert (H12 : q1 <= q2) by (apply DivRound_mono; assumption).
    assert (H1 : -1 <= q1).
    { assert (He : DivRound (- h) h DivisionPrecision == -1) by reflexivity.
      assert (Hd : DivRound (- h) h DivisionPrecision <= q1)
        by (apply DivRound_mono; assumption).
      lra. }
    apply Round_mono. unfold Sub, Add, ONE, NewFromInt.
    apply Qplus_le_l.
    apply (@Qpower_positive_le_compat (1 + q1) (1 + q2)); simpl; lra.
Qed.

Lemma AprToApy_zero_and_monotone_witness :
  - NewFromInt HOURS_PER_YEAR <= 1 # 10
  /\ 1 # 10 <= 2 # 10
  /\ exists y1 y2,
       AprToApy (1 # 10) = Ok y1 /\ AprToApy (2 # 10) = Ok y2 /\ y1 <= y2.
Proof.
  assert (H1 : - NewFromInt HOURS_PER_YEAR <= 1 # 10) by (vm_compute; discriminate).
  assert (H2 : 1 # 10 <= 2 # 10) by (vm_compute; discriminate).
  split; [exact H1|]. split; [exact H2|].
  exact (proj2 AprToApy_zero_and_monotone (1 # 10) (2 # 10) H1 H2).
Defined.

(* ================================================================== *)
(** ** Emissions *)

Lemma CalcEmissions_nonneg period amount rate raw :
  CalcEmissions period amount rate = Ok raw -> 0 <= raw.
Proof.
  unfold CalcEmissions.
  destruct (Z.leb_spec period 0); [intros [= <-]; unfold Zero; lra|].
  destruct (LessThanOrEqual rate Zero) eqn:Hr; [discriminate|].
  destruct (LessThanOrEqual amount Zero) eqn:Ha; [discriminate|].
  apply LessThanOrEqual_false in Hr, Ha. unfold Zero in *.
  rewrite Div_ok by (vm_compute; discriminate).
  intros [= <-]. apply DivRound_nonneg; [|reflexivity].
  unfold Mul, NewFromInt.
  assert (0 <= inject_Z period) by (unfold Qle; simpl; lia).
  apply Qmult_le_0_compat; [apply Qmult_le_0_compat; lra|assumption].
Qed.

Lemma GetSide_error bal e :
  Balance.GetSide bal = Err e -> e = IllegalBalanceState.
Proof.
  unfold Balance.GetSide.
  repeat match goal with |- context [if ?c then _ else _] => destruct c end;
    congruence.
Qed.

Lemma GetSide_no_panic bal p : Balance.GetSide bal <> Panic p.
Proof.
  unfold Balance.GetSide.
  repeat match goal with |- context [if ?c then _ else _] => destruct c end;
    congruence.
Qed.

Section Claim.

Variable now : Z.
Variable ba : BankAccountWrapper.t.

(** With a claimable amount the call returns at once when no time has
    passed, and otherwise stamps the balance and credits what
    [CalcEmissions] grants, capped by the bank's budget. *)
Lemma ClaimEmissions_claimable amount :
  claimable ba amount ->
  BankAccountWrapper.ClaimEmissions now ba
  = if (emissionsPeriod now ba <=? 0)%Z then (Ok tt, ba)
    else match CalcEmissions (emissionsPeriod now ba) amount
                 (Bank.EmissionsRate (BankAccountWrapper.Bank ba)) with
         | Ok raw =>
             (Ok tt,
              credited now ba
                (Min raw (Bank.EmissionsRemaining (BankAccountWrapper.Bank ba))))
         | Err e => (Err e, stamped now ba)
         | Panic p => (Panic p, stamped now ba)
         end.
Proof.
  unfold claimable, emissionsPeriod, credited, stamped.
  intros [(Hside & Hflag & ->)|(Hside & Hflag & ->)];
    unfold BankAccountWrapper.ClaimEmissions;
    unfold bindM at 1; unfold get at 1; unfold bindM at 1; unfold lift at 1;
    rewrite Hside, Hflag;
    unfold Bank.GetAssetAmount, Bank.GetLiabilityAmount;
    unfold bindM at 1, lift at 1;
    (match goal with |- context [if ?c then _ else _] => destruct c end;
     [reflexivity|]);
    unfold BankAccountWrapper.onBank, BankAccountWrapper.onBalance; run_monad;
    match goal with |- context [CalcEmissions ?a ?b ?c] =>
      destruct (CalcEmissions a b c) end; reflexivity.
Qed.

(** Without one it changes nothing. *)
Lemma ClaimEmissions_not_claimable :
  (forall amount, ~ claimable ba amount) ->
  exists r, BankAccountWrapper.ClaimEmissions now ba = (r, ba)
            /\ (r = Ok tt \/ r = Err IllegalBalanceState).
Proof.
  unfold claimable. intros H.
  unfold BankAccountWrapper.ClaimEmissions.
  unfold bindM at 1; unfold get at 1; unfold bindM at 1; unfold lift at 1.
  destruct (Balance.GetSide (BankAccountWrapper.Balance ba)) as [side|e|p] eqn:Hside.
  - destruct side; [| |eexists; split; [reflexivity|now left]].
    + destruct (Bank.GetFlag _ BankFlagsLendingActive) eqn:Hflag;
        [|eexists; split; [reflexivity|now left]].
      exfalso. eapply H. left. eauto.
    + destruct (Bank.GetFlag _ BankFlagsBorrowActive) eqn:Hflag;
        [|eexists; split; [reflexivity|now left]].
      exfalso. eapply H. right. eauto.
  - apply GetSide_error in Hside. subst.
    eexists; split; [reflexivity|now right].
  - now apply GetSide_no_panic in Hside.
Qed.

Lemma claimable_dec :
  (exists amount, claimable ba amount) \/ (forall amount, ~ claimable ba amount).
Proof.
  unfold claimable.
  destruct (Balance.GetSide (BankAccountWrapper.Balance ba)) as [[| |]|e|p];
    try (right; intros amount [(H & _)|(H & _)]; discriminate).
  - destruct (Bank.GetFlag _ BankFlagsLendingActive).
    + left. eexists. left. eauto.
    + right. intros amount [(_ & H & _)|(H & _)]; discriminate.
  - destruct (Bank.GetFlag _ BankFlagsBorrowActive).
    + left. eexists. right. eauto.
    + right. intros amount [(H & _)|(_ & H & _)]; discriminate.
Qed.

(** The three states [ClaimEmissions] can leave. *)
Lemma ClaimEmissions_states :
  (exists amount raw,
     claimable ba amount
     /\ (0 < emissionsPeriod now ba)%Z
     /\ CalcEmissions (emissionsPeriod now ba) amount
          (Bank.EmissionsRate (BankAccountWrapper.Bank ba)) = Ok raw
     /\ BankAccountWrapper.ClaimEmissions now ba
        = (Ok tt,
           credited now ba
             (Min raw (Bank.EmissionsRemaining (BankAccountWrapper.Bank ba)))))
  \/ (exists r, BankAccountWrapper.ClaimEmissions now ba = (r, ba))
  \/ (exists r, BankAccountWrapper.ClaimEmissions now ba = (r, stamped now ba)).
Proof.
  destruct claimable_dec as [[amount Hc]|Hn].
  - rewrite (ClaimEmissions_claimable Hc).
    destruct (Z.leb_spec (emissionsPeriod now ba) 0); [right; left; eauto|].
    destruct (CalcEmissions _ _ _) as [raw|e|p] eqn:Hcalc.
    + left. exists amount, raw. auto.
    + right; right; eauto.
    + right; right; eauto.
  - destruct (ClaimEmissions_not_claimable Hn) as (r & -> & _).
    right; left; eauto.
Qed.

End Claim.

(** C6.  With [bank.EmissionsRemaining >= 0] before the call, after
    [ClaimEmissions] the bank's [EmissionsRemaining] is still [>= 0] and the
    balance's [EmissionsOutstanding] is at least what it was.  When the call
    reaches the credit (a claimable amount, a positive period, raw emissions
    from [CalcEmissions]), the credited amount is
    [Min raw bank.EmissionsRemaining]: it is added to [EmissionsOutstanding]
    and subtracted from [EmissionsRemaining]; in every other case the two
    fields are as they were. *)
Theorem claim_emissions_cap :
  forall (ba : BankAccountWrapper.t) (now : Z),
    0 <= Bank.EmissionsRemaining (BankAccountWrapper.Bank ba) ->
    let ba' := snd (BankAccountWrapper.ClaimEmissions now ba) in
    let remaining := Bank.EmissionsRemaining (BankAccountWrapper.Bank ba) in
    let outstanding :=
      Balance.EmissionsOutstanding (BankAccountWrapper.Balance ba) in
    let remaining' := Bank.EmissionsRemaining (BankAccountWrapper.Bank ba') in
    let outstanding' :=
      Balance.EmissionsOutstanding (BankAccountWrapper.Balance ba') in
    0 <= remaining'
    /\ outstanding <= outstanding'
    /\ (forall amount raw,
          claimable ba amount ->
          (0 < emissionsPeriod now ba)%Z ->
          CalcEmissions (emissionsPeriod now ba) amount
            (Bank.EmissionsRate (BankAccountWrapper.Bank ba)) = Ok raw ->
          outstanding' = Add outstanding (Min raw remaining)
          /\ remaining' = Sub remaining (Min raw remaining))
    /\ ((outstanding' = outstanding /\ remaining' = remaining)
        \/ exists amount raw,
             claimable ba amount
             /\ (0 < emissionsPeriod now ba)%Z
             /\ CalcEmissions (emissionsPeriod now ba) amount
                  (Bank.EmissionsRate (BankAccountWrapper.Bank ba)) = Ok raw).
Proof.
  intros ba now Hrem ba' remaining outstanding remaining' outstanding'.
  subst remaining' outstanding' remaining outstanding.
  split; [|split; [|split]].
  - destruct (ClaimEmissions_states now ba)
      as [(amount & raw & Hc & Hp & Hcalc & Hrun)|[[r Hrun]|[r Hrun]]];
      subst ba'; rewrite Hrun; simpl; try assumption.
    pose proof (Min_le_item raw (Bank.EmissionsRemaining (BankAccountWrapper.Bank ba))).
    unfold Sub. lra.
  - destruct (ClaimEmissions_states now ba)
      as [(amount & raw & Hc & Hp & Hcalc & Hrun)|[[r Hrun]|[r Hrun]]];
      subst ba'; rewrite Hrun; simpl; try lra.
    apply CalcEmissions_nonneg in Hcalc.
    pose proof (@Min_glb raw (Bank.EmissionsRemaining (BankAccountWrapper.Bank ba))
                  0 Hcalc Hrem).
    unfold Add. lra.
  - intros amount raw Hc Hp Hcalc. subst ba'.
    rewrite (ClaimEmissions_claimable now Hc), Hcalc.
    destruct (Z.leb_spec (emissionsPeriod now ba) 0); [lia|].
    split; reflexivity.
  - destruct (ClaimEmissions_states now ba)
      as [(amount & raw & Hc & Hp & Hcalc & Hrun)|[[r Hrun]|[r Hrun]]].
    + right. exists amount, raw. auto.
    + left. subst ba'. rewrite Hrun. split; reflexivity.
    + left. subst ba'. rewrite Hrun. split; reflexivity.
Qed.

(** Ten asset shares held for a year at an emissions rate of one, with a
    budget of 5 left: raw emissions of 10, of which 5 are credited. *)
Lemma claim_emissions_cap_witness :
  let ba := Scenario.wrapper SECONDS_PER_YEAR (Scenario.balance 10 0)
              (Scenario.with_EmissionsRate 1 (Scenario.bank 10 0 0)) in
  let ba' := snd (BankAccountWrapper.ClaimEmissions (BankAccountWrapper.clk ba) ba) in
  0 <= Bank.EmissionsRemaining (BankAccountWrapper.Bank ba)
  /\ 0 <= Bank.EmissionsRemaining (BankAccountWrapper.Bank ba')
  /\ Balance.EmissionsOutstanding (BankAccountWrapper.Balance ba)
     <= Balance.EmissionsOutstanding (BankAccountWrapper.Balance ba')
  /\ Bank.EmissionsRemaining (BankAccountWrapper.Bank ba') == 0
  /\ Balance.EmissionsOutstanding (BankAccountWrapper.Balance ba') == 5.
Proof.
  intros ba ba'.
  assert (H : 0 <= Bank.EmissionsRemaining (BankAccountWrapper.Bank ba))
    by (vm_compute; discriminate).
  destruct (claim_emissions_cap ba (BankAccountWrapper.clk ba) H) as (H1 & H2 & _).
  split; [exact H|]. split; [exact H1|]. split; [exact H2|].
  split; reflexivity.
Defined.

(* ================================================================== *)
(** ** Interest accrual *)

Lemma wrap_in_range z : Int64.in_range (Int64.wrap z).
Proof.
  unfold Int64.in_range, Int64.wrap.
  pose proof (Z.mod_pos_bound (z + Int64.half_modulus) Int64.modulus ltac:(reflexivity)).
  unfold Int64.modulus, Int64.half_modulus in *. lia.
Qed.

Lemma wrap_uint64 z :
  Int64.in_range z -> Int64.wrap (Bank.uint64_of_int64 z) = z.
Proof.
  unfold Int64.in_range, Int64.wrap, Bank.uint64_of_int64. intros H.
  rewrite Zplus_mod_idemp_l.
  rewrite Z.mod_small; unfold Int64.modulus, Int64.half_modulus in *; lia.
Qed.

Lemma sub_no_overflow a b :
  Int64.in_range (a - b) -> Int64.sub a b = (a - b)%Z.
Proof.
  unfold Int64.sub, Int64.in_range, Int64.wrap. intros H.
  rewrite Z.mod_small; unfold Int64.modulus, Int64.half_modulus in *; lia.
Qed.

Section Accrue.
Variable b : Bank.t.
Variable now : Z.

Let timeDelta := Int64.sub now (Bank.LastUpdate b).

Lemma CalcInterestRateAccrualStateChanges_value cfg a l av lv la ba ga ia :
  ~ a == 0 ->
  InterestRateConfig.CalcInterestRate cfg (DivRound l a DivisionPrecision)
    = Ok (la, ba, ga, ia) ->
  CalcInterestRateAccrualStateChanges (Bank.uint64_of_int64 timeDelta) a l cfg av lv
  = Ok (Mul av (Add ONE (perPeriod timeDelta la)), Mul lv (Add ONE (perPeriod timeDelta ba)),
        perPeriod timeDelta (Mul l ga), perPeriod timeDelta (Mul l ia)).
Proof.
  intros Ha Hrate. unfold CalcInterestRateAccrualStateChanges.
  rewrite (Div_ok _ Ha). cbn [bind]. rewrite Hrate. cbn [bind].
  unfold CalcAccruedInterestPaymentPerPeriod, CalcInterestPaymentForPeriod.
  rewrite wrap_uint64 by apply wrap_in_range.
  rewrite !Div_ok by (vm_compute; discriminate).
  reflexivity.
Qed.


Let totalAssets := Bank.GetTotalAssetQuantity b.
Let totalLiabilities := Bank.GetTotalLiabilityQuantity b.

Ltac enter_accrue :=
  unfold Bank.AccrueInterest;
  unfold bindM at 1, get at 1; fold timeDelta.

Ltac enter_totals :=
  unfold bindM at 1, modify at 1; unfold bindM at 1, get at 1;
  unfold Bank.GetAssetAmount, Bank.GetLiabilityAmount;
  unfold bindM at 1, lift at 1; unfold bindM at 1, lift at 1;
  cbn [Bank.TotalAssetShares Bank.AssetShareValue Bank.TotalLiabilityShares
       Bank.LiabilityShareValue Bank.set_LastUpdate Bank.BankConfig];
  fold (Bank.GetTotalAssetQuantity b) (Bank.GetTotalLiabilityQuantity b);
  fold totalAssets totalLiabilities.

Lemma AccrueInterest_no_time :
  (timeDelta <= 0)%Z -> Bank.AccrueInterest now b = (Ok tt, b).
Proof.
  intros Htd. enter_accrue.
  destruct (Z.leb_spec timeDelta 0); [reflexivity|lia].
Qed.

Lemma AccrueInterest_no_totals :
  (0 < timeDelta)%Z -> totalAssets == 0 \/ totalLiabilities == 0 ->
  Bank.AccrueInterest now b = (Ok tt, Bank.set_LastUpdate now b).
Proof.
  intros Htd H. enter_accrue.
  destruct (Z.leb_spec timeDelta 0); [lia|]. enter_totals.
  assert (Hz : IsZero totalAssets || IsZero totalLiabilities = true)
    by (apply orb_true_iff; destruct H as [H|H]; apply IsZero_eq in H; auto).
  rewrite Hz. reflexivity.
Qed.

Lemma AccrueInterest_no_rates r :
  (0 < timeDelta)%Z -> ~ totalAssets == 0 -> ~ totalLiabilities == 0 ->
  InterestRateConfig.CalcInterestRate
    (BankConfig.InterestRateConfig (Bank.BankConfig b))
    (DivRound totalLiabilities totalAssets DivisionPrecision) = r ->
  (forall v, r <> Ok v) ->
  exists r', Bank.AccrueInterest now b = (r', Bank.set_LastUpdate now b)
             /\ (forall e, r = Err e -> r' = Err e)
             /\ (forall p, r = Panic p -> r' = Panic p).
Proof.
  intros Htd Ha Hl Hrate Hr. enter_accrue.
  destruct (Z.leb_spec timeDelta 0); [lia|]. enter_totals.
  pose proof Ha as Ha'. apply IsZero_false in Ha', Hl. rewrite Ha', Hl. cbn [orb].
  unfold bindM at 1, lift at 1.
  unfold CalcInterestRateAccrualStateChanges.
  rewrite (Div_ok _ Ha). cbn [bind]. rewrite Hrate.
  destruct r as [v|e|p]; [now elim (Hr v)| |]; cbn [bind];
    eexists; (split; [reflexivity|]); split; congruence.
Qed.

Lemma AccrueInterest_accrued la ba ga ia :
  (0 < timeDelta)%Z -> ~ totalAssets == 0 -> ~ totalLiabilities == 0 ->
  InterestRateConfig.CalcInterestRate
    (BankConfig.InterestRateConfig (Bank.BankConfig b))
    (DivRound totalLiabilities totalAssets DivisionPrecision)
    = Ok (la, ba, ga, ia) ->
  let groupFee := perPeriod timeDelta (Mul totalLiabilities ga) in
  let insuranceFee := perPeriod timeDelta (Mul totalLiabilities ia) in
  let reduced := Sub (Sub (Bank.LiquidityVault b) insuranceFee) groupFee in
  let vault :=
    if IsPositive (Bank.LiquidityVault b)
    then if LessThan reduced EMPTY_BALANCE_THRESHOLD then Zero else reduced
    else Bank.LiquidityVault b in
  Bank.AccrueInterest now b
  = (if IsNegative vault then Err ErrBankLiquidityDeficit else Ok tt,
     Bank.set_LiquidityVault vault
       (Bank.set_CollectedInsuranceFeesOutstanding
          (Add (Bank.CollectedInsuranceFeesOutstanding b) insuranceFee)
          (Bank.set_CollectedGroupFeesOutstanding
             (Add (Bank.CollectedGroupFeesOutstanding b) groupFee)
             (Bank.set_LiabilityShareValue
                (Mul (Bank.LiabilityShareValue b) (Add ONE (perPeriod timeDelta ba)))
                (Bank.set_AssetShareValue
                   (Mul (Bank.AssetShareValue b) (Add ONE (perPeriod timeDelta la)))
                   (Bank.set_LastUpdate now b)))))).
Proof.
  intros Htd Ha Hl Hrate groupFee insuranceFee reduced vault. enter_accrue.
  destruct (Z.leb_spec timeDelta 0); [lia|]. enter_totals.
  pose proof Ha as Ha'. apply IsZero_false in Ha', Hl. rewrite Ha', Hl. cbn [orb].
  unfold bindM at 1, lift at 1.
  erewrite CalcInterestRateAccrualStateChanges_value by eassumption.
  unfold Bank.NormalizeLiquidityVault. run_monad.
  fold groupFee insuranceFee. fold reduced. subst vault.
  destruct (IsPositive (Bank.LiquidityVault b)); simpl.
  - destruct (LessThan reduced EMPTY_BALANCE_THRESHOLD); simpl.
    + reflexivity.
    + destruct (IsNegative reduced); reflexivity.
  - destruct (IsNegative (Bank.LiquidityVault b)); reflexivity.
Qed.

End Accrue.

(** C3.  [AccrueInterest(now)], with [timeDelta] the 64-bit difference
    [now - lastUpdate]: when [timeDelta <= 0] the bank is unchanged; otherwise
    [lastUpdate] becomes [now] and, when a total is zero, nothing else
    changes; otherwise, with the rates [CalcInterestRate] returns at the
    utilization [totalLiabilities / totalAssets], the asset share value is
    multiplied by [1 + lendingApr * timeDelta / SECONDS_PER_YEAR], the
    liability share value by [1 + borrowingApr * timeDelta / SECONDS_PER_YEAR],
    the fees [totalLiabilities * feeApr * timeDelta / SECONDS_PER_YEAR] are
    added to their accumulators, a positive liquidity vault loses the sum of
    the two fees and is set to zero when it falls below
    [EMPTY_BALANCE_THRESHOLD], and the call fails with
    [ErrBankLiquidityDeficit] exactly when the vault is negative afterwards.
    When [CalcInterestRate] returns an error the call returns it, with only
    [lastUpdate] changed. *)
Theorem accrue_interest_steps :
  forall (b : Bank.t) (now : Z),
    let timeDelta := Int64.sub now (Bank.LastUpdate b) in
    let totalAssets := Bank.GetTotalAssetQuantity b in
    let totalLiabilities := Bank.GetTotalLiabilityQuantity b in
    let utilization := DivRound totalLiabilities totalAssets DivisionPrecision in
    let rates :=
      InterestRateConfig.CalcInterestRate
        (BankConfig.InterestRateConfig (Bank.BankConfig b)) utilization in
    let result := fst (Bank.AccrueInterest now b) in
    let b' := snd (Bank.AccrueInterest now b) in
    ((timeDelta <= 0)%Z -> result = Ok tt /\ b' = b)
    /\ ((0 < timeDelta)%Z ->
        (totalAssets == 0 \/ totalLiabilities == 0) ->
        result = Ok tt /\ b' = Bank.set_LastUpdate now b)
    /\ ((0 < timeDelta)%Z ->
        ~ totalAssets == 0 -> ~ totalLiabilities == 0 ->
        forall lendingApr borrowingApr groupFeeApr insuranceFeeApr,
          rates = Ok (lendingApr, borrowingApr, groupFeeApr, insuranceFeeApr) ->
          let groupFee := perPeriod timeDelta (Mul totalLiabilities groupFeeApr) in
          let insuranceFee := perPeriod timeDelta (Mul totalLiabilities insuranceFeeApr) in
          let reduced := Sub (Sub (Bank.LiquidityVault b) insuranceFee) groupFee in
          Bank.LastUpdate b' = now
          /\ Bank.AssetShareValue b'
             = Mul (Bank.AssetShareValue b) (Add ONE (perPeriod timeDelta lendingApr))
          /\ Bank.LiabilityShareValue b'
             = Mul (Bank.LiabilityShareValue b) (Add ONE (perPeriod timeDelta borrowingApr))
          /\ Bank.CollectedGroupFeesOutstanding b'
             = Add (Bank.CollectedGroupFeesOutstanding b) groupFee
          /\ Bank.CollectedInsuranceFeesOutstanding b'
             = Add (Bank.CollectedInsuranceFeesOutstanding b) insuranceFee
          /\ reduced == Bank.LiquidityVault b - (groupFee + insuranceFee)
          /\ (0 < Bank.LiquidityVault b -> reduced < EMPTY_BALANCE_THRESHOLD ->
              Bank.LiquidityVault b' = Zero)
          /\ (0 < Bank.LiquidityVault b -> EMPTY_BALANCE_THRESHOLD <= reduced ->
              Bank.LiquidityVault b' = reduced)
          /\ (Bank.LiquidityVault b <= 0 ->
              Bank.LiquidityVault b' = Bank.LiquidityVault b)
          /\ (result = Err ErrBankLiquidityDeficit <-> Bank.LiquidityVault b' < 0)
          /\ (result = Ok tt <-> 0 <= Bank.LiquidityVault b'))
    /\ ((0 < timeDelta)%Z ->
        ~ totalAssets == 0 -> ~ totalLiabilities == 0 ->
        forall e, rates = Err e ->
          result = Err e /\ b' = Bank.set_LastUpdate now b).
Proof.
  intros b now timeDelta totalAssets totalLiabilities utilization rates result b'.
  subst result b'.
  split; [|split; [|split]].
  - intros Htd. rewrite (@AccrueInterest_no_time b now Htd). split; reflexivity.
  - intros Htd H. rewrite (@AccrueInterest_no_totals b now Htd H). split; reflexivity.
  - intros Htd Ha Hl la ba ga ia Hrate groupFee insuranceFee reduced.
    rewrite (@AccrueInterest_accrued b now la ba ga ia Htd Ha Hl Hrate).
    fold timeDelta totalLiabilities. fold groupFee insuranceFee. fold reduced.
    cbn [fst snd Bank.LastUpdate Bank.AssetShareValue Bank.LiabilityShareValue
         Bank.CollectedGroupFeesOutstanding Bank.CollectedInsuranceFeesOutstanding
         Bank.LiquidityVault Bank.set_LiquidityVault
         Bank.set_CollectedInsuranceFeesOutstanding
         Bank.set_CollectedGroupFeesOutstanding Bank.set_LiabilityShareValue
         Bank.set_AssetShareValue Bank.set_LastUpdate].
    do 5 (split; [reflexivity|]).
    split; [unfold reduced, Sub; ring|].
    destruct (IsPositive (Bank.LiquidityVault b)) eqn:Hpos;
      [apply IsPositive_lt in Hpos|apply IsPositive_false in Hpos].
    + destruct (LessThan reduced EMPTY_BALANCE_THRESHOLD) eqn:Hlow;
        [apply LessThan_lt in Hlow|apply LessThan_false in Hlow]; cbv iota.
      * assert (Hneg : IsNegative Zero = false) by reflexivity. rewrite Hneg.
        repeat split; try reflexivity; try discriminate; intros;
          unfold Zero in *; try lra.
      * assert (Hneg : IsNegative reduced = false)
          by (apply IsNegative_false; unfold EMPTY_BALANCE_THRESHOLD in Hlow; lra).
        rewrite Hneg.
        repeat split; try reflexivity; try discriminate; intros;
          unfold EMPTY_BALANCE_THRESHOLD in *; try lra.
    + cbv iota.
      destruct (IsNegative (Bank.LiquidityVault b)) eqn:Hneg;
        [apply IsNegative_lt in Hneg|apply IsNegative_false in Hneg];
        repeat split; try reflexivity; try discriminate; intros; try lra.
  - intros Htd Ha Hl e Hrate.
    destruct (@AccrueInterest_no_rates b now _ Htd Ha Hl Hrate) as (r' & -> & He & _);
      [intros v; discriminate|].
    rewrite (He e eq_refl). split; reflexivity.
Qed.

(* ================================================================== *)
(** ** Mutations through the wrapper *)

Section RaisesOnly.
Variables S T A B : Type.
Variable P : Error -> Prop.

Lemma raises_only_ret (a : A) : raises_only P (@ret S A a).
Proof. intros s e; discriminate. Qed.

Lemma raises_only_get : raises_only P (@get S).
Proof. intros s e; discriminate. Qed.

Lemma raises_only_modify (f : S -> S) : raises_only P (modify f).
Proof. intros s e; discriminate. Qed.

Lemma raises_only_throw (e : Error) : P e -> raises_only P (@throw S A e).
Proof. intros H s e' [= <-]. exact H. Qed.

Lemma raises_only_lift (r : result A) :
  (forall e, r = Err e -> P e) -> raises_only P (@lift S A r).
Proof. intros H s e. simpl. apply H. Qed.

Lemma raises_only_bind (c : M S A) (k : A -> M S B) :
  raises_only P c -> (forall a, raises_only P (k a)) ->
  raises_only P (bindM c k).
Proof.
  intros Hc Hk s e. unfold bindM.
  specialize (Hc s). destruct (c s) as [[a|e'|p] s']; simpl in *.
  - apply Hk.
  - intros [= <-]. now apply Hc.
  - discriminate.
Qed.

Lemma raises_only_zoom (proj : S -> T) (upd : T -> S -> S) (c : M T A) :
  raises_only P c -> raises_only P (zoom proj upd c).
Proof.
  intros Hc s e. unfold zoom. specialize (Hc (proj s)).
  destruct (c (proj s)) as [r t']. exact (Hc e).
Qed.

Lemma raises_only_discard (c : M S unit) : raises_only P (discard c).
Proof.
  intros s e. unfold discard. destruct (c s) as [[[]|e'|p] s']; discriminate.
Qed.

Lemma raises_only_if (b : bool) (c1 c2 : M S A) :
  raises_only P c1 -> raises_only P c2 -> raises_only P (if b then c1 else c2).
Proof. destruct b; auto. Qed.

End RaisesOnly.

Lemma AssertOperationalMode_error b inc e :
  Bank.AssertOperationalMode b inc = Err e -> e = BankPaused \/ e = BankReduceOnly.
Proof.
  unfold Bank.AssertOperationalMode.
  destruct (BankConfig.OperationalState _); [| |destruct inc|]; intros [= <-]; auto.
Qed.

Lemma CheckUtilizationRatio_error b e :
  Bank.CheckUtilizationRatio b = Err e -> e = IllegalUtilizationRatio.
Proof.
  unfold Bank.CheckUtilizationRatio. simpl.
  destruct (LessThan _ _); intros [= <-]; auto.
Qed.

Ltac raises_step :=
  first
    [ apply raises_only_ret
    | apply raises_only_get
    | apply raises_only_modify
    | apply raises_only_discard
    | apply raises_only_zoom
    | apply raises_only_bind; [|intros]
    | apply raises_only_if
    | apply raises_only_throw
    | apply raises_only_lift; intros ? ? ].

Lemma Balance_ChangeAssetShares_raises d :
  raises_only mutation_error (Balance.ChangeAssetShares d).
Proof.
  unfold Balance.ChangeAssetShares, mutation_error.
  repeat raises_step. auto.
Qed.

Lemma Balance_ChangeLiabilityShares_raises d :
  raises_only mutation_error (Balance.ChangeLiabilityShares d).
Proof.
  unfold Balance.ChangeLiabilityShares, mutation_error.
  repeat raises_step. auto.
Qed.

Lemma Bank_ChangeAssetShares_raises d bypass :
  raises_only mutation_error (Bank.ChangeAssetShares d bypass).
Proof.
  unfold Bank.ChangeAssetShares, mutation_error.
  repeat raises_step; try discriminate. auto.
Qed.

Lemma Bank_ChangeLiabilityShares_raises d bypass :
  raises_only mutation_error (Bank.ChangeLiabilityShares d bypass).
Proof.
  unfold Bank.ChangeLiabilityShares, mutation_error.
  repeat raises_step; try discriminate. auto.
Qed.

Section Wrapper.

Import BankAccountWrapper.

(** [CalcEmissions] returns a value or [MathError], and never panics. *)
Lemma CalcEmissions_cases period amount rate :
  CalcEmissions period amount rate = Err MathError
  \/ exists raw, CalcEmissions period amount rate = Ok raw.
Proof.
  unfold CalcEmissions.
  destruct (period <=? 0)%Z; [right; eauto|].
  destruct (LessThanOrEqual rate Zero); [now left|].
  destruct (LessThanOrEqual amount Zero); [now left|].
  rewrite Div_ok by (vm_compute; discriminate). right; eauto.
Qed.

Lemma ClaimEmissions_frame now ba :
  exists r s,
    ClaimEmissions now ba = (r, s)
    /\ (r = Ok tt \/ r = Err IllegalBalanceState \/ r = Err MathError)
    /\ same_position ba s.
Proof.
  destruct (claimable_dec ba) as [[amount Hc]|Hn].
  - rewrite (ClaimEmissions_claimable now Hc).
    destruct (emissionsPeriod now ba <=? 0)%Z.
    { do 2 eexists. split; [reflexivity|]. split; [auto|]. repeat split. }
    destruct (CalcEmissions_cases (emissionsPeriod now ba) amount
                (Bank.EmissionsRate (Bank ba))) as [-> |[raw ->]];
      do 2 eexists; (split; [reflexivity|]); (split; [auto|]); repeat split.
  - destruct (ClaimEmissions_not_claimable now Hn) as (r & -> & Hr).
    do 2 eexists. split; [reflexivity|]. split; [tauto|]. repeat split.
Qed.

Section Increase.

Variable ba : BankAccountWrapper.t.
Variable delta : Decimal.
Variable ty : BalanceIncreaseType.

Let currentLiabilityAmount :=
  Mul (Balance.LiabilityShares (Balance ba)) (Bank.LiabilityShareValue (Bank ba)).
Let liabilityAmountDecrease := Min currentLiabilityAmount delta.
Let assetAmountIncrease := Max (Sub delta currentLiabilityAmount) Zero.

Lemma IncreaseBalanceInternal_stages :
  exists (s : BankAccountWrapper.t) (tail : M BankAccountWrapper.t unit),
    same_position ba s
    /\ raises_only mutation_error tail
    /\ (fst (tail s) = Ok tt ->
        Balance.AssetShares (Balance (snd (tail s)))
        = Add (Balance.AssetShares (Balance ba))
              (DivRound assetAmountIncrease (Bank.AssetShareValue (Bank ba))
                 DivisionPrecision)
        /\ Balance.LiabilityShares (Balance (snd (tail s)))
           = Add (Balance.LiabilityShares (Balance ba))
                 (Mul (DivRound liabilityAmountDecrease
                         (Bank.LiabilityShareValue (Bank ba)) DivisionPrecision)
                      (NewFromInt (-1))))
    /\ IncreaseBalanceInternal delta ty ba
       = if BalanceIncreaseType_eqb ty BalanceIncreaseTypeRepayOnly
            && negb (IsZero assetAmountIncrease)
         then (Err OperationRepayOnly, s)
         else if BalanceIncreaseType_eqb ty BalanceIncreaseTypeDepositOnly
                 && negb (IsZero liabilityAmountDecrease)
         then (Err OperationDepositOnly, s)
         else match Bank.AssertOperationalMode (Bank ba)
                      (GreaterThan assetAmountIncrease ZERO_AMOUNT_THRESHOLD) with
              | Ok _ => tail s
              | Err e => (Err e, s)
              | Panic p => (Panic p, s)
              end.
Proof.
  unfold IncreaseBalanceInternal.
  unfold bindM at 1, get at 1. unfold bindM at 1. unfold discard at 1.
  destruct (ClaimEmissions_frame (clk ba) ba)
    as (r & s & -> & Hr & Hsame).
  pose proof Hsame as (_ & HA & HL & HW & HV & _ & _ & HC).
  assert (Hrun : (let (r0, s') := (r, s) in
                  match r0 with Panic p => (@Panic unit p, s') | _ => (Ok tt, s') end)
                 = (Ok tt, s))
    by (destruct Hr as [-> |[-> | ->]]; reflexivity).
  rewrite Hrun. clear Hrun.
  unfold bindM at 1, get at 1. unfold bindM at 1, lift at 1, Bank.GetLiabilityAmount.
  rewrite HL, HV. fold currentLiabilityAmount.
  fold liabilityAmountDecrease. fold assetAmountIncrease.
  unfold bindM at 1.
  unfold Bank.AssertOperationalMode at 1. rewrite HC.
  fold (Bank.AssertOperationalMode (Bank ba)
          (GreaterThan assetAmountIncrease ZERO_AMOUNT_THRESHOLD)).
  exists s.
  destruct ty; cbn [BalanceIncreaseType_eqb andb];
    eexists; (split; [exact Hsame|]); (split; [|split]; cycle 2);
    try (repeat match goal with
                | |- context [if negb ?c then _ else _] => destruct c; cbn [negb]
                end;
         try reflexivity;
         unfold ret at 1; unfold bindM at 1, lift at 1;
         destruct (Bank.AssertOperationalMode _ _) as [[]|e|p]; reflexivity).
  all: try (rewrite <- HA, <- HL, <- HW, <- HV;
            unfold onBalance, onBank, Bank.GetAssetShares, Bank.GetLiabilityShares,
              Div, Balance.ChangeAssetShares, Balance.ChangeLiabilityShares,
              Bank.ChangeAssetShares, Bank.ChangeLiabilityShares,
              Bank.CheckUtilizationRatio;
            run_monad;
            repeat match goal with
                   | |- context [if ?c then _ else _] => destruct c; simpl
                   end;
            try discriminate; intros _; split; reflexivity).
  all: unfold onBalance, onBank.
  all: repeat first
         [ apply Balance_ChangeAssetShares_raises
         | apply Balance_ChangeLiabilityShares_raises
         | apply Bank_ChangeAssetShares_raises
         | apply Bank_ChangeLiabilityShares_raises
         | apply raises_only_get
         | apply raises_only_zoom
         | apply raises_only_lift; intros ? Herr
         | apply raises_only_bind; [|intros] ].
  all: try (exfalso; exact (Div_no_error _ _ Herr)).
  all: apply CheckUtilizationRatio_error in Herr; subst; unfold mutation_error; auto.
Qed.

End Increase.


Lemma Min_Qmin a b : Min a b == Qmin a b.
Proof.
  unfold Min, Cmp. destruct (Qcompare_spec b a) as [H|H|H].
  - destruct (Q.min_spec a b) as [[_ ->]|[_ ->]]; lra.
  - rewrite Q.min_r by lra. reflexivity.
  - rewrite Q.min_l by lra. reflexivity.
Qed.

Lemma Max_Qmax a b : Max a b == Qmax a b.
Proof.
  unfold Max, Cmp. destruct (Qcompare_spec b a) as [H|H|H].
  - destruct (Q.max_spec a b) as [[_ ->]|[_ ->]]; lra.
  - rewrite Q.max_l by lra. reflexivity.
  - rewrite Q.max_r by lra. reflexivity.
Qed.

(** C5.  For [delta > 0], [IncreaseBalanceInternal] works with
    [liabilityAmountDecrease = min(currentLiabilityAmount, delta)] and
    [assetAmountIncrease = max(delta - currentLiabilityAmount, 0)]: under
    RepayOnly it fails with [OperationRepayOnly] exactly when
    [assetAmountIncrease] is not zero, under DepositOnly with
    [OperationDepositOnly] exactly when [liabilityAmountDecrease] is not
    zero, and no other type gives these errors; once the restriction is met,
    an error of [AssertOperationalMode] called with
    [assetAmountIncrease > ZERO_AMOUNT_THRESHOLD] is the result (in
    ReduceOnly state: [BankReduceOnly] exactly when [assetAmountIncrease] is
    positive); and on success the balance's asset shares have grown by the
    shares of [assetAmountIncrease] and its liability shares have fallen by
    the shares of [liabilityAmountDecrease]. *)
Theorem increase_balance_split :
  forall (ba : BankAccountWrapper.t) (delta : Decimal) (ty : BalanceIncreaseType),
    0 < delta ->
    let currentLiabilityAmount :=
      Mul (Balance.LiabilityShares (Balance ba))
          (Bank.LiabilityShareValue (Bank ba)) in
    let liabilityAmountDecrease := Min currentLiabilityAmount delta in
    let assetAmountIncrease := Max (Sub delta currentLiabilityAmount) Zero in
    let result := fst (IncreaseBalanceInternal delta ty ba) in
    let after := snd (IncreaseBalanceInternal delta ty ba) in
    let restrictionMet :=
      (ty = BalanceIncreaseTypeRepayOnly -> assetAmountIncrease == 0)
      /\ (ty = BalanceIncreaseTypeDepositOnly -> liabilityAmountDecrease == 0) in
    liabilityAmountDecrease == Qmin currentLiabilityAmount delta
    /\ assetAmountIncrease == Qmax (delta - currentLiabilityAmount) 0
    /\ (ty = BalanceIncreaseTypeRepayOnly ->
        (result = Err OperationRepayOnly <-> ~ assetAmountIncrease == 0))
    /\ (ty = BalanceIncreaseTypeDepositOnly ->
        (result = Err OperationDepositOnly <-> ~ liabilityAmountDecrease == 0))
    /\ (result = Err OperationRepayOnly -> ty = BalanceIncreaseTypeRepayOnly)
    /\ (result = Err OperationDepositOnly -> ty = BalanceIncreaseTypeDepositOnly)
    /\ (restrictionMet ->
        forall e,
          Bank.AssertOperationalMode (Bank ba)
            (GreaterThan assetAmountIncrease ZERO_AMOUNT_THRESHOLD) = Err e ->
          result = Err e)
    /\ (restrictionMet ->
        BankConfig.OperationalState (Bank.BankConfig (Bank ba))
          = BankOperationalStateReduceOnly ->
        (result = Err BankReduceOnly <-> ZERO_AMOUNT_THRESHOLD < assetAmountIncrease))
    /\ (result = Ok tt ->
        Balance.AssetShares (Balance after)
        = Add (Balance.AssetShares (Balance ba))
              (DivRound assetAmountIncrease (Bank.AssetShareValue (Bank ba))
                 DivisionPrecision)
        /\ Balance.LiabilityShares (Balance after)
           = Add (Balance.LiabilityShares (Balance ba))
                 (Mul (DivRound liabilityAmountDecrease
                         (Bank.LiabilityShareValue (Bank ba)) DivisionPrecision)
                      (NewFromInt (-1)))).
Proof.
  intros ba delta ty _ cur dec inc result after restrictionMet.
  subst result after restrictionMet.
  destruct (IncreaseBalanceInternal_stages ba delta ty)
    as (s & tail & _ & Htail & Hok & Heq).
  fold cur dec inc in Hok, Heq.
  set (mode := Bank.AssertOperationalMode (Bank ba)
                 (GreaterThan inc ZERO_AMOUNT_THRESHOLD)) in *.
  set (rest := match mode with
               | Ok _ => tail s
               | Err e => (Err e, s)
               | Panic p => (Panic p, s)
               end) in *.
  assert (Hrest : forall e, fst rest = Err e ->
                    e <> OperationRepayOnly /\ e <> OperationDepositOnly).
  { intros e. subst rest. destruct mode as [[]|e0|p0] eqn:Hm; cbn [fst].
    - intros H. apply Htail in H. destruct H as [-> |[-> | ->]]; split; discriminate.
    - intros [= ->]. apply AssertOperationalMode_error in Hm.
      destruct Hm as [-> | ->]; split; discriminate.
    - discriminate. }
  assert (Hmode : forall e, mode = Err e -> fst rest = Err e)
    by (intros e H; subst rest; rewrite H; reflexivity).
  assert (Hreduce : BankConfig.OperationalState (Bank.BankConfig (Bank ba))
                    = BankOperationalStateReduceOnly ->
                    (fst rest = Err BankReduceOnly <-> ZERO_AMOUNT_THRESHOLD < inc)).
  { intros Hst. subst rest mode. unfold Bank.AssertOperationalMode. rewrite Hst.
    destruct (GreaterThan inc ZERO_AMOUNT_THRESHOLD) eqn:Hgt; cbn [fst].
    - apply GreaterThan_gt in Hgt. tauto.
    - apply GreaterThan_false in Hgt. split.
      + intros H. apply Htail in H. destruct H as [H|[H|H]]; discriminate.
      + intros H. lra. }
  assert (Hsuccess : fst rest = Ok tt -> fst (tail s) = Ok tt /\ snd rest = snd (tail s)).
  { subst rest. destruct mode as [[]|e0|p0]; cbn [fst snd]; try discriminate. auto. }
  clearbody rest mode.
  split; [apply Min_Qmin|]. split; [apply Max_Qmax|].
  rewrite Heq. clear Heq.
  rewrite <- (IsZero_eq inc), <- (IsZero_eq dec).
  destruct ty; cbn [BalanceIncreaseType_eqb andb];
    destruct (IsZero inc); destruct (IsZero dec); cbn [negb fst snd];
    repeat match goal with |- _ /\ _ => split end;
    try (intros; discriminate);
    try (intros; congruence);
    try (intros H; apply Hrest in H; exfalso; tauto);
    try (intros _; split; [intros H; apply Hrest in H; exfalso; tauto
                          |intros H; exfalso; apply H; reflexivity]);
    try (intros _; split; [intros _; discriminate|reflexivity]);
    try (intros _; apply Hmode);
    try (intros _; apply Hreduce);
    try (intros H; apply Hsuccess in H; destruct H as [H ->]; apply Hok, H);
    try (intros [H1 H2]; try (specialize (H1 eq_refl)); try (specialize (H2 eq_refl));
         discriminate).
Qed.

Lemma ClaimEmissions_error now ba e :
  fst (ClaimEmissions now ba) = Err e -> claim_error e.
Proof.
  destruct (ClaimEmissions_frame now ba) as (r & s & -> & Hr & _).
  cbn [fst]. unfold claim_error.
  destruct Hr as [-> |[-> | ->]]; intros [= <-]; auto.
Qed.

Ltac raises_leaf :=
  match goal with
  | H : Bank.AssertOperationalMode _ _ = Err _ |- _ =>
      apply AssertOperationalMode_error in H; destruct H as [-> | ->]
  | H : Bank.CheckUtilizationRatio _ = Err _ |- _ =>
      apply CheckUtilizationRatio_error in H; subst
  | H : Div _ _ = Err _ |- _ => exfalso; exact (Div_no_error _ _ H)
  | H : Bank.GetAssetShares _ _ = Err _ |- _ => exfalso; exact (Div_no_error _ _ H)
  | H : Bank.GetLiabilityShares _ _ = Err _ |- _ => exfalso; exact (Div_no_error _ _ H)
  | H : Ok _ = Err _ |- _ => discriminate H
  | H : Bank.GetAssetAmount _ _ = Err _ |- _ => discriminate H
  | H : Bank.GetLiabilityAmount _ _ = Err _ |- _ => discriminate H
  | _ => idtac
  end.

Ltac raises_auto :=
  unfold onBalance, onBank, check;
  repeat first
    [ apply raises_only_ret
    | apply raises_only_get
    | apply raises_only_modify
    | apply raises_only_discard
    | apply raises_only_zoom
    | apply raises_only_if
    | apply raises_only_throw
    | apply raises_only_lift; intros ? ?; raises_leaf
    | apply raises_only_bind; [|intros]
    | match goal with
      | |- raises_only _ (match ?x with _ => _ end) => destruct x
      end ].

Lemma IncreaseBalanceInternal_raises delta ty :
  raises_only (fun e => ~ claim_error e) (IncreaseBalanceInternal delta ty).
Proof.
  unfold IncreaseBalanceInternal, Balance.ChangeAssetShares,
    Balance.ChangeLiabilityShares, Bank.ChangeAssetShares,
    Bank.ChangeLiabilityShares.
  raises_auto; unfold claim_error; intros [H|H]; discriminate.
Qed.

Lemma RepayAll_raises :
  raises_only (fun e => ~ claim_error e) RepayAll.
Proof.
  unfold RepayAll, Balance.Close, Balance.EmptyDeactivated,
    Bank.ChangeLiabilityShares, Bank.NormalizeLiquidityVault.
  raises_auto; unfold claim_error; intros [H|H]; discriminate.
Qed.

Lemma ClaimEmissions_MathError ba amount :
  claimable ba amount ->
  (0 < emissionsPeriod (clk ba) ba)%Z ->
  Bank.EmissionsRate (Bank ba) <= 0 ->
  ClaimEmissions (clk ba) ba = (Err MathError, stamped (clk ba) ba).
Proof.
  intros Hc Hp Hrate. rewrite (ClaimEmissions_claimable (clk ba) Hc).
  destruct (Z.leb_spec (emissionsPeriod (clk ba) ba) 0) as [|_]; [lia|].
  unfold CalcEmissions.
  destruct (Z.leb_spec (emissionsPeriod (clk ba) ba) 0) as [|_]; [lia|].
  apply LessThanOrEqual_le in Hrate. unfold Zero. now rewrite Hrate.
Qed.

(** A claim that fails leaves the wrapper as it was, or with the stamp of
    the balance set. *)
Lemma ClaimEmissions_error_state now ba e :
  fst (ClaimEmissions now ba) = Err e ->
  snd (ClaimEmissions now ba) = ba
  \/ snd (ClaimEmissions now ba) = stamped now ba.
Proof.
  destruct (ClaimEmissions_states now ba)
    as [(amount & raw & _ & _ & _ & ->)|[[r ->]|[r ->]]]; cbn [fst snd]; auto.
  discriminate.
Qed.

(** [RepayAll] from a state in which the claim fails: when its own checks
    pass, it returns the amount owed and leaves the position closed. *)
Lemma RepayAll_after_claim_error ba e :
  fst (ClaimEmissions (clk ba) ba) = Err e ->
  Bank.AssertOperationalMode (Bank ba) false = Ok tt ->
  0 < Balance.LiabilityShares (Balance ba) ->
  0 < Bank.LiabilityShareValue (Bank ba) ->
  Mul (Balance.AssetShares (Balance ba)) (Bank.AssetShareValue (Bank ba))
    < EMPTY_BALANCE_THRESHOLD ->
  Balance.EmissionsOutstanding (Balance ba) < EMPTY_BALANCE_THRESHOLD ->
  0 <= Bank.LiquidityVault (Bank ba) ->
  exists after,
    RepayAll ba
    = (Ok (RoundCeil (Mul (Balance.LiabilityShares (Balance ba))
                          (Bank.LiabilityShareValue (Bank ba))) 5), after)
    /\ Balance.Active (Balance after) = false
    /\ Balance.AssetShares (Balance after) = Zero
    /\ Balance.LiabilityShares (Balance after) = Zero
    /\ Bank.TotalLiabilityShares (Bank after)
       = Add (Bank.TotalLiabilityShares (Bank ba))
             (Mul (Balance.LiabilityShares (Balance ba)) (NewFromInt (-1)))
    /\ Bank.TotalAssetShares (Bank after) = Bank.TotalAssetShares (Bank ba).
Proof.
  intros Hclaim Hmode HL HV Hassets Hout Hvault.
  pose proof (ClaimEmissions_error_state _ _ Hclaim) as Hs.
  unfold RepayAll.
  unfold bindM at 1, get at 1. unfold bindM at 1. unfold discard at 1.
  destruct (ClaimEmissions (clk ba) ba) as [r s]. cbn [fst snd] in Hclaim, Hs.
  subst r.
  assert (H1 : GreaterThan (Mul (Balance.LiabilityShares (Balance ba))
                              (Bank.LiabilityShareValue (Bank ba)))
                 ZERO_AMOUNT_THRESHOLD = true).
  { apply GreaterThan_gt. unfold ZERO_AMOUNT_THRESHOLD, Zero, Mul.
    apply Qmult_lt_0_compat; assumption. }
  assert (H2 : LessThan (Mul (Balance.AssetShares (Balance ba))
                           (Bank.AssetShareValue (Bank ba)))
                 EMPTY_BALANCE_THRESHOLD = true)
    by (apply LessThan_lt; assumption).
  assert (H3 : GreaterThanOrEqual (Balance.EmissionsOutstanding (Balance ba))
                 EMPTY_BALANCE_THRESHOLD = false)
    by (apply GreaterThanOrEqual_false; assumption).
  assert (H4 : IsPositive (Mul (Balance.LiabilityShares (Balance ba))
                             (NewFromInt (-1))) = false).
  { apply IsPositive_false. unfold Mul, NewFromInt.
    change (inject_Z (-1)) with (-1 # 1). lra. }
  assert (H5 : IsNegative (Bank.LiquidityVault (Bank ba)) = false)
    by (apply IsNegative_false; assumption).
  unfold onBalance, onBank, Balance.Close, Balance.EmptyDeactivated,
    Bank.GetLiabilityAmount, Bank.GetAssetAmount, Bank.ChangeLiabilityShares,
    Bank.NormalizeLiquidityVault, Bank.GetLiabilityAmount.
  destruct Hs as [-> | ->]; unfold stamped; run_monad;
    rewrite Hmode; simpl; rewrite H1; simpl; rewrite H2; simpl;
    rewrite H3; simpl; rewrite H4; simpl.
  all: destruct (IsPositive (Bank.LiquidityVault (Bank ba))) eqn:H6; simpl.
  all: try (destruct (LessThan (Sub (Bank.LiquidityVault (Bank ba)) _)
                        EMPTY_BALANCE_THRESHOLD) eqn:H7; simpl).
  all: try rewrite H5.
  all: try (match goal with
            | |- context [IsNegative ?v] =>
                replace (IsNegative v) with false
                  by (symmetry; apply IsNegative_false;
                      apply LessThan_false in H7;
                      unfold EMPTY_BALANCE_THRESHOLD in H7; lra)
            end).
  all: eexists; split; [reflexivity|]; repeat split.
Qed.

(** C9.  [ClaimEmissions] returns [MathError] when the balance has a
    claimable side, time has passed since its last update and the bank's
    emissions rate is not positive.  An error of [ClaimEmissions] is the
    result of [DecreaseBalanceInternal] and of [WithdrawAll], and is never
    the result of [IncreaseBalanceInternal] or [RepayAll], which drop it.
    From one state (ten asset shares, lending emissions on, rate zero, one
    minute elapsed) [Withdraw] fails with [MathError] and [Deposit] succeeds
    and adds its share to the balance and to the bank.  [RepayAll] goes on
    after the failed claim: on an unpaused bank, for a position that owes
    (positive liability shares at a positive share value), holds less than
    the threshold of an empty balance in assets and in outstanding
    emissions, with a vault that is not negative, it returns the amount
    owed rounded up to five places, leaves the balance closed with its
    shares at zero, and has taken the balance's liability shares off the
    bank's.  From a second state (five liability shares, borrowing
    emissions on, rate zero, one minute elapsed) [Borrow] and [WithdrawAll]
    fail with [MathError], [Repay] of 2 succeeds and leaves 3 liability
    shares in the balance and in the bank, and [RepayAll] returns 5 and
    closes the balance. *)
Theorem claim_error_aborts_decrease_not_increase :
  (forall ba amount,
     claimable ba amount ->
     (0 < emissionsPeriod (clk ba) ba)%Z ->
     Bank.EmissionsRate (Bank ba) <= 0 ->
     fst (ClaimEmissions (clk ba) ba) = Err MathError)
  /\ (forall ba e,
        fst (ClaimEmissions (clk ba) ba) = Err e ->
        (forall delta ty, fst (DecreaseBalanceInternal delta ty ba) = Err e)
        /\ fst (WithdrawAll ba) = Err e
        /\ (forall delta ty, fst (IncreaseBalanceInternal delta ty ba) <> Err e)
        /\ fst (RepayAll ba) <> Err e)
  /\ (let ba := Scenario.wrapper 60 (Scenario.balance 10 0) (Scenario.bank 10 0 0) in
      fst (ClaimEmissions (clk ba) ba) = Err MathError
      /\ fst (Withdraw 1 ba) = Err MathError
      /\ fst (Deposit 1 ba) = Ok tt
      /\ Balance.AssetShares (Balance (snd (Deposit 1 ba))) == 11
      /\ Bank.TotalAssetShares (Bank (snd (Deposit 1 ba))) == 11)
  /\ (forall ba e,
        fst (ClaimEmissions (clk ba) ba) = Err e ->
        Bank.AssertOperationalMode (Bank ba) false = Ok tt ->
        0 < Balance.LiabilityShares (Balance ba) ->
        0 < Bank.LiabilityShareValue (Bank ba) ->
        Mul (Balance.AssetShares (Balance ba)) (Bank.AssetShareValue (Bank ba))
          < EMPTY_BALANCE_THRESHOLD ->
        Balance.EmissionsOutstanding (Balance ba) < EMPTY_BALANCE_THRESHOLD ->
        0 <= Bank.LiquidityVault (Bank ba) ->
        let after := snd (RepayAll ba) in
        fst (RepayAll ba)
        = Ok (RoundCeil (Mul (Balance.LiabilityShares (Balance ba))
                             (Bank.LiabilityShareValue (Bank ba))) 5)
        /\ Balance.Active (Balance after) = false
        /\ Balance.AssetShares (Balance after) = Zero
        /\ Balance.LiabilityShares (Balance after) = Zero
        /\ Bank.TotalLiabilityShares (Bank after)
           == Bank.TotalLiabilityShares (Bank ba)
              - Balance.LiabilityShares (Balance ba)
        /\ Bank.TotalAssetShares (Bank after)
           = Bank.TotalAssetShares (Bank ba))
  /\ (let ba := Scenario.wrapper 60 (Scenario.balance 0 5) (Scenario.bank 50 5 10) in
      fst (ClaimEmissions (clk ba) ba) = Err MathError
      /\ fst (Borrow 1 ba) = Err MathError
      /\ fst (WithdrawAll ba) = Err MathError
      /\ fst (Repay 2 ba) = Ok tt
      /\ Balance.LiabilityShares (Balance (snd (Repay 2 ba))) == 3
      /\ Bank.TotalLiabilityShares (Bank (snd (Repay 2 ba))) == 3
      /\ (exists amount, fst (RepayAll ba) = Ok amount /\ amount == 5)
      /\ Balance.Active (Balance (snd (RepayAll ba))) = false
      /\ Balance.LiabilityShares (Balance (snd (RepayAll ba))) == 0
      /\ Bank.TotalLiabilityShares (Bank (snd (RepayAll ba))) == 0).
Proof.
  split; [|split; [|split; [|split]]].
  - intros ba amount Hc Hp Hrate.
    now rewrite (ClaimEmissions_MathError Hc Hp Hrate).
  - intros ba e Hclaim.
    pose proof (ClaimEmissions_error _ _ Hclaim) as He.
    split; [|split; [|split]].
    + intros delta ty. unfold DecreaseBalanceInternal.
      unfold bindM at 1, get at 1. unfold bindM at 1.
      destruct (ClaimEmissions (clk ba) ba) as [r s]. cbn [fst] in Hclaim.
      subst r. reflexivity.
    + unfold WithdrawAll.
      unfold bindM at 1, get at 1. unfold bindM at 1.
      destruct (ClaimEmissions (clk ba) ba) as [r s]. cbn [fst] in Hclaim.
      subst r. reflexivity.
    + intros delta ty H. exact (@IncreaseBalanceInternal_raises delta ty ba e H He).
    + intros H. exact (RepayAll_raises ba H He).
  - vm_compute. repeat split.
  - intros ba e Hclaim Hmode HL HV Hassets Hout Hvault after. subst after.
    destruct (@RepayAll_after_claim_error ba e Hclaim Hmode HL HV Hassets Hout Hvault)
      as (s & -> & Hactive & HA & HLs & HTL & HTA).
    cbn [fst snd]. rewrite HTL.
    split; [reflexivity|]. split; [exact Hactive|]. split; [exact HA|].
    split; [exact HLs|]. split; [|exact HTA].
    unfold Add, Mul, NewFromInt. change (inject_Z (-1)) with (-1 # 1).
    set (tl := Bank.TotalLiabilityShares (Bank ba)).
    set (l := Balance.LiabilityShares (Balance ba)).
    clearbody tl l. lra.
  - cbv zeta. split; [vm_compute; reflexivity|]. split; [vm_compute; reflexivity|].
    split; [vm_compute; reflexivity|]. split; [vm_compute; reflexivity|].
    split; [vm_compute; reflexivity|]. split; [vm_compute; reflexivity|].
    split; [eexists; split; [vm_compute; reflexivity|vm_compute; reflexivity]|].
    split; [vm_compute; reflexivity|]. split; vm_compute; reflexivity.
Qed.

End Wrapper.

(* ================================================================== *)
(** ** The scenarios, run through the theorems *)

(** A bank with deposits of 100 and borrows of 50 and 10 in the vault, one
    year after its last update: utilization 0.5, lending rate 0.03125,
    borrowing rate 0.0625, no fees. *)
Lemma accrue_interest_steps_witness :
  let b := Scenario.bank 100 50 10 in
  let now := (Bank.LastUpdate b + SECONDS_PER_YEAR)%Z in
  (0 < Int64.sub now (Bank.LastUpdate b))%Z
  /\ ~ Bank.GetTotalAssetQuantity b == 0
  /\ ~ Bank.GetTotalLiabilityQuantity b == 0
  /\ fst (Bank.AccrueInterest now b) = Ok tt
  /\ Bank.LastUpdate (snd (Bank.AccrueInterest now b)) = now
  /\ Bank.AssetShareValue (snd (Bank.AccrueInterest now b)) == 103125 # 100000
  /\ Bank.LiabilityShareValue (snd (Bank.AccrueInterest now b)) == 10625 # 10000.
Proof.
  intros b now.
  assert (Htd : (0 < Int64.sub now (Bank.LastUpdate b))%Z) by reflexivity.
  assert (Ha : ~ Bank.GetTotalAssetQuantity b == 0) by (vm_compute; discriminate).
  assert (Hl : ~ Bank.GetTotalLiabilityQuantity b == 0) by (vm_compute; discriminate).
  destruct (accrue_interest_steps b now) as (_ & _ & Hacc & _).
  edestruct (Hacc Htd Ha Hl) as (H1 & H2 & H3 & _ & _ & _ & _ & _ & _ & _ & H4);
    [vm_compute; reflexivity|].
  split; [exact Htd|]. split; [exact Ha|]. split; [exact Hl|].
  split; [apply H4; vm_compute; discriminate|].
  split; [exact H1|].
  split; [rewrite H2|rewrite H3]; vm_compute; reflexivity.
Defined.

(** A balance that owes 5, receiving 8: 5 repay the debt and 3 are
    deposited; as a repay-only operation the same amount is refused. *)
Lemma increase_balance_split_witness :
  let ba := Scenario.wrapper 0 (Scenario.balance 0 5) (Scenario.bank 50 5 0) in
  0 < 8
  /\ fst (BankAccountWrapper.Repay 8 ba) = Err OperationRepayOnly
  /\ fst (BankAccountWrapper.Deposit 8 ba) = Ok tt
  /\ Balance.AssetShares
       (BankAccountWrapper.Balance (snd (BankAccountWrapper.Deposit 8 ba))) == 3
  /\ Balance.LiabilityShares
       (BankAccountWrapper.Balance (snd (BankAccountWrapper.Deposit 8 ba))) == 0.
Proof.
  intros ba.
  assert (H8 : 0 < 8) by reflexivity.
  destruct (increase_balance_split ba BalanceIncreaseTypeRepayOnly H8)
    as (_ & _ & Hrepay & _).
  destruct (increase_balance_split ba BalanceIncreaseTypeAny H8)
    as (_ & _ & _ & _ & _ & _ & _ & _ & Hok).
  assert (Hrun : fst (BankAccountWrapper.Deposit 8 ba) = Ok tt)
    by (vm_compute; reflexivity).
  destruct (Hok Hrun) as [Hassets Hliabs].
  split; [exact H8|].
  split; [apply Hrepay; [reflexivity|vm_compute; discriminate]|].
  split; [exact Hrun|].
  unfold BankAccountWrapper.Deposit.
  split; [rewrite Hassets|rewrite Hliabs]; vm_compute; reflexivity.
Defined.

(** Ten asset shares, lending emissions on, rate zero, a minute elapsed;
    and five liability shares, borrowing emissions on, rate zero, a minute
    elapsed. *)
Lemma claim_error_aborts_decrease_not_increase_witness :
  let ba := Scenario.wrapper 60 (Scenario.balance 10 0) (Scenario.bank 10 0 0) in
  let owing :=
    Scenario.wrapper 60 (Scenario.balance 0 5) (Scenario.bank 50 5 10) in
  fst (BankAccountWrapper.ClaimEmissions (BankAccountWrapper.clk ba) ba)
    = Err MathError
  /\ fst (BankAccountWrapper.Withdraw 1 ba) = Err MathError
  /\ fst (BankAccountWrapper.WithdrawAll ba) = Err MathError
  /\ fst (BankAccountWrapper.Deposit 1 ba) <> Err MathError
  /\ fst (BankAccountWrapper.RepayAll ba) <> Err MathError
  /\ fst (BankAccountWrapper.ClaimEmissions (BankAccountWrapper.clk owing) owing)
     = Err MathError
  /\ fst (BankAccountWrapper.Borrow 1 owing) = Err MathError
  /\ (exists amount,
        fst (BankAccountWrapper.RepayAll owing) = Ok amount /\ amount == 5)
  /\ Balance.Active
       (BankAccountWrapper.Balance (snd (BankAccountWrapper.RepayAll owing)))
     = false
  /\ Bank.TotalLiabilityShares
       (BankAccountWrapper.Bank (snd (BankAccountWrapper.RepayAll owing)))
     == 0.
Proof.
  intros ba owing.
  assert (Hclaim : fst (BankAccountWrapper.ClaimEmissions
                          (BankAccountWrapper.clk ba) ba) = Err MathError)
    by (vm_compute; reflexivity).
  assert (Howing : fst (BankAccountWrapper.ClaimEmissions
                          (BankAccountWrapper.clk owing) owing) = Err MathError)
    by (vm_compute; reflexivity).
  assert (Hmode : Bank.AssertOperationalMode (BankAccountWrapper.Bank owing) false
                  = Ok tt) by reflexivity.
  assert (HL : 0 < Balance.LiabilityShares (BankAccountWrapper.Balance owing))
    by reflexivity.
  assert (HV : 0 < Bank.LiabilityShareValue (BankAccountWrapper.Bank owing))
    by reflexivity.
  assert (Hassets : Mul (Balance.AssetShares (BankAccountWrapper.Balance owing))
                        (Bank.AssetShareValue (BankAccountWrapper.Bank owing))
                    < EMPTY_BALANCE_THRESHOLD) by reflexivity.
  assert (Hout : Balance.EmissionsOutstanding (BankAccountWrapper.Balance owing)
                 < EMPTY_BALANCE_THRESHOLD) by reflexivity.
  assert (Hvault : 0 <= Bank.LiquidityVault (BankAccountWrapper.Bank owing))
    by (vm_compute; discriminate).
  destruct claim_error_aborts_decrease_not_increase
    as (_ & Hprop & _ & Hrepays & _).
  destruct (Hprop ba MathError Hclaim) as (Hdec & Hall & Hinc & Hrepay).
  destruct (Hprop owing MathError Howing) as (Hborrow & _).
  destruct (Hrepays owing MathError Howing Hmode HL HV Hassets Hout Hvault)
    as (Hamount & Hclosed & _ & _ & Htotal & _).
  split; [exact Hclaim|].
  split; [apply Hdec|].
  split; [exact Hall|].
  split; [apply Hinc|].
  split; [exact Hrepay|].
  split; [exact Howing|].
  split; [apply Hborrow|].
  split; [eexists; split; [exact Hamount|vm_compute; reflexivity]|].
  split; [exact Hclosed|].
  rewrite Htotal. vm_compute. reflexivity.
Defined.

(* ================================================================== *)
(** * Further properties of the code

    Properties of functions beside the ones above: validation, flags,
    losses, closing and leaving a position, the loader, the health check
    and the liquidation price. *)

(* ================================================================== *)
(** ** Rounding: exact points and error bounds *)

Section RoundingBounds.

Local Open Scope Z_scope.

Lemma round_num_bound n m :
  0 < m -> - m <= 2 * (m * round_num n m - n) <= m.
Proof.
  intros Hm.
  assert (Hpos : forall k, 0 <= k -> - m <= 2 * (m * round_num k m - k) <= m).
  { intros k Hk. rewrite round_num_nonneg_eq by lia.
    pose proof (Z.div_mod (2 * k + m) (2 * m) ltac:(lia)) as Hdm.
    pose proof (Z.mod_pos_bound (2 * k + m) (2 * m) ltac:(lia)) as Hb.
    lia. }
  destruct (Z_le_gt_dec 0 n) as [Hn|Hn]; [now apply Hpos|].
  specialize (Hpos (- n) ltac:(lia)).
  rewrite round_num_opp in Hpos by lia. lia.
Qed.

Lemma round_num_exact z m : 0 < m -> round_num (z * m) m = z.
Proof.
  intros Hm. unfold round_num.
  rewrite Z.rem_mul, Z.quot_mul by lia. simpl.
  destruct (Z.ltb_spec 0 m); lia.
Qed.

Lemma quot_bound n m :
  0 < m -> 0 <= n -> 0 <= Z.quot n m /\ m * Z.quot n m <= n < m * Z.quot n m + m.
Proof.
  intros Hm Hn. rewrite Z.quot_div_nonneg by lia.
  pose proof (Z.div_mod n m ltac:(lia)).
  pose proof (Z.mod_pos_bound n m Hm).
  split; [apply Z.div_pos; lia | lia].
Qed.

Lemma ceil_bound n m :
  0 < m -> n <= m * - (- n / m) < n + m.
Proof.
  intros Hm.
  pose proof (Z.div_mod (- n) m ltac:(lia)).
  pose proof (Z.mod_pos_bound (- n) m Hm).
  lia.
Qed.

Local Open Scope Q_scope.

(** A number with at most [p] decimal places is its own rounding. *)
Lemma Round_grid (z : Z) (p : nat) : Round (z # pow10 p) p = z # pow10 p.
Proof.
  unfold Round, shifted_num, shifted_den; simpl.
  now rewrite round_num_exact by lia.
Qed.

Lemma Truncate_grid (z : Z) (p : nat) :
  Truncate (z # pow10 p) p = z # pow10 p.
Proof.
  unfold Truncate, shifted_num, shifted_den; simpl.
  now rewrite Z.quot_mul by lia.
Qed.

Lemma Round_zero x p : x == 0 -> Round x p == 0.
Proof.
  intros H. rewrite (@Round_comp x (0 # pow10 p) p).
  - rewrite Round_grid. reflexivity.
  - rewrite H. reflexivity.
Qed.

Lemma Round_one x p : x == 1 -> Round x p == 1.
Proof.
  intros H. rewrite (@Round_comp x (Zpos (pow10 p) # pow10 p) p).
  - rewrite Round_grid. unfold Qeq; simpl; lia.
  - rewrite H. unfold Qeq; simpl; lia.
Qed.

(** [Round] moves a number by at most half a unit of the last place. *)
Lemma Round_close x p :
  x - (1 # (2 * pow10 p)) <= Round x p <= x + (1 # (2 * pow10 p)).
Proof.
  pose proof (@round_num_bound (shifted_num x p) (shifted_den x)
                ltac:(unfold shifted_den; lia)) as H.
  unfold Round. set (k := round_num _ _) in *. clearbody k.
  destruct x as [a b].
  unfold shifted_num, shifted_den in H; cbn [Qnum Qden] in H.
  unfold Qle, Qminus, Qplus, Qopp; cbn [Qnum Qden].
  rewrite ?Pos2Z.inj_mul.
  pose proof (Pos2Z.is_pos (pow10 p)) as HP.
  pose proof (Pos2Z.is_pos b) as HB.
  set (P := Zpos (pow10 p)) in *. set (B := Zpos b) in *. clearbody P B.
  split.
  - assert ((2 * (a * P) - B) * P <= 2 * (B * k) * P)%Z
      by (apply Z.mul_le_mono_nonneg_r; lia).
    nia.
  - assert (2 * (B * k) * P <= (2 * (a * P) + B) * P)%Z
      by (apply Z.mul_le_mono_nonneg_r; lia).
    nia.
Qed.

(** [Truncate] of a non-negative number cuts less than one unit of the
    last place, and never below zero. *)
Lemma Truncate_bounds x p :
  0 <= x ->
  0 <= Truncate x p /\ Truncate x p <= x /\ x < Truncate x p + (1 # pow10 p).
Proof.
  intros Hx.
  assert (Hn : (0 <= shifted_num x p)%Z).
  { unfold shifted_num. unfold Qle in Hx; simpl in Hx. nia. }
  pose proof (@quot_bound (shifted_num x p) (shifted_den x)
                ltac:(unfold shifted_den; lia) Hn) as (H0 & H1 & H2).
  unfold Truncate. set (k := Z.quot _ _) in *. clearbody k.
  destruct x as [a b].
  unfold shifted_num, shifted_den in H1, H2; cbn [Qnum Qden] in H1, H2.
  unfold Qle, Qlt, Qplus; cbn [Qnum Qden].
  rewrite ?Pos2Z.inj_mul.
  pose proof (Pos2Z.is_pos (pow10 p)) as HP.
  pose proof (Pos2Z.is_pos b) as HB.
  set (P := Zpos (pow10 p)) in *. set (B := Zpos b) in *. clearbody P B.
  repeat split; try lia.
  assert (a * P * P < (B * k + B) * P)%Z
    by (apply Z.mul_lt_mono_pos_r; lia).
  nia.
Qed.

(** [RoundCeil] adds less than one unit of the last place. *)
Lemma RoundCeil_bounds x p :
  x <= RoundCeil x p /\ RoundCeil x p < x + (1 # pow10 p).
Proof.
  pose proof (@ceil_bound (shifted_num x p) (shifted_den x)
                ltac:(unfold shifted_den; lia)) as [H1 H2].
  unfold RoundCeil. set (k := (- (_ / _))%Z) in *. clearbody k.
  destruct x as [a b].
  unfold shifted_num, shifted_den in H1, H2; cbn [Qnum Qden] in H1, H2.
  unfold Qle, Qlt, Qplus; cbn [Qnum Qden].
  rewrite ?Pos2Z.inj_mul.
  pose proof (Pos2Z.is_pos (pow10 p)) as HP.
  pose proof (Pos2Z.is_pos b) as HB.
  set (P := Zpos (pow10 p)) in *. set (B := Zpos b) in *. clearbody P B.
  split; [lia|].
  assert (B * k * P < (a * P + B) * P)%Z
    by (apply Z.mul_lt_mono_pos_r; lia).
  nia.
Qed.

Lemma DivRound_self d p : ~ d == 0 -> DivRound d d p == 1.
Proof.
  intros H. unfold DivRound. apply Round_one. now field.
Qed.

(** A quotient of a part by a positive whole lies between 0 and 1, also
    after rounding. *)
Lemma DivRound_unit d d2 p :
  0 <= d -> d <= d2 -> 0 < d2 -> 0 <= DivRound d d2 p <= 1.
Proof.
  intros H0 H1 H2. split.
  - now apply DivRound_nonneg.
  - rewrite <- (@DivRound_self d2 p) by lra.
    now apply DivRound_mono.
Qed.

End RoundingBounds.

(* ================================================================== *)
(** ** The interest rate curve of a validated configuration *)

Section ValidatedRates.

Variable i : InterestRateConfig.t.

(** What [Validate] accepts, as order relations. *)
Lemma InterestRateConfig_Validate_None :
  InterestRateConfig.Validate i = None <->
  0 < InterestRateConfig.OptimalUtilizationRate i < 1
  /\ 0 < InterestRateConfig.PlateauInterestRate i
  /\ InterestRateConfig.PlateauInterestRate i
     < InterestRateConfig.MaxInterestRate i.
Proof.
  unfold InterestRateConfig.Validate.
  destruct (LessThanOrEqual (InterestRateConfig.OptimalUtilizationRate i) Zero)
    eqn:H1;
  [apply LessThanOrEqual_le in H1 | apply LessThanOrEqual_false in H1];
  destruct (GreaterThanOrEqual (InterestRateConfig.OptimalUtilizationRate i) ONE)
    eqn:H2;
  [apply GreaterThanOrEqual_ge in H2 | apply GreaterThanOrEqual_false in H2
  |apply GreaterThanOrEqual_ge in H2 | apply GreaterThanOrEqual_false in H2];
  cbn [orb];
  destruct (LessThanOrEqual (InterestRateConfig.PlateauInterestRate i) Zero)
    eqn:H3;
  [apply LessThanOrEqual_le in H3 | apply LessThanOrEqual_false in H3
  |apply LessThanOrEqual_le in H3 | apply LessThanOrEqual_false in H3
  |apply LessThanOrEqual_le in H3 | apply LessThanOrEqual_false in H3
  |apply LessThanOrEqual_le in H3 | apply LessThanOrEqual_false in H3];
  destruct (LessThanOrEqual (InterestRateConfig.MaxInterestRate i) Zero)
    eqn:H4;
  try apply LessThanOrEqual_le in H4; try apply LessThanOrEqual_false in H4;
  destruct (GreaterThanOrEqual (InterestRateConfig.PlateauInterestRate i)
              (InterestRateConfig.MaxInterestRate i)) eqn:H5;
  try apply GreaterThanOrEqual_ge in H5;
  try apply GreaterThanOrEqual_false in H5;
  unfold Zero, ONE, NewFromInt in *; change (inject_Z 1) with 1 in *;
  split; try discriminate; try reflexivity; intros; lra.
Qed.

Hypothesis valid : InterestRateConfig.Validate i = None.

Let optimalUr := InterestRateConfig.OptimalUtilizationRate i.
Let plateauIr := InterestRateConfig.PlateauInterestRate i.
Let maxIr := InterestRateConfig.MaxInterestRate i.

Lemma InterestRateCurve_below u :
  u <= optimalUr ->
  InterestRateConfig.InterestRateCurve i u
  = Ok (DivRound (Mul u plateauIr) optimalUr DivisionPrecision).
Proof.
  intros Hu. apply InterestRateConfig_Validate_None in valid.
  unfold InterestRateConfig.InterestRateCurve.
  apply LessThanOrEqual_le in Hu. fold optimalUr plateauIr. rewrite Hu.
  apply Div_ok. unfold optimalUr. lra.
Qed.

Lemma InterestRateCurve_above u :
  optimalUr < u ->
  InterestRateConfig.InterestRateCurve i u
  = Ok (Add (Mul (DivRound (Sub u optimalUr) (Sub ONE optimalUr)
                    DivisionPrecision)
                 (Sub maxIr plateauIr)) plateauIr).
Proof.
  intros Hu. apply InterestRateConfig_Validate_None in valid.
  unfold InterestRateConfig.InterestRateCurve.
  apply LessThanOrEqual_false in Hu. fold optimalUr plateauIr maxIr.
  rewrite Hu. rewrite Div_ok; [reflexivity|].
  unfold Sub, ONE, NewFromInt, optimalUr. change (inject_Z 1) with 1. lra.
Qed.

Lemma InterestRateCurve_cases u :
  (u <= optimalUr
   /\ InterestRateConfig.InterestRateCurve i u
      = Ok (DivRound (Mul u plateauIr) optimalUr DivisionPrecision))
  \/ (optimalUr < u
      /\ InterestRateConfig.InterestRateCurve i u
         = Ok (Add (Mul (DivRound (Sub u optimalUr) (Sub ONE optimalUr)
                           DivisionPrecision)
                        (Sub maxIr plateauIr)) plateauIr)).
Proof.
  destruct (Qlt_le_dec optimalUr u) as [H|H].
  - right. split; [assumption | now apply InterestRateCurve_above].
  - left. split; [assumption | now apply InterestRateCurve_below].
Qed.

Lemma InterestRateCurve_total u :
  0 <= u ->
  exists baseRate,
    InterestRateConfig.InterestRateCurve i u = Ok baseRate /\ 0 <= baseRate.
Proof.
  intros Hu. pose proof valid as Hv.
  apply InterestRateConfig_Validate_None in Hv.
  fold optimalUr plateauIr maxIr in Hv.
  destruct (InterestRateCurve_cases u) as [[H ->]|[H ->]]; eexists;
    (split; [reflexivity|]).
  - apply DivRound_nonneg; [|lra].
    unfold Mul. apply Qmult_le_0_compat; lra.
  - assert (0 <= DivRound (Sub u optimalUr) (Sub ONE optimalUr)
                    DivisionPrecision).
    { apply DivRound_nonneg; unfold Sub, ONE, NewFromInt;
        change (inject_Z 1) with 1; lra. }
    set (q := DivRound _ _ _) in *.
    unfold Add, Mul, Sub.
    assert (0 <= q * (maxIr - plateauIr))
      by (apply Qmult_le_0_compat; lra).
    lra.
Qed.

End ValidatedRates.

(** X1.  A configuration that [InterestRateConfig.Validate] accepts makes
    the interest rate curve total on non-negative utilizations: the curve
    returns a rate, never panics on a division by zero, and the rate is not
    negative. *)
Theorem InterestRateCurve_validated (i : InterestRateConfig.t) (u : Decimal) :
  InterestRateConfig.Validate i = None ->
  0 <= u ->
  exists baseRate,
    InterestRateConfig.InterestRateCurve i u = Ok baseRate /\ 0 <= baseRate.
Proof. intros Hv Hu. now apply InterestRateCurve_total. Qed.

Lemma InterestRateCurve_validated_witness :
  exists baseRate,
    InterestRateConfig.InterestRateCurve Scenario.rates (1 # 2) = Ok baseRate
    /\ 0 <= baseRate.
Proof.
  apply (@InterestRateCurve_validated Scenario.rates (1 # 2)).
  - reflexivity.
  - unfold Qle; simpl; lia.
Defined.

(** X2.  The shape of the curve of a validated configuration: it starts at
    zero, rises on each of its two segments, stays between the plateau
    rate and the maximum rate above the optimal utilization, and reaches
    the maximum rate at full utilization. *)
Theorem InterestRateCurve_shape (i : InterestRateConfig.t) :
  InterestRateConfig.Validate i = None ->
  let optimalUr := InterestRateConfig.OptimalUtilizationRate i in
  let plateauIr := InterestRateConfig.PlateauInterestRate i in
  let maxIr := InterestRateConfig.MaxInterestRate i in
  (exists r0, InterestRateConfig.InterestRateCurve i 0 = Ok r0 /\ r0 == 0)
  /\ (exists r1, InterestRateConfig.InterestRateCurve i 1 = Ok r1
                 /\ r1 == maxIr)
  /\ (forall u, optimalUr < u -> u <= 1 ->
        exists r, InterestRateConfig.InterestRateCurve i u = Ok r
                  /\ plateauIr <= r <= maxIr)
  /\ (forall u1 u2, u1 <= u2 -> u2 <= optimalUr \/ optimalUr < u1 ->
        exists r1 r2,
          InterestRateConfig.InterestRateCurve i u1 = Ok r1
          /\ InterestRateConfig.InterestRateCurve i u2 = Ok r2
          /\ r1 <= r2).
Proof.
  intros Hv optimalUr plateauIr maxIr. pose proof Hv as Hc.
  apply InterestRateConfig_Validate_None in Hc.
  fold optimalUr plateauIr maxIr in Hc.
  assert (Hq : forall u, optimalUr < u ->
            0 <= DivRound (Sub u optimalUr) (Sub ONE optimalUr)
                   DivisionPrecision).
  { intros u Hu. apply DivRound_nonneg; unfold Sub, ONE, NewFromInt;
      change (inject_Z 1) with 1; lra. }
  repeat split.
  - rewrite (@InterestRateCurve_below i Hv _) by (fold optimalUr; lra).
    eexists; split; [reflexivity|].
    apply Round_zero. unfold Mul. field. fold optimalUr. lra.
  - rewrite (@InterestRateCurve_above i Hv _) by (fold optimalUr; lra).
    eexists; split; [reflexivity|].
    fold optimalUr plateauIr maxIr.
    assert (E : DivRound (Sub 1 optimalUr) (Sub ONE optimalUr)
                  DivisionPrecision == 1).
    { apply DivRound_self. unfold Sub, ONE, NewFromInt.
      change (inject_Z 1) with 1. lra. }
    unfold Add, Mul. rewrite E. unfold Sub. ring.
  - intros u Hu Hu1.
    rewrite (@InterestRateCurve_above i Hv _) by assumption.
    eexists; split; [reflexivity|].
    fold optimalUr plateauIr maxIr.
    assert (Hb : 0 <= DivRound (Sub u optimalUr) (Sub ONE optimalUr)
                       DivisionPrecision <= 1).
    { apply DivRound_unit; unfold Sub, ONE, NewFromInt;
        change (inject_Z 1) with 1; lra. }
    set (q := DivRound _ _ _) in *.
    unfold Add, Mul, Sub.
    assert (0 <= q * (maxIr - plateauIr))
      by (apply Qmult_le_0_compat; lra).
    assert (0 <= (1 - q) * (maxIr - plateauIr))
      by (apply Qmult_le_0_compat; lra).
    split; lra.
  - intros u1 u2 H12 [H|H].
    + rewrite !(@InterestRateCurve_below i Hv _) by (fold optimalUr; lra).
      do 2 eexists; repeat split.
      apply DivRound_mono; [fold optimalUr; lra|].
      unfold Mul. apply Qmult_le_compat_r; [assumption|].
      fold plateauIr; lra.
    + rewrite !(@InterestRateCurve_above i Hv _) by (fold optimalUr; lra).
      do 2 eexists; repeat split.
      fold optimalUr plateauIr maxIr.
      assert (DivRound (Sub u1 optimalUr) (Sub ONE optimalUr) DivisionPrecision
              <= DivRound (Sub u2 optimalUr) (Sub ONE optimalUr)
                   DivisionPrecision).
      { apply DivRound_mono; unfold Sub, ONE, NewFromInt;
          change (inject_Z 1) with 1; lra. }
      unfold Add, Mul.
      apply Qplus_le_l.
      apply Qmult_le_compat_r; [assumption | unfold Sub; lra].
Qed.

Lemma InterestRateCurve_shape_witness :
  exists r1, InterestRateConfig.InterestRateCurve Scenario.rates 1 = Ok r1
             /\ r1 == InterestRateConfig.MaxInterestRate Scenario.rates.
Proof.
  exact (proj1 (proj2 (@InterestRateCurve_shape Scenario.rates eq_refl))).
Defined.

(** The rates of a validated configuration. *)
Lemma CalcInterestRate_total (i : InterestRateConfig.t) (u : Decimal) :
  InterestRateConfig.Validate i = None ->
  0 <= InterestRateConfig.ProtocolIrFee i ->
  0 <= InterestRateConfig.InsuranceIrFee i ->
  0 <= InterestRateConfig.ProtocolFixedFeeApr i ->
  0 <= InterestRateConfig.InsuranceFeeFixedApr i ->
  0 <= u ->
  exists baseRate lendingRate borrowingRate groupFeesApr insuranceFeesApr,
    InterestRateConfig.InterestRateCurve i u = Ok baseRate
    /\ InterestRateConfig.CalcInterestRate i u
       = Ok (lendingRate, borrowingRate, groupFeesApr, insuranceFeesApr)
    /\ lendingRate == baseRate * u
    /\ borrowingRate == baseRate + groupFeesApr + insuranceFeesApr
    /\ 0 <= lendingRate /\ 0 <= groupFeesApr /\ 0 <= insuranceFeesApr
    /\ baseRate <= borrowingRate
    /\ (u <= 1 -> lendingRate <= borrowingRate).
Proof.
  intros Hv Hp Hi Hpf Hif Hu.
  destruct (@InterestRateCurve_total i Hv u Hu) as (r & Hr & Hr0).
  unfold InterestRateConfig.CalcInterestRate. rewrite Hr. cbn [bind].
  unfold InterestRateConfig.CalcFeeRate, Add, Mul, ONE, NewFromInt.
  change (inject_Z 1) with 1.
  set (pI := InterestRateConfig.ProtocolIrFee i) in *.
  set (iI := InterestRateConfig.InsuranceIrFee i) in *.
  set (pF := InterestRateConfig.ProtocolFixedFeeApr i) in *.
  set (iF := InterestRateConfig.InsuranceFeeFixedApr i) in *.
  assert (H1 : 0 <= r * u) by (apply Qmult_le_0_compat; lra).
  assert (H2 : 0 <= r * pI) by (apply Qmult_le_0_compat; lra).
  assert (H3 : 0 <= r * iI) by (apply Qmult_le_0_compat; lra).
  assert (E1 : LessThan (r * u) Zero = false)
    by (apply LessThan_false; unfold Zero; lra).
  assert (E2 : LessThan (r * (1 + (pI + iI)) + (pF + iF)) Zero = false)
    by (apply LessThan_false; unfold Zero; lra).
  assert (E3 : LessThan (r * pI + pF) Zero = false)
    by (apply LessThan_false; unfold Zero; lra).
  assert (E4 : LessThan (r * iI + iF) Zero = false)
    by (apply LessThan_false; unfold Zero; lra).
  rewrite E1, E2, E3, E4. cbn [orb].
  exists r. do 4 eexists. split; [reflexivity|]. split; [reflexivity|].
  repeat split; try lra.
  intros Hu1.
  assert (0 <= r * (1 - u)) by (apply Qmult_le_0_compat; lra).
  lra.
Qed.

(** X3.  With a validated configuration, fee parameters that are not
    negative and a utilization that is not negative, [CalcInterestRate]
    returns its four rates (no [ErrNegativeInterestRate], no panic); none
    is negative, lenders earn the base rate times the utilization,
    borrowers pay the base rate plus the two fee rates, and up to full
    utilization the lending rate does not exceed the borrowing rate. *)
Theorem CalcInterestRate_validated (i : InterestRateConfig.t) (u : Decimal) :
  InterestRateConfig.Validate i = None ->
  0 <= InterestRateConfig.ProtocolIrFee i ->
  0 <= InterestRateConfig.InsuranceIrFee i ->
  0 <= InterestRateConfig.ProtocolFixedFeeApr i ->
  0 <= InterestRateConfig.InsuranceFeeFixedApr i ->
  0 <= u ->
  exists baseRate lendingRate borrowingRate groupFeesApr insuranceFeesApr,
    InterestRateConfig.InterestRateCurve i u = Ok baseRate
    /\ InterestRateConfig.CalcInterestRate i u
       = Ok (lendingRate, borrowingRate, groupFeesApr, insuranceFeesApr)
    /\ lendingRate == baseRate * u
    /\ borrowingRate == baseRate + groupFeesApr + insuranceFeesApr
    /\ 0 <= lendingRate /\ 0 <= groupFeesApr /\ 0 <= insuranceFeesApr
    /\ baseRate <= borrowingRate
    /\ (u <= 1 -> lendingRate <= borrowingRate).
Proof. apply CalcInterestRate_total. Qed.

Lemma CalcInterestRate_validated_witness :
  exists baseRate lendingRate borrowingRate groupFeesApr insuranceFeesApr,
    InterestRateConfig.InterestRateCurve Scenario.rates (1 # 2) = Ok baseRate
    /\ InterestRateConfig.CalcInterestRate Scenario.rates (1 # 2)
       = Ok (lendingRate, borrowingRate, groupFeesApr, insuranceFeesApr)
    /\ lendingRate == baseRate * (1 # 2)
    /\ borrowingRate == baseRate + groupFeesApr + insuranceFeesApr
    /\ 0 <= lendingRate /\ 0 <= groupFeesApr /\ 0 <= insuranceFeesApr
    /\ baseRate <= borrowingRate
    /\ ((1 # 2) <= 1 -> lendingRate <= borrowingRate).
Proof.
  apply (@CalcInterestRate_validated Scenario.rates (1 # 2));
    solve [reflexivity | unfold Qle; simpl; lia].
Defined.

(* ================================================================== *)
(** ** Bank configuration *)

Local Ltac order_facts :=
  repeat match goal with
  | H : LessThan _ _ = true |- _ => apply LessThan_lt in H
  | H : LessThan _ _ = false |- _ => apply LessThan_false in H
  | H : GreaterThan _ _ = true |- _ => apply GreaterThan_gt in H
  | H : GreaterThan _ _ = false |- _ => apply GreaterThan_false in H
  | H : LessThanOrEqual _ _ = true |- _ => apply LessThanOrEqual_le in H
  | H : LessThanOrEqual _ _ = false |- _ => apply LessThanOrEqual_false in H
  | H : GreaterThanOrEqual _ _ = true |- _ => apply GreaterThanOrEqual_ge in H
  | H : GreaterThanOrEqual _ _ = false |- _ =>
      apply GreaterThanOrEqual_false in H
  | H : Equal _ _ = true |- _ => apply Equal_eq in H
  | H : IsZero _ = true |- _ => apply IsZero_eq in H
  | H : IsZero _ = false |- _ => apply IsZero_false in H
  | H : IsPositive _ = true |- _ => apply IsPositive_lt in H
  | H : IsPositive _ = false |- _ => apply IsPositive_false in H
  | H : IsNegative _ = true |- _ => apply IsNegative_lt in H
  | H : IsNegative _ = false |- _ => apply IsNegative_false in H
  end.

Local Ltac q_consts :=
  unfold EMPTY_BALANCE_THRESHOLD, ZERO_AMOUNT_THRESHOLD, BANKRUPT_THRESHOLD,
    ONE, NewFromInt, Zero in *;
  change (inject_Z 1) with 1 in *.

(** X4.  What [BankConfig.Validate] guarantees about the weights: the
    Initial requirement is the strictest one.  The asset weight at Initial
    lies between 0 and 1 and does not exceed the one at Maintenance; the
    liability weight at Initial is at least the one at Maintenance, which
    is at least 1, the weight at Equity; the interest rate configuration is
    valid; and a bank of the Isolated tier has both asset weights at zero.
    [GetWeights] returns the pair of weights [GetWeight] returns one by
    one. *)
Theorem BankConfig_Validate_weights (bc : BankConfig.t) :
  BankConfig.Validate bc = None ->
  0 <= BankConfig.GetWeight bc Initial BalanceSideAssets <= 1
  /\ BankConfig.GetWeight bc Initial BalanceSideAssets
     <= BankConfig.GetWeight bc Maintenance BalanceSideAssets
  /\ BankConfig.GetWeight bc Equity BalanceSideLiabilities
     <= BankConfig.GetWeight bc Maintenance BalanceSideLiabilities
  /\ BankConfig.GetWeight bc Maintenance BalanceSideLiabilities
     <= BankConfig.GetWeight bc Initial BalanceSideLiabilities
  /\ InterestRateConfig.Validate (BankConfig.InterestRateConfig bc) = None
  /\ (BankConfig.RiskTier bc = Isolated ->
      BankConfig.AssetWeightInit bc == 0 /\ BankConfig.AssetWeightMaint bc == 0)
  /\ (forall requirementType,
        BankConfig.GetWeights bc requirementType
        = (BankConfig.GetWeight bc requirementType BalanceSideAssets,
           BankConfig.GetWeight bc requirementType BalanceSideLiabilities)).
Proof.
  unfold BankConfig.Validate. cbn [BankConfig.GetWeight].
  destruct (GreaterThanOrEqual (BankConfig.AssetWeightInit bc) Zero) eqn:H1;
    [|discriminate].
  destruct (LessThanOrEqual (BankConfig.AssetWeightInit bc) ONE) eqn:H2;
    [|discriminate].
  destruct (GreaterThanOrEqual (BankConfig.AssetWeightMaint bc)
              (BankConfig.AssetWeightInit bc)) eqn:H3; [|discriminate].
  destruct (LessThan (BankConfig.LiabilityWeightInit bc) ONE) eqn:H4;
    [discriminate|].
  destruct (GreaterThan (BankConfig.LiabilityWeightMaint bc)
              (BankConfig.LiabilityWeightInit bc)) eqn:H5; [discriminate|].
  destruct (LessThan (BankConfig.LiabilityWeightMaint bc) ONE) eqn:H6;
    [discriminate|].
  cbn [andb orb negb].
  destruct (InterestRateConfig.Validate (BankConfig.InterestRateConfig bc))
    eqn:H7; [discriminate|].
  order_facts. q_consts.
  intros H.
  split; [lra|]. split; [lra|]. split; [lra|]. split; [lra|].
  split; [reflexivity|]. split.
  - intros Ht. rewrite Ht in H.
    destruct (Equal (BankConfig.AssetWeightInit bc) 0) eqn:E1; [|discriminate].
    destruct (Equal (BankConfig.AssetWeightMaint bc) 0) eqn:E2; [|discriminate].
    split; now apply Equal_eq.
  - intros []; reflexivity.
Qed.

Lemma BankConfig_Validate_weights_witness :
  0 <= BankConfig.GetWeight Scenario.config Initial BalanceSideAssets <= 1.
Proof.
  exact (proj1 (@BankConfig_Validate_weights Scenario.config eq_refl)).
Defined.

(* ================================================================== *)
(** ** Flag sets *)

Section Flags.

Local Open Scope Z_scope.

Lemma uint8_land x : 0 <= x < 256 -> Z.land x 255 = x.
Proof.
  intros H. change 255 with (Z.ones 8).
  rewrite Z.land_ones by lia. apply Z.mod_small. simpl. lia.
Qed.

Lemma land_uint8 x y : 0 <= x < 256 -> 0 <= Z.land x y < 256.
Proof.
  intros H. rewrite <- (uint8_land H), <- Z.land_assoc, (Z.land_comm 255),
    Z.land_assoc.
  change 255 with (Z.ones 8). rewrite Z.land_ones by lia.
  apply Z.mod_pos_bound. reflexivity.
Qed.

Lemma lor_uint8 x y : 0 <= x < 256 -> 0 <= y < 256 -> 0 <= Z.lor x y < 256.
Proof.
  intros Hx Hy.
  assert (E : Z.land (Z.lor x y) 255 = Z.lor x y)
    by (rewrite Z.land_lor_distr_l, !uint8_land by assumption; reflexivity).
  rewrite <- E. rewrite Z.land_comm. apply land_uint8. lia.
Qed.

Lemma land_uint8_not_self x flag : Z.land (Z.land x (uint8_not flag)) flag = 0.
Proof.
  unfold uint8_not. apply Z.bits_inj'. intros n Hn.
  rewrite !Z.land_spec, Z.lnot_spec, Z.bits_0 by assumption.
  destruct (Z.testbit flag n); cbn; now rewrite ?andb_false_r.
Qed.

Lemma land_uint8_not_other x flag g :
  0 <= x < 256 -> Z.land g flag = 0 ->
  Z.land (Z.land x (uint8_not flag)) g = Z.land x g.
Proof.
  intros Hx Hg. unfold uint8_not.
  rewrite (Z.land_comm (Z.lnot flag)), Z.land_assoc, (uint8_land Hx).
  apply Z.bits_inj'. intros n Hn.
  assert (Hb : Z.testbit (Z.land g flag) n = false)
    by (rewrite Hg; apply Z.bits_0).
  rewrite Z.land_spec in Hb.
  rewrite !Z.land_spec, Z.lnot_spec by assumption.
  destruct (Z.testbit x n), (Z.testbit g n), (Z.testbit flag n);
    cbn in *; congruence.
Qed.

Lemma land_lor_other x flag g :
  Z.land g flag = 0 -> Z.land (Z.lor x flag) g = Z.land x g.
Proof.
  intros Hg.
  rewrite Z.land_lor_distr_l, (Z.land_comm flag), Hg. apply Z.lor_0_r.
Qed.

Lemma land_lor_self x flag : Z.land (Z.lor x flag) flag = flag.
Proof.
  rewrite Z.land_lor_distr_l, Z.land_diag.
  apply Z.bits_inj'. intros n Hn.
  rewrite Z.lor_spec, Z.land_spec.
  destruct (Z.testbit x n), (Z.testbit flag n); reflexivity.
Qed.

End Flags.

(** X5.  Flags of a bank, an 8-bit set.  After [UpdateFlag(true, flag)]
    the bank has the flag; after [UpdateFlag(false, flag)] no bit of it is
    left, so that [GetFlag(flag)], which asks for all the bits of [flag],
    answers true for the empty flag only; a flag that shares no bit with
    the one updated reads as before, and the set stays within eight
    bits. *)
Theorem Bank_UpdateFlag_GetFlag (b : Bank.t) (flag : BankFlags) :
  (0 <= Bank.Flags b < 256)%Z ->
  (0 <= flag < 256)%Z ->
  let on := snd (Bank.UpdateFlag true flag b) in
  let off := snd (Bank.UpdateFlag false flag b) in
  Bank.GetFlag on flag = true
  /\ (Bank.GetFlag off flag = true <-> flag = 0%Z)
  /\ (forall g, Z.land g flag = 0%Z ->
        Bank.GetFlag on g = Bank.GetFlag b g
        /\ Bank.GetFlag off g = Bank.GetFlag b g)
  /\ (0 <= Bank.Flags on < 256)%Z
  /\ (0 <= Bank.Flags off < 256)%Z.
Proof.
  intros Hb Hf on off. subst on off.
  unfold Bank.UpdateFlag, Bank.GetFlag, modify; cbn [snd Bank.Flags Bank.set_Flags].
  repeat split.
  - rewrite land_lor_self. apply Z.eqb_refl.
  - rewrite land_uint8_not_self. intros H. apply Z.eqb_eq in H. lia.
  - intros ->. now rewrite land_uint8_not_self.
  - now rewrite land_lor_other.
  - now rewrite land_uint8_not_other.
  - apply lor_uint8; assumption.
  - apply lor_uint8; assumption.
  - apply land_uint8; assumption.
  - apply land_uint8; assumption.
Qed.

Lemma Bank_UpdateFlag_GetFlag_witness :
  Bank.GetFlag
    (snd (Bank.UpdateFlag true BankFlagsPermissionlessBadDebtSettlement
            (Scenario.bank 0 0 0)))
    BankFlagsPermissionlessBadDebtSettlement = true.
Proof.
  apply (@Bank_UpdateFlag_GetFlag (Scenario.bank 0 0 0)
           BankFlagsPermissionlessBadDebtSettlement);
    vm_compute; split; congruence.
Defined.

(** X6.  Flags of an account.  [GetFlag] asks for any bit of the flag:
    after [SetFlag] of a flag that is not empty the account has it, after
    [UnsetFlag] it has not, and a flag that shares no bit with the one
    changed reads as before. *)
Theorem Account_SetFlag_UnsetFlag (a : Account.t) (flag : AccountFlags) :
  (0 <= Account.AccountFlags a < 256)%Z ->
  let on := snd (Account.SetFlag flag a) in
  let off := snd (Account.UnsetFlag flag a) in
  (flag <> 0%Z -> Account.GetFlag on flag = true)
  /\ Account.GetFlag off flag = false
  /\ (forall g, Z.land g flag = 0%Z ->
        Account.GetFlag on g = Account.GetFlag a g
        /\ Account.GetFlag off g = Account.GetFlag a g).
Proof.
  intros Ha on off. subst on off.
  unfold Account.SetFlag, Account.UnsetFlag, Account.GetFlag, modify;
    cbn [snd Account.AccountFlags Account.set_AccountFlags].
  repeat split.
  - intros Hf. rewrite land_lor_self.
    destruct (Z.eqb_spec flag 0); [contradiction | reflexivity].
  - now rewrite land_uint8_not_self.
  - now rewrite land_lor_other.
  - now rewrite land_uint8_not_other.
Qed.

Lemma Account_SetFlag_UnsetFlag_witness :
  Account.GetFlag (snd (Account.UnsetFlag InFlashloanFlag (Scenario.account 2%Z)))
    InFlashloanFlag = false.
Proof.
  apply (@Account_SetFlag_UnsetFlag (Scenario.account 2%Z) InFlashloanFlag).
  vm_compute; split; congruence.
Defined.

(* ================================================================== *)
(** ** The side of a balance *)

Lemma GetSide_cases (bal : Balance.t) :
  let A := Balance.AssetShares bal in
  let L := Balance.LiabilityShares bal in
  (0 < A /\ 0 < L /\ Balance.GetSide bal = Err IllegalBalanceState)
  \/ (L <= 0 /\ EMPTY_BALANCE_THRESHOLD <= A
      /\ Balance.GetSide bal = Ok BalanceSideAssets)
  \/ (A <= 0 /\ EMPTY_BALANCE_THRESHOLD <= L
      /\ Balance.GetSide bal = Ok BalanceSideLiabilities)
  \/ (~ (0 < A /\ 0 < L) /\ A < EMPTY_BALANCE_THRESHOLD
      /\ L < EMPTY_BALANCE_THRESHOLD
      /\ Balance.GetSide bal = Ok BalanceSideEmpty).
Proof.
  intros A L. unfold Balance.GetSide. cbv zeta. fold A L.
  destruct (GreaterThan A ZERO_AMOUNT_THRESHOLD) eqn:H1;
  destruct (GreaterThan L ZERO_AMOUNT_THRESHOLD) eqn:H2;
  destruct (GreaterThanOrEqual A EMPTY_BALANCE_THRESHOLD) eqn:H3;
  destruct (GreaterThanOrEqual L EMPTY_BALANCE_THRESHOLD) eqn:H4;
  cbn [andb]; order_facts; q_consts;
  first
    [ left; repeat split; solve [assumption | lra]
    | right; left; repeat split; solve [assumption | lra]
    | right; right; left; repeat split; solve [assumption | lra]
    | right; right; right;
      (split; [intros [? ?]; lra | repeat split; solve [assumption | lra]]) ].
Qed.

(** X7.  [GetSide] and [IsEmpty] agree: when [GetSide] names a side, that
    side is the one side of the balance that is not empty.  [GetSide]
    fails, with [IllegalBalanceState], exactly when both kinds of shares
    are above zero, be it by less than the threshold under which a side
    counts as empty. *)
Theorem GetSide_IsEmpty (bal : Balance.t) :
  (Balance.GetSide bal = Err IllegalBalanceState
   <-> 0 < Balance.AssetShares bal /\ 0 < Balance.LiabilityShares bal)
  /\ (forall side, Balance.GetSide bal = Ok side ->
        forall side', side' <> BalanceSideEmpty ->
          (Balance.IsEmpty bal side' = false <-> side' = side)).
Proof.
  assert (Ht : 0 < EMPTY_BALANCE_THRESHOLD) by reflexivity.
  destruct (GetSide_cases bal)
    as [(HA & HL & E)|[(HL & HA & E)|[(HA & HL & E)|(Hn & HA & HL & E)]]];
    rewrite E; split;
    try (split; [discriminate | intros [? ?]; try tauto; lra]);
    try (split; [intros _; now split | reflexivity]).
  - discriminate.
  - intros side Hs; injection Hs as <-. intros [] Hne; try congruence;
      cbn [Balance.IsEmpty]; (split; [intros He|intros Hq; try discriminate]).
    + reflexivity.
    + apply LessThan_false. exact HA.
    + apply LessThan_false in He. lra.
  - intros side Hs; injection Hs as <-. intros [] Hne; try congruence;
      cbn [Balance.IsEmpty]; (split; [intros He|intros Hq; try discriminate]).
    + apply LessThan_false in He. lra.
    + reflexivity.
    + apply LessThan_false. exact HL.
  - intros side Hs; injection Hs as <-. intros [] Hne; try congruence;
      cbn [Balance.IsEmpty]; (split; [intros He|intros Hq; try discriminate]).
    + apply LessThan_false in He. lra.
    + apply LessThan_false in He. lra.
Qed.

(* ================================================================== *)
(** ** Losses, health ratio and amounts *)

(** X8.  [SocializeLoss] never fails and never panics.  A loss that reaches
    the bank's total assets, or a bank without asset shares, leaves the
    bank as it was: such a loss is not written off at all.  Otherwise the
    asset share value alone changes, and the total asset quantity drops by
    the loss, up to half a unit of the sixteenth decimal place per asset
    share. *)
Theorem SocializeLoss_effect (lossAmount : Decimal) (b : Bank.t) :
  fst (Bank.SocializeLoss lossAmount b) = Ok tt
  /\ (Bank.TotalAssetShares b == 0
      \/ Bank.GetTotalAssetQuantity b <= lossAmount ->
      snd (Bank.SocializeLoss lossAmount b) = b)
  /\ (0 < Bank.TotalAssetShares b ->
      lossAmount < Bank.GetTotalAssetQuantity b ->
      exists newShareValue,
        snd (Bank.SocializeLoss lossAmount b)
        = Bank.set_AssetShareValue newShareValue b
        /\ - (Bank.TotalAssetShares b * (1 # (2 * pow10 16)))
           <= Bank.GetTotalAssetQuantity
                (Bank.set_AssetShareValue newShareValue b)
              - (Bank.GetTotalAssetQuantity b - lossAmount)
           <= Bank.TotalAssetShares b * (1 # (2 * pow10 16))).
Proof.
  unfold Bank.SocializeLoss, Bank.GetTotalAssetQuantity, bindM, get, lift,
    modify, ret.
  set (T := Bank.TotalAssetShares b). set (v := Bank.AssetShareValue b).
  destruct (IsZero T) eqn:Hz; cbn [orb].
  { apply IsZero_eq in Hz. repeat split; try reflexivity. intros H; lra. }
  apply IsZero_false in Hz.
  destruct (GreaterThanOrEqual lossAmount (Mul T v)) eqn:Hl; order_facts.
  { repeat split; try reflexivity. intros _ H; lra. }
  rewrite Div_ok by assumption.
  split; [reflexivity|]. split.
  - intros [H|H]; [contradiction | lra].
  - intros HT _. eexists. split; [reflexivity|].
    cbn [Bank.TotalAssetShares Bank.AssetShareValue Bank.set_AssetShareValue].
    fold T. unfold DivRound, DivisionPrecision, Mul, Sub in *.
    pose proof (Round_close ((T * v - lossAmount) / T) 16) as [H1 H2].
    set (r := Round _ 16) in *.
    set (e := 1 # (2 * pow10 16)) in *.
    assert (E : T * ((T * v - lossAmount) / T) == T * v - lossAmount)
      by (field; lra).
    assert (0 <= T * (r - ((T * v - lossAmount) / T) + e))
      by (apply Qmult_le_0_compat; lra).
    assert (0 <= T * (((T * v - lossAmount) / T) + e - r))
      by (apply Qmult_le_0_compat; lra).
    split; lra.
Qed.

(** X9.  The health ratio of core/account.go.  The function returns a
    value for all totals (its one division has a positive divisor).  It is
    1 when there are no liabilities, and also when there are liabilities
    but no positive assets; with positive assets it is at most 1 when the
    liabilities are not negative, and not negative when the assets cover
    the liabilities. *)
Theorem GetAccountHealth_range (totalAssets totalLiabilities : Decimal) :
  exists health,
    GetAccountHealth totalAssets totalLiabilities = Ok health
    /\ (totalLiabilities == 0 \/ totalAssets <= 0 -> health = ONE)
    /\ (0 < totalAssets -> 0 <= totalLiabilities -> health <= 1)
    /\ (0 < totalAssets -> totalLiabilities <= totalAssets -> 0 <= health).
Proof.
  unfold GetAccountHealth.
  destruct (IsZero totalLiabilities) eqn:Hz.
  { apply IsZero_eq in Hz. eexists. split; [reflexivity|].
    split; [reflexivity|]. q_consts. split; intros; lra. }
  apply IsZero_false in Hz.
  destruct (IsPositive totalAssets) eqn:Hp; order_facts.
  - rewrite Div_ok by lra. eexists. split; [reflexivity|].
    split; [intros [H|H]; [contradiction | lra]|].
    split; intros _ H.
    + rewrite <- (@DivRound_self totalAssets DivisionPrecision) by lra.
      apply DivRound_mono; unfold Sub; lra.
    + apply DivRound_nonneg; unfold Sub; lra.
  - eexists. split; [reflexivity|]. split; [reflexivity|].
    split; intros; lra.
Qed.

(** X10.  [CalcAmount] undoes [CalcValue]: at a price that is not zero,
    the amount computed back from the value of an unweighted amount is the
    amount, rounded to sixteen decimal places.  At a price of zero
    [CalcAmount] returns its error; it never panics. *)
Theorem CalcAmount_CalcValue (amount price : Decimal) :
  (~ price == 0 ->
   exists value,
     CalcValue amount price None = Ok value
     /\ CalcAmount value price = Ok (Round amount DivisionPrecision))
  /\ (price == 0 -> forall value, CalcAmount value price = Err errPriceIsZero)
  /\ (forall value p, CalcAmount value price <> Panic p).
Proof.
  unfold CalcAmount, CalcValue. repeat split.
  - intros Hp. rewrite (proj2 (IsZero_false price) Hp).
    destruct (IsZero amount) eqn:Ha; order_facts.
    + eexists. split; [reflexivity|]. rewrite Div_ok by assumption.
      f_equal. apply Round_comp. rewrite Ha. unfold Zero. field. assumption.
    + eexists. split; [reflexivity|]. rewrite Div_ok by assumption.
      f_equal. apply Round_comp. unfold Mul. field. assumption.
  - intros Hp value. now rewrite (proj2 (IsZero_eq price) Hp).
  - intros value p. destruct (IsZero price) eqn:Hp; [discriminate|].
    unfold Div. rewrite Hp. discriminate.
Qed.

(* ================================================================== *)
(** ** Weights under the soft limit, prices under a bias *)

(** X11.  With a limit on the total Initial asset value that is not
    negative, [MaybeGetAssetWeightInitDiscount] returns a discount between
    0 and 1 at every price: it does not panic, whatever the bank's total
    assets are worth. *)
Theorem MaybeGetAssetWeightInitDiscount_range (b : Bank.t) (price : Decimal) :
  0 <= BankConfig.TotalAssetValueInitLimit (Bank.BankConfig b) ->
  exists discount,
    Bank.MaybeGetAssetWeightInitDiscount b price = Ok discount
    /\ 0 <= discount <= 1.
Proof.
  intros Hl. unfold Bank.MaybeGetAssetWeightInitDiscount, Bank.GetAssetAmount.
  set (limit := BankConfig.TotalAssetValueInitLimit (Bank.BankConfig b)) in *.
  destruct (BankConfig.UsdInitLimitActive (Bank.BankConfig b));
    [|exists Zero; split; [reflexivity | q_consts; lra]].
  cbn [bind].
  set (amount := Mul (Bank.TotalAssetShares b) (Bank.AssetShareValue b)).
  assert (Hv : exists value, CalcValue amount price None = Ok value)
    by (unfold CalcValue; destruct (IsZero amount); eexists; reflexivity).
  destruct Hv as [value ->]. cbn [bind].
  destruct (IsZero value) eqn:Hz; order_facts.
  { exists value. split; [reflexivity | lra]. }
  destruct (GreaterThanOrEqual value limit) eqn:Hg; order_facts.
  - rewrite Div_ok by assumption. eexists. split; [reflexivity|].
    apply DivRound_unit; lra.
  - exists Zero. split; [reflexivity | q_consts; lra].
Qed.

Lemma MaybeGetAssetWeightInitDiscount_range_witness :
  exists discount,
    Bank.MaybeGetAssetWeightInitDiscount (Scenario.bank 50 5 0) 1 = Ok discount
    /\ 0 <= discount <= 1.
Proof.
  apply (@MaybeGetAssetWeightInitDiscount_range (Scenario.bank 50 5 0) 1).
  vm_compute. discriminate.
Defined.

Lemma GetPrice_value (b : Bank.t) (oraclePrice : Decimal)
  (priceBias : PriceBias) (weightedPrice : bool) :
  Bank.GetPrice b oraclePrice priceBias weightedPrice
  == match priceBias with
     | Low => (95 # 100) * oraclePrice
     | High => (105 # 100) * oraclePrice
     | Original => oraclePrice
     end.
Proof.
  unfold Bank.GetPrice, Bank.GetPriceWithConfidence, GetConfidenceInterval,
    MAX_CONF_INTERVAL, Sub, Add, Mul.
  destruct priceBias; lra.
Qed.

(** X12.  The two valuations of a balance differ by the confidence
    interval only.  Whenever they return, [GetUsdValueWithPriceBias]
    values the assets at 0.95 times and the liabilities at 1.05 times what
    [ComputeUsdValue] gives, for every requirement type; and one of them
    panics exactly when the other does, on the division in the asset
    weight. *)
Theorem GetUsdValueWithPriceBias_ComputeUsdValue (bal : Balance.t)
  (bank : Bank.t) (oraclePrice : Decimal) (requirementType : RequirementType) :
  (exists a l a' l',
     Balance.ComputeUsdValue bal bank oraclePrice requirementType = Ok (a, l)
     /\ Balance.GetUsdValueWithPriceBias bal bank oraclePrice requirementType
        = Ok (a', l')
     /\ a' == (95 # 100) * a /\ l' == (105 # 100) * l)
  \/ (Balance.ComputeUsdValue bal bank oraclePrice requirementType
      = Panic DivisionByZero
      /\ Balance.GetUsdValueWithPriceBias bal bank oraclePrice requirementType
         = Panic DivisionByZero).
Proof.
  unfold Balance.ComputeUsdValue, Balance.GetUsdValueWithPriceBias,
    Bank.ComputeAssetUsdValue, Bank.ComputeLiabilityUsdValue.
  destruct (Bank.GetAssetWeight bank requirementType oraclePrice false)
    as [w|e|p] eqn:Hw; cbn [bind].
  - left. do 4 eexists. split; [reflexivity|]. split; [reflexivity|].
    unfold Bank.ComputeUsdValue, Mul. rewrite !GetPrice_value.
    split; ring.
  - exfalso. revert Hw. unfold Bank.GetAssetWeight.
    destruct requirementType; try discriminate.
    destruct (_ || _); [discriminate|].
    destruct (GreaterThan _ _); [|discriminate].
    destruct (Div _ _) eqn:Hd; try discriminate.
    now apply Div_no_error in Hd.
  - right. revert Hw. unfold Bank.GetAssetWeight.
    destruct requirementType; try discriminate.
    destruct (_ || _); [discriminate|].
    destruct (GreaterThan _ _); [|discriminate].
    unfold Div. destruct (IsZero _); [|discriminate].
    cbn [bind]. intros [= <-]. split; reflexivity.
Qed.

(** X13.  The asset weight under the soft limit.  With a limit that is not
    negative and a configured Initial weight that is not negative,
    [GetAssetWeight] returns a weight for every requirement type (the
    division cannot panic), and the Initial weight lies between zero and
    the configured one.  At [Equity] the value of asset shares is their
    quantity times the biased price: this is the call with which
    [GetAssetWeight] and [ComputeAssetUsdValue], which call each other,
    come to an end. *)
Theorem GetAssetWeight_soft_limit (b : Bank.t) (oraclePrice : Decimal)
  (ignoreSoftLimits : bool) :
  0 <= BankConfig.TotalAssetValueInitLimit (Bank.BankConfig b) ->
  0 <= BankConfig.AssetWeightInit (Bank.BankConfig b) ->
  (exists w,
     Bank.GetAssetWeight b Initial oraclePrice ignoreSoftLimits = Ok w
     /\ 0 <= w <= BankConfig.AssetWeightInit (Bank.BankConfig b))
  /\ Bank.GetAssetWeight b Maintenance oraclePrice ignoreSoftLimits
     = Ok (BankConfig.AssetWeightMaint (Bank.BankConfig b))
  /\ Bank.GetAssetWeight b Equity oraclePrice ignoreSoftLimits = Ok ONE
  /\ (forall assetShares priceBias,
        Bank.ComputeAssetUsdValue b oraclePrice assetShares Equity priceBias
        = Ok (Bank.ComputeAssetUsdValueEquity b oraclePrice assetShares
                priceBias)).
Proof.
  intros Hl Hw. split; [|repeat split].
  unfold Bank.GetAssetWeight.
  set (limit := BankConfig.TotalAssetValueInitLimit (Bank.BankConfig b)) in *.
  set (w := BankConfig.AssetWeightInit (Bank.BankConfig b)) in *.
  destruct (ignoreSoftLimits || IsZero limit);
    [exists w; split; [reflexivity | lra]|].
  set (total := Bank.ComputeAssetUsdValueEquity _ _ _ _).
  destruct (GreaterThan total limit) eqn:Hg; order_facts;
    [|exists w; split; [reflexivity | lra]].
  rewrite Div_ok by lra. cbn [bind]. eexists. split; [reflexivity|].
  pose proof (@DivRound_unit limit total DivisionPrecision
                Hl ltac:(lra) ltac:(lra)) as [H0 H1].
  unfold Mul. set (q := DivRound _ _ _) in *.
  assert (0 <= q * w) by (apply Qmult_le_0_compat; lra).
  assert (0 <= (1 - q) * w) by (apply Qmult_le_0_compat; lra).
  split; lra.
Qed.

Lemma GetAssetWeight_soft_limit_witness :
  Bank.GetAssetWeight (Scenario.bank 50 5 0) Equity 1 false = Ok ONE.
Proof.
  apply (@GetAssetWeight_soft_limit (Scenario.bank 50 5 0) 1 false);
    vm_compute; discriminate.
Defined.

(** X14.  The utilization rate is defined for every bank: zero for a bank
    without deposits, and otherwise the quotient of the totals, which lies
    between 0 and 1 when the liabilities are not negative and do not exceed
    the deposits. *)
Theorem ComputeUtilizationRate_range (b : Bank.t) :
  exists rate,
    Bank.ComputeUtilizationRate b = Ok rate
    /\ (Bank.GetTotalAssetQuantity b == 0 -> rate = Zero)
    /\ (0 <= Bank.GetTotalLiabilityQuantity b ->
        Bank.GetTotalLiabilityQuantity b <= Bank.GetTotalAssetQuantity b ->
        0 <= rate <= 1).
Proof.
  unfold Bank.ComputeUtilizationRate.
  destruct (IsZero (Bank.GetTotalAssetQuantity b)) eqn:Hz; order_facts.
  - exists Zero. split; [reflexivity|]. split; [reflexivity|].
    intros; q_consts; lra.
  - rewrite Div_ok by assumption. eexists. split; [reflexivity|].
    split; [intros; contradiction|].
    intros H0 H1. apply DivRound_unit; lra.
Qed.

(* ================================================================== *)
(** ** Closing a position and settling emissions *)

Section Settlement.

Import BankAccountWrapper.

(** The states [ClaimEmissions] can leave, and its results. *)
Lemma ClaimEmissions_outcome now ba :
  exists r s,
    ClaimEmissions now ba = (r, s)
    /\ (r = Ok tt \/ r = Err IllegalBalanceState \/ r = Err MathError)
    /\ (s = ba \/ s = stamped now ba
        \/ exists raw,
             0 <= raw
             /\ s = credited now ba (Min raw (Bank.EmissionsRemaining (Bank ba)))).
Proof.
  destruct (claimable_dec ba) as [[amount Hc]|Hn].
  - rewrite (ClaimEmissions_claimable now Hc).
    destruct (emissionsPeriod now ba <=? 0)%Z.
    { do 2 eexists. split; [reflexivity|]. split; auto. }
    destruct (CalcEmissions (emissionsPeriod now ba) amount
                (Bank.EmissionsRate (Bank ba))) as [raw|e|p] eqn:Hcalc.
    + do 2 eexists. split; [reflexivity|]. split; [auto|].
      right; right. exists raw. split; [|reflexivity].
      eapply CalcEmissions_nonneg; eassumption.
    + destruct (CalcEmissions_cases (emissionsPeriod now ba) amount
                  (Bank.EmissionsRate (Bank ba))) as [H|[raw H]];
        rewrite H in Hcalc; [|discriminate].
      injection Hcalc as <-.
      do 2 eexists. split; [reflexivity|]. split; auto.
    + destruct (CalcEmissions_cases (emissionsPeriod now ba) amount
                  (Bank.EmissionsRate (Bank ba))) as [H|[raw H]];
        rewrite H in Hcalc; discriminate.
  - destruct (ClaimEmissions_not_claimable now Hn) as (r & -> & Hr).
    do 2 eexists. split; [reflexivity|]. split; [tauto | auto].
Qed.

(** A claim whose error is dropped. *)
Lemma discard_ClaimEmissions now ba :
  exists s,
    discard (ClaimEmissions now) ba = (Ok tt, s)
    /\ (s = ba \/ s = stamped now ba
        \/ exists raw,
             0 <= raw
             /\ s = credited now ba (Min raw (Bank.EmissionsRemaining (Bank ba)))).
Proof.
  destruct (ClaimEmissions_outcome now ba) as (r & s & E & Hr & Hs).
  exists s. unfold discard. rewrite E.
  split; [|exact Hs].
  destruct Hr as [-> |[-> | ->]]; reflexivity.
Qed.

(** What [ClaimEmissions] keeps of the wrapper, whatever it returns. *)
Lemma ClaimEmissions_keeps now ba :
  exists r s,
    ClaimEmissions now ba = (r, s)
    /\ (r = Ok tt \/ r = Err IllegalBalanceState \/ r = Err MathError)
    /\ clk s = clk ba
    /\ Balance.AccountId (Balance s) = Balance.AccountId (Balance ba)
    /\ Balance.BankId (Balance s) = Balance.BankId (Balance ba)
    /\ Balance.AssetShares (Balance s) = Balance.AssetShares (Balance ba)
    /\ Balance.LiabilityShares (Balance s)
       = Balance.LiabilityShares (Balance ba)
    /\ Bank.AssetShareValue (Bank s) = Bank.AssetShareValue (Bank ba)
    /\ Bank.LiabilityShareValue (Bank s) = Bank.LiabilityShareValue (Bank ba)
    /\ Bank.TotalAssetShares (Bank s) = Bank.TotalAssetShares (Bank ba)
    /\ Bank.TotalLiabilityShares (Bank s)
       = Bank.TotalLiabilityShares (Bank ba)
    /\ Bank.LiquidityVault (Bank s) = Bank.LiquidityVault (Bank ba)
    /\ Bank.CollectedInsuranceFeesOutstanding (Bank s)
       = Bank.CollectedInsuranceFeesOutstanding (Bank ba)
    /\ Bank.BankConfig (Bank s) = Bank.BankConfig (Bank ba).
Proof.
  destruct (ClaimEmissions_outcome now ba) as (r & s & E & Hr & Hs).
  exists r, s. split; [exact E|]. split; [exact Hr|].
  destruct Hs as [-> |[-> |(raw & _ & ->)]]; repeat split.
Qed.

(** A dropped claim keeps the same. *)
Lemma discard_ClaimEmissions_keeps now ba :
  exists s,
    discard (ClaimEmissions now) ba = (Ok tt, s)
    /\ clk s = clk ba
    /\ Balance.AccountId (Balance s) = Balance.AccountId (Balance ba)
    /\ Balance.BankId (Balance s) = Balance.BankId (Balance ba)
    /\ Balance.AssetShares (Balance s) = Balance.AssetShares (Balance ba)
    /\ Balance.LiabilityShares (Balance s)
       = Balance.LiabilityShares (Balance ba)
    /\ Bank.AssetShareValue (Bank s) = Bank.AssetShareValue (Bank ba)
    /\ Bank.LiabilityShareValue (Bank s) = Bank.LiabilityShareValue (Bank ba)
    /\ Bank.TotalAssetShares (Bank s) = Bank.TotalAssetShares (Bank ba)
    /\ Bank.TotalLiabilityShares (Bank s)
       = Bank.TotalLiabilityShares (Bank ba)
    /\ Bank.LiquidityVault (Bank s) = Bank.LiquidityVault (Bank ba)
    /\ Bank.CollectedInsuranceFeesOutstanding (Bank s)
       = Bank.CollectedInsuranceFeesOutstanding (Bank ba)
    /\ Bank.BankConfig (Bank s) = Bank.BankConfig (Bank ba).
Proof.
  destruct (ClaimEmissions_keeps now ba) as (r & s & E & Hr & H).
  exists s. split; [|exact H]. unfold discard. rewrite E.
  destruct Hr as [-> |[-> | ->]]; reflexivity.
Qed.

Lemma CloseBalance_run (ba : BankAccountWrapper.t) :
  exists s,
    Balance.AssetShares (Balance s) = Balance.AssetShares (Balance ba)
    /\ Balance.LiabilityShares (Balance s)
       = Balance.LiabilityShares (Balance ba)
    /\ Bank.TotalAssetShares (Bank s) = Bank.TotalAssetShares (Bank ba)
    /\ Bank.TotalLiabilityShares (Bank s)
       = Bank.TotalLiabilityShares (Bank ba)
    /\ CloseBalance ba
       = if negb (LessThan
                    (Mul (Balance.LiabilityShares (Balance ba))
                         (Bank.LiabilityShareValue (Bank ba)))
                    EMPTY_BALANCE_THRESHOLD)
         then (Err IllegalBalanceState, s)
         else if negb (LessThan
                         (Mul (Balance.AssetShares (Balance ba))
                              (Bank.AssetShareValue (Bank ba)))
                         EMPTY_BALANCE_THRESHOLD)
         then (Err IllegalBalanceState, s)
         else if GreaterThanOrEqual
                   (Balance.EmissionsOutstanding (Balance s))
                   EMPTY_BALANCE_THRESHOLD
         then (Err CannotCloseOutstandingEmissions, s)
         else (Ok tt,
               set_Balance
                 (snd (Balance.EmptyDeactivated (clk ba) (Balance ba))) s).
Proof.
  unfold CloseBalance.
  unfold bindM at 1, get at 1. unfold bindM at 1.
  destruct (discard_ClaimEmissions_keeps (clk ba) ba)
    as (s & -> & Hc & Hi & Hb & HA & HL & HV & HW & HTA & HTL & _).
  exists s. do 4 (split; [assumption|]).
  unfold onBalance, Balance.Close, Balance.EmptyDeactivated,
    Bank.GetLiabilityAmount, Bank.GetAssetAmount.
  run_monad. rewrite HA, HL, HV, HW.
  destruct (LessThan _ _); cbn [negb]; [|reflexivity].
  destruct (LessThan _ _); cbn [negb]; [|reflexivity].
  destruct (GreaterThanOrEqual _ _); [destruct s; reflexivity|].
  cbn [fst snd]. now rewrite ?Hc, ?Hi, ?Hb.
Qed.

(** X15.  [CloseBalance] succeeds only on a position whose asset amount
    and liability amount are both under the threshold of an empty balance;
    on success the balance is switched off with all three of its numbers at
    zero and the clock's reading as its stamp, while the bank's total
    shares stay as they were, whatever dust the balance held.  It fails
    with [IllegalBalanceState] or [CannotCloseOutstandingEmissions] only,
    and then the shares of the balance are as before. *)
Theorem CloseBalance_effect (ba : BankAccountWrapper.t) :
  let result := fst (CloseBalance ba) in
  let after := snd (CloseBalance ba) in
  (result = Ok tt ->
     Mul (Balance.LiabilityShares (Balance ba))
         (Bank.LiabilityShareValue (Bank ba)) < EMPTY_BALANCE_THRESHOLD
     /\ Mul (Balance.AssetShares (Balance ba))
            (Bank.AssetShareValue (Bank ba)) < EMPTY_BALANCE_THRESHOLD
     /\ Balance after
        = snd (Balance.EmptyDeactivated (clk ba) (Balance ba))
     /\ Bank.TotalAssetShares (Bank after) = Bank.TotalAssetShares (Bank ba)
     /\ Bank.TotalLiabilityShares (Bank after)
        = Bank.TotalLiabilityShares (Bank ba))
  /\ (forall e, result = Err e ->
        (e = IllegalBalanceState \/ e = CannotCloseOutstandingEmissions)
        /\ Balance.AssetShares (Balance after)
           = Balance.AssetShares (Balance ba)
        /\ Balance.LiabilityShares (Balance after)
           = Balance.LiabilityShares (Balance ba))
  /\ (forall p, result <> Panic p).
Proof.
  intros result after. subst result after.
  destruct (CloseBalance_run ba) as (s & HA & HL & HTA & HTL & ->).
  destruct (LessThan (Mul (Balance.LiabilityShares (Balance ba)) _) _) eqn:H1;
    cbn [negb fst snd].
  2:{ split; [discriminate|]. split; [|discriminate].
      intros e [= <-]. auto. }
  destruct (LessThan (Mul (Balance.AssetShares (Balance ba)) _) _) eqn:H2;
    cbn [negb fst snd].
  2:{ split; [discriminate|]. split; [|discriminate].
      intros e [= <-]. auto. }
  apply LessThan_lt in H1, H2.
  destruct (GreaterThanOrEqual _ _); cbn [fst snd Balance Bank set_Balance].
  - split; [discriminate|]. split; [|discriminate].
    intros e [= <-]. auto.
  - split; [|split; discriminate]. auto.
Qed.

Lemma SettleEmissionsAndGetTransferAmount_run (ba : BankAccountWrapper.t) :
  0 <= Balance.EmissionsOutstanding (Balance ba) ->
  0 <= Bank.EmissionsRemaining (Bank ba) ->
  exists amount after,
    SettleEmissionsAndGetTransferAmount ba = (Ok amount, after)
    /\ 0 <= amount
    /\ Truncate amount 8 = amount
    /\ Balance.EmissionsOutstanding (Balance after) == 0
    /\ 0 <= Bank.EmissionsRemaining (Bank after)
    /\ amount + Bank.EmissionsRemaining (Bank after)
       == Balance.EmissionsOutstanding (Balance ba)
          + Bank.EmissionsRemaining (Bank ba).
Proof.
  intros HO HR.
  unfold SettleEmissionsAndGetTransferAmount.
  unfold bindM at 1, get at 1. unfold bindM at 1.
  destruct (discard_ClaimEmissions (clk ba) ba) as (s & -> & Hs).
  assert (Hsum :
            0 <= Balance.EmissionsOutstanding (Balance s)
            /\ 0 <= Bank.EmissionsRemaining (Bank s)
            /\ Balance.EmissionsOutstanding (Balance s)
               + Bank.EmissionsRemaining (Bank s)
               == Balance.EmissionsOutstanding (Balance ba)
                  + Bank.EmissionsRemaining (Bank ba)).
  { destruct Hs as [-> |[-> |(raw & Hraw & ->)]];
      cbn [stamped credited Balance Bank set_Balance
           Balance.EmissionsOutstanding Balance.set_LastUpdate
           Balance.set_EmissionsOutstanding Bank.EmissionsRemaining
           Bank.set_EmissionsRemaining];
      try (repeat split; solve [assumption | reflexivity]).
    pose proof (Min_le_item raw (Bank.EmissionsRemaining (Bank ba))).
    pose proof (@Min_glb raw (Bank.EmissionsRemaining (Bank ba)) 0 Hraw HR).
    unfold Add, Sub.
    set (m := Min _ _) in *. set (o := Balance.EmissionsOutstanding _) in *.
    set (r := Bank.EmissionsRemaining _) in *. clearbody m o r.
    split; [lra | split; lra]. }
  destruct Hsum as (HO' & HR' & Hsum). clear Hs.
  unfold onBalance, onBank. run_monad.
  pose proof (@Truncate_bounds (Balance.EmissionsOutstanding (Balance s)) 8 HO')
    as (T0 & T1 & _).
  set (o := Balance.EmissionsOutstanding (Balance s)) in *.
  assert (Hgrid : Truncate (Truncate o 8) 8 = Truncate o 8)
    by apply Truncate_grid.
  set (t := Truncate o 8) in *.
  set (r := Bank.EmissionsRemaining (Bank s)) in *.
  set (o0 := Balance.EmissionsOutstanding (Balance ba)) in *.
  set (r0 := Bank.EmissionsRemaining (Bank ba)) in *.
  exists t.
  destruct (GreaterThan (Sub o t) Zero) eqn:Hg;
    eexists; (split; [reflexivity|]);
    cbn [fst snd Balance Bank set_Balance set_Bank
         Balance.EmissionsOutstanding
         Bank.EmissionsRemaining Bank.set_EmissionsRemaining
         Balance.set_EmissionsOutstanding];
    fold r; order_facts; unfold Sub, Add, Zero in *;
    clearbody t r o o0 r0;
    (split; [assumption|]); (split; [assumption|]).
  - split; [reflexivity|]. split; lra.
  - split; [lra|]. split; lra.
Qed.

(** X16.  [SettleEmissionsAndGetTransferAmount] loses nothing.  With
    outstanding emissions and an emissions budget that are not negative,
    the amount it returns is not negative and has eight decimal places at
    most; afterwards the balance has no emissions outstanding, the budget
    is not negative, and the amount paid out plus the budget equals the
    outstanding emissions plus the budget before the call. *)
Theorem SettleEmissionsAndGetTransferAmount_conserves
  (ba : BankAccountWrapper.t) :
  0 <= Balance.EmissionsOutstanding (Balance ba) ->
  0 <= Bank.EmissionsRemaining (Bank ba) ->
  let after := snd (SettleEmissionsAndGetTransferAmount ba) in
  exists amount,
    fst (SettleEmissionsAndGetTransferAmount ba) = Ok amount
    /\ 0 <= amount
    /\ Truncate amount 8 = amount
    /\ Balance.EmissionsOutstanding (Balance after) == 0
    /\ 0 <= Bank.EmissionsRemaining (Bank after)
    /\ amount + Bank.EmissionsRemaining (Bank after)
       == Balance.EmissionsOutstanding (Balance ba)
          + Bank.EmissionsRemaining (Bank ba).
Proof.
  intros HO HR after. subst after.
  destruct (SettleEmissionsAndGetTransferAmount_run ba HO HR)
    as (amount & after & -> & H).
  exists amount. split; [reflexivity | exact H].
Qed.

Lemma SettleEmissionsAndGetTransferAmount_conserves_witness :
  let ba := Scenario.wrapper SECONDS_PER_YEAR (Scenario.balance 10 0)
              (Scenario.with_EmissionsRate 1 (Scenario.bank 10 0 0)) in
  exists amount,
    fst (SettleEmissionsAndGetTransferAmount ba) = Ok amount
    /\ 0 <= amount
    /\ Truncate amount 8 = amount
    /\ Balance.EmissionsOutstanding
         (Balance (snd (SettleEmissionsAndGetTransferAmount ba))) == 0
    /\ 0 <= Bank.EmissionsRemaining
              (Bank (snd (SettleEmissionsAndGetTransferAmount ba)))
    /\ amount
       + Bank.EmissionsRemaining
           (Bank (snd (SettleEmissionsAndGetTransferAmount ba)))
       == Balance.EmissionsOutstanding (Balance ba)
          + Bank.EmissionsRemaining (Bank ba).
Proof.
  intros ba.
  apply (@SettleEmissionsAndGetTransferAmount_conserves ba);
    vm_compute; discriminate.
Defined.

End Settlement.

(* ================================================================== *)
(** ** Leaving a bank: [WithdrawAll] and [RepayAll] *)

Section Leaving.

Import BankAccountWrapper.

Local Ltac split_ifs H :=
  repeat match type of H with
         | context [if ?c then _ else _] =>
             let E := fresh "E" in destruct c eqn:E; cbn [negb] in H
         end.

Lemma WithdrawAll_ok ba amount after :
  WithdrawAll ba = (Ok amount, after) ->
  let assetAmount :=
    Mul (Balance.AssetShares (Balance ba)) (Bank.AssetShareValue (Bank ba)) in
  let liabilityAmount :=
    Mul (Balance.LiabilityShares (Balance ba))
        (Bank.LiabilityShareValue (Bank ba)) in
  amount = Truncate assetAmount 8
  /\ 0 < assetAmount
  /\ liabilityAmount < EMPTY_BALANCE_THRESHOLD
  /\ Balance after = snd (Balance.EmptyDeactivated (clk ba) (Balance ba))
  /\ Bank.TotalAssetShares (Bank after)
     = Add (Bank.TotalAssetShares (Bank ba))
           (Mul (Balance.AssetShares (Balance ba)) (NewFromInt (-1)))
  /\ Bank.TotalLiabilityShares (Bank after)
     = Bank.TotalLiabilityShares (Bank ba)
  /\ Bank.CollectedInsuranceFeesOutstanding (Bank after)
     = Add (Bank.CollectedInsuranceFeesOutstanding (Bank ba))
           (Sub assetAmount amount)
  /\ Bank.LiquidityVault (Bank after) = Bank.LiquidityVault (Bank ba).
Proof.
  intros H assetAmount liabilityAmount. revert H.
  unfold WithdrawAll.
  unfold bindM at 1, get at 1. unfold bindM at 1.
  destruct (ClaimEmissions_keeps (clk ba) ba)
    as (r & s & -> & Hr & Hc & Hi & Hb & HA & HL & HV & HW & HTA & HTL
          & HLV & HCI & HBC).
  destruct Hr as [-> |[-> | ->]]; [|discriminate|discriminate].
  unfold onBalance, onBank, Balance.Close, Balance.EmptyDeactivated,
    Bank.GetLiabilityAmount, Bank.GetAssetAmount, Bank.ChangeAssetShares,
    Bank.CheckUtilizationRatio, Bank.GetAssetAmount, Bank.GetLiabilityAmount.
  run_monad. rewrite ?HA, ?HL, ?HV, ?HW, ?Hc, ?HTA, ?HTL.
  fold assetAmount liabilityAmount.
  destruct (Bank.AssertOperationalMode (Bank s) false) as [[]|e|p];
    [|discriminate|discriminate].
  destruct (LessThan liabilityAmount EMPTY_BALANCE_THRESHOLD) eqn:H1;
    cbn [negb]; [|discriminate].
  destruct (GreaterThan assetAmount ZERO_AMOUNT_THRESHOLD) eqn:H2;
    cbn [negb]; [|discriminate].
  destruct (GreaterThanOrEqual (Balance.EmissionsOutstanding (Balance s))
              EMPTY_BALANCE_THRESHOLD); [discriminate|].
  cbn [fst snd]. intros H. split_ifs H; try discriminate;
    injection H as <- <-;
    cbn [Balance Bank set_Balance set_Bank Bank.TotalAssetShares
         Bank.TotalLiabilityShares Bank.CollectedInsuranceFeesOutstanding
         Bank.LiquidityVault Bank.set_CollectedInsuranceFeesOutstanding
         Bank.set_TotalAssetShares];
    rewrite ?Hi, ?Hb, ?HTA, ?HTL, ?HLV, ?HCI;
    order_facts; q_consts; repeat split; assumption.
Qed.

(** X17.  What a successful [WithdrawAll] has done.  The position had a
    positive asset amount and a liability amount under the threshold of an
    empty balance.  The amount handed out is the asset amount cut to eight
    decimal places; what is cut off, less than one unit of the eighth
    place, goes to the insurance fees, so that nothing is lost.  The
    balance is closed, the bank's asset shares fall by the balance's, and
    neither the bank's liability shares nor its liquidity vault change. *)
Theorem WithdrawAll_effect (ba : BankAccountWrapper.t) (amount : Decimal) :
  fst (WithdrawAll ba) = Ok amount ->
  let after := snd (WithdrawAll ba) in
  let assetAmount :=
    Mul (Balance.AssetShares (Balance ba)) (Bank.AssetShareValue (Bank ba)) in
  amount = Truncate assetAmount 8
  /\ 0 <= amount <= assetAmount
  /\ 0 < assetAmount
  /\ Mul (Balance.LiabilityShares (Balance ba))
         (Bank.LiabilityShareValue (Bank ba)) < EMPTY_BALANCE_THRESHOLD
  /\ amount
     + (Bank.CollectedInsuranceFeesOutstanding (Bank after)
        - Bank.CollectedInsuranceFeesOutstanding (Bank ba))
     == assetAmount
  /\ Bank.CollectedInsuranceFeesOutstanding (Bank after)
     - Bank.CollectedInsuranceFeesOutstanding (Bank ba) < 1 # pow10 8
  /\ Balance after = snd (Balance.EmptyDeactivated (clk ba) (Balance ba))
  /\ Bank.TotalAssetShares (Bank after)
     == Bank.TotalAssetShares (Bank ba) - Balance.AssetShares (Balance ba)
  /\ Bank.TotalLiabilityShares (Bank after)
     = Bank.TotalLiabilityShares (Bank ba)
  /\ Bank.LiquidityVault (Bank after) = Bank.LiquidityVault (Bank ba).
Proof.
  intros H after assetAmount. subst after.
  destruct (WithdrawAll ba) as [r s] eqn:E. cbn [fst snd] in *. subst r.
  destruct (@WithdrawAll_ok ba amount s E)
    as (Ha & Hpos & Hl & Hbal & HTA & HTL & HCI & HLV).
  fold assetAmount in Ha, Hpos, HCI.
  pose proof (@Truncate_bounds assetAmount 8 ltac:(lra)) as (T0 & T1 & T2).
  rewrite <- Ha in T0, T1, T2.
  rewrite HCI, HTA, HTL, HLV, Hbal.
  unfold Add, Sub, Mul, NewFromInt.
  set (c := Bank.CollectedInsuranceFeesOutstanding (Bank ba)) in *.
  set (ta := Bank.TotalAssetShares (Bank ba)) in *.
  set (a := Balance.AssetShares (Balance ba)) in *.
  clearbody c ta a assetAmount.
  split; [assumption|]. split; [split; assumption|]. split; [assumption|].
  split; [assumption|]. split; [lra|]. split; [lra|].
  split; [reflexivity|]. split; [|split; reflexivity].
  change (inject_Z (-1)) with (-1 # 1). lra.
Qed.

Lemma WithdrawAll_effect_witness :
  let ba := Scenario.wrapper 0 (Scenario.balance 10 0) (Scenario.bank 50 5 0) in
  exists amount,
    fst (WithdrawAll ba) = Ok amount
    /\ amount == 10
    /\ Bank.TotalAssetShares (Bank (snd (WithdrawAll ba)))
       == Bank.TotalAssetShares (Bank ba) - Balance.AssetShares (Balance ba).
Proof.
  intros ba. exists (Truncate 10 8).
  assert (H : fst (WithdrawAll ba) = Ok (Truncate 10 8))
    by (vm_compute; reflexivity).
  split; [exact H|]. split; [reflexivity|].
  apply (@WithdrawAll_effect ba (Truncate 10 8) H).
Defined.

Lemma RepayAll_run ba :
  let assetAmount :=
    Mul (Balance.AssetShares (Balance ba)) (Bank.AssetShareValue (Bank ba)) in
  let liabilityAmount :=
    Mul (Balance.LiabilityShares (Balance ba))
        (Bank.LiabilityShareValue (Bank ba)) in
  let amount := RoundCeil liabilityAmount 5 in
  forall r after,
    RepayAll ba = (r, after) ->
    (r = Err ErrBankLiquidityDeficit -> Bank.LiquidityVault (Bank ba) < 0)
    /\ (forall p, r <> Panic p)
    /\ (forall v, r = Ok v ->
          v = amount
          /\ 0 < liabilityAmount
          /\ assetAmount < EMPTY_BALANCE_THRESHOLD
          /\ Balance after
             = snd (Balance.EmptyDeactivated (clk ba) (Balance ba))
          /\ Bank.TotalLiabilityShares (Bank after)
             = Add (Bank.TotalLiabilityShares (Bank ba))
                   (Mul (Balance.LiabilityShares (Balance ba))
                        (NewFromInt (-1)))
          /\ Bank.TotalAssetShares (Bank after)
             = Bank.TotalAssetShares (Bank ba)
          /\ Bank.CollectedInsuranceFeesOutstanding (Bank after)
             = Add (Bank.CollectedInsuranceFeesOutstanding (Bank ba))
                   (Sub amount liabilityAmount)
          /\ Bank.LiquidityVault (Bank after)
             = vaultAfterRepayAll (Bank.LiquidityVault (Bank ba))
                 (Sub amount liabilityAmount)
          /\ 0 <= Bank.LiquidityVault (Bank after)).
Proof.
  intros assetAmount liabilityAmount amount r after.
  unfold RepayAll.
  unfold bindM at 1, get at 1. unfold bindM at 1.
  destruct (discard_ClaimEmissions_keeps (clk ba) ba)
    as (s & -> & Hc & Hi & Hb & HA & HL & HV & HW & HTA & HTL
          & HLV & HCI & HBC).
  unfold onBalance, onBank, Balance.Close, Balance.EmptyDeactivated,
    Bank.GetLiabilityAmount, Bank.GetAssetAmount, Bank.ChangeLiabilityShares,
    Bank.NormalizeLiquidityVault, Bank.GetLiabilityAmount.
  run_monad. rewrite ?HA, ?HL, ?HV, ?HW, ?Hc, ?HTA, ?HTL, ?HLV, ?HCI.
  fold assetAmount liabilityAmount. fold amount.
  set (surplus := Sub amount liabilityAmount).
  assert (Hmode : Bank.AssertOperationalMode (Bank s) false = Ok tt
                  \/ Bank.AssertOperationalMode (Bank s) false = Err BankPaused)
    by (unfold Bank.AssertOperationalMode;
        destruct (BankConfig.OperationalState _); auto).
  destruct Hmode as [-> | ->];
    [|intros [= <- <-]; split; [discriminate | split; discriminate]].
  destruct (GreaterThan liabilityAmount ZERO_AMOUNT_THRESHOLD) eqn:H1;
    cbn [negb];
    [|intros [= <- <-]; split; [discriminate | split; discriminate]].
  destruct (LessThan assetAmount EMPTY_BALANCE_THRESHOLD) eqn:H2;
    cbn [negb];
    [|intros [= <- <-]; split; [discriminate | split; discriminate]].
  destruct (GreaterThanOrEqual (Balance.EmissionsOutstanding (Balance s))
              EMPTY_BALANCE_THRESHOLD);
    [intros [= <- <-]; split; [discriminate | split; discriminate]|].
  apply LessThan_lt in H2. apply GreaterThan_gt in H1.
  unfold ZERO_AMOUNT_THRESHOLD, Zero in H1.
  simpl. rewrite ?Hi, ?Hb, ?Hc, ?HTL, ?HW, ?HCI, ?HLV, ?HTA.
  match goal with
  | |- context [if ?c then _ else _] => destruct c
  end;
    [match goal with
     | |- context [if ?c then _ else _] => destruct c
     end|];
    simpl; rewrite ?Hi, ?Hb, ?Hc, ?HTL, ?HW, ?HCI, ?HLV, ?HTA.
  1: { intros [= <- <-]. split; [discriminate | split; discriminate]. }
  all: unfold vaultAfterRepayAll.
  all: destruct (IsPositive (Bank.LiquidityVault (Bank ba))) eqn:H3;
    simpl; rewrite ?HLV;
    [destruct (LessThan (Sub (Bank.LiquidityVault (Bank ba)) surplus)
                 EMPTY_BALANCE_THRESHOLD) eqn:H4; simpl; rewrite ?HLV|].
  all: match goal with
       | |- context [if ?c then _ else _] => destruct c eqn:H5
       | _ => idtac
       end.
  all: intros [= <- <-].
  all: split; [intros Hd; try discriminate Hd|].
  all: try (split; [discriminate|]).
  all: try (intros v Hv; try discriminate Hv; injection Hv as <-; simpl;
            rewrite ?Hi, ?Hb, ?Hc, ?HTL, ?HW, ?HCI, ?HLV, ?HTA;
            do 8 (split; [solve [assumption | reflexivity]|]);
            order_facts; q_consts; lra).
  all: order_facts; q_consts; try lra.
Qed.

(** X18.  What a successful [RepayAll] has done.  The position had a
    positive liability amount and an asset amount under the threshold of
    an empty balance.  The amount owed is the liability amount rounded up
    to five decimal places; the surplus, less than one unit of the fifth
    place, goes to the insurance fees and is taken out of a positive
    liquidity vault, which is set to zero if it falls under the threshold.
    The balance is closed, the bank's liability shares fall by the
    balance's, its asset shares stay, and the vault is not negative. *)
Theorem RepayAll_effect (ba : BankAccountWrapper.t) (amount : Decimal) :
  fst (RepayAll ba) = Ok amount ->
  let after := snd (RepayAll ba) in
  let liabilityAmount :=
    Mul (Balance.LiabilityShares (Balance ba))
        (Bank.LiabilityShareValue (Bank ba)) in
  amount = RoundCeil liabilityAmount 5
  /\ liabilityAmount <= amount
  /\ amount < liabilityAmount + (1 # pow10 5)
  /\ 0 < liabilityAmount
  /\ Mul (Balance.AssetShares (Balance ba))
         (Bank.AssetShareValue (Bank ba)) < EMPTY_BALANCE_THRESHOLD
  /\ Bank.CollectedInsuranceFeesOutstanding (Bank after)
     == Bank.CollectedInsuranceFeesOutstanding (Bank ba)
        + (amount - liabilityAmount)
  /\ Balance after = snd (Balance.EmptyDeactivated (clk ba) (Balance ba))
  /\ Bank.TotalLiabilityShares (Bank after)
     == Bank.TotalLiabilityShares (Bank ba)
        - Balance.LiabilityShares (Balance ba)
  /\ Bank.TotalAssetShares (Bank after) = Bank.TotalAssetShares (Bank ba)
  /\ Bank.LiquidityVault (Bank after)
     = vaultAfterRepayAll (Bank.LiquidityVault (Bank ba))
         (Sub amount liabilityAmount)
  /\ 0 <= Bank.LiquidityVault (Bank after).
Proof.
  intros H after liabilityAmount. subst after.
  destruct (RepayAll ba) as [r s] eqn:E. cbn [fst snd] in *. subst r.
  destruct (@RepayAll_run ba (Ok amount) s E) as (_ & _ & Hok).
  destruct (Hok amount eq_refl)
    as (Ha & Hpos & Hl & Hbal & HTL & HTA & HCI & HLV & HLV0).
  fold liabilityAmount in Ha, Hpos, HCI, HLV.
  pose proof (RoundCeil_bounds liabilityAmount 5) as (C1 & C2).
  rewrite <- Ha in C1, C2, HCI, HLV.
  rewrite HCI, HTL, HTA, Hbal. rewrite HLV in *.
  unfold Add, Sub, Mul, NewFromInt.
  set (c := Bank.CollectedInsuranceFeesOutstanding (Bank ba)) in *.
  set (tl := Bank.TotalLiabilityShares (Bank ba)) in *.
  set (l := Balance.LiabilityShares (Balance ba)) in *.
  clearbody c tl l liabilityAmount.
  do 5 (split; [assumption|]). split; [reflexivity|].
  split; [reflexivity|]. split; [|repeat split; assumption].
  change (inject_Z (-1)) with (-1 # 1). lra.
Qed.

Lemma RepayAll_effect_witness :
  let ba := Scenario.wrapper 0 (Scenario.balance 0 (1 # 3))
              (Scenario.bank 50 5 10) in
  exists amount,
    fst (RepayAll ba) = Ok amount
    /\ amount == 33334 # 100000
    /\ 0 <= Bank.LiquidityVault (Bank (snd (RepayAll ba))).
Proof.
  intros ba. exists (RoundCeil (1 # 3) 5).
  assert (H : fst (RepayAll ba) = Ok (RoundCeil (1 # 3) 5))
    by (vm_compute; reflexivity).
  split; [exact H|]. split; [reflexivity|].
  apply (@RepayAll_effect ba (RoundCeil (1 # 3) 5) H).
Defined.


End Leaving.

(* ================================================================== *)
(** ** Interest accrual on a sound bank *)

Lemma CalcInterestRate_error i u e :
  InterestRateConfig.CalcInterestRate i u = Err e ->
  e = ErrNegativeInterestRate.
Proof.
  unfold InterestRateConfig.CalcInterestRate,
    InterestRateConfig.InterestRateCurve.
  destruct (LessThanOrEqual u _).
  - destruct (Div _ _) eqn:Hd; cbn [bind]; try discriminate.
    + destruct (_ || _); congruence.
    + now apply Div_no_error in Hd.
  - destruct (Div _ _) eqn:Hd; cbn [bind]; try discriminate.
    + destruct (_ || _); congruence.
    + now apply Div_no_error in Hd.
Qed.

Lemma perPeriod_nonneg timeDelta x :
  (0 < timeDelta)%Z -> 0 <= x -> 0 <= perPeriod timeDelta x.
Proof.
  intros Ht Hx. unfold perPeriod. apply DivRound_nonneg; [|reflexivity].
  unfold Mul, NewFromInt.
  apply Qmult_le_0_compat; [assumption|].
  unfold Qle; simpl; lia.
Qed.

Lemma AccrueInterest_deficit now b :
  fst (Bank.AccrueInterest now b) = Err ErrBankLiquidityDeficit ->
  Bank.LiquidityVault b < 0.
Proof.
  destruct (Z_le_gt_dec (Int64.sub now (Bank.LastUpdate b)) 0) as [Ht|Ht].
  { rewrite (@AccrueInterest_no_time b now Ht). discriminate. }
  apply Z.gt_lt in Ht.
  destruct (Qeq_dec (Bank.GetTotalAssetQuantity b) 0) as [Ha|Ha].
  { rewrite (@AccrueInterest_no_totals b now Ht (or_introl Ha)).
    discriminate. }
  destruct (Qeq_dec (Bank.GetTotalLiabilityQuantity b) 0) as [Hl|Hl].
  { rewrite (@AccrueInterest_no_totals b now Ht (or_intror Hl)).
    discriminate. }
  destruct (InterestRateConfig.CalcInterestRate
              (BankConfig.InterestRateConfig (Bank.BankConfig b))
              (DivRound (Bank.GetTotalLiabilityQuantity b)
                 (Bank.GetTotalAssetQuantity b) DivisionPrecision))
    as [[[[la ba] ga] ia]|e|p] eqn:Hr.
  - rewrite (@AccrueInterest_accrued b now la ba ga ia Ht Ha Hl Hr).
    cbn [fst].
    destruct (IsPositive (Bank.LiquidityVault b)) eqn:Hp.
    + destruct (LessThan _ EMPTY_BALANCE_THRESHOLD) eqn:Hlow.
      * discriminate.
      * destruct (IsNegative _) eqn:Hn; [|discriminate].
        order_facts. q_consts. lra.
    + destruct (IsNegative _) eqn:Hn; [|discriminate].
      order_facts. intros _. assumption.
  - destruct (@AccrueInterest_no_rates b now _ Ht Ha Hl Hr)
      as (r' & -> & He & _); [intros v; discriminate|].
    rewrite (He e eq_refl). apply CalcInterestRate_error in Hr. subst e.
    discriminate.
  - destruct (@AccrueInterest_no_rates b now _ Ht Ha Hl Hr)
      as (r' & -> & _ & Hp); [intros v; discriminate|].
    rewrite (Hp p eq_refl). discriminate.
Qed.

(** X19.  A liquidity deficit is never made by the call that reports it:
    [AccrueInterest] and [RepayAll] return [ErrBankLiquidityDeficit] only
    for a bank whose liquidity vault was negative before the call.  What
    they take from a positive vault can bring it down to zero, not
    below. *)
Theorem liquidity_deficit_is_inherited :
  (forall now b,
     fst (Bank.AccrueInterest now b) = Err ErrBankLiquidityDeficit ->
     Bank.LiquidityVault b < 0)
  /\ (forall ba,
        fst (BankAccountWrapper.RepayAll ba) = Err ErrBankLiquidityDeficit ->
        Bank.LiquidityVault (BankAccountWrapper.Bank ba) < 0).
Proof.
  split.
  - exact AccrueInterest_deficit.
  - intros ba H.
    destruct (BankAccountWrapper.RepayAll ba) as [r s] eqn:E.
    cbn [fst] in H. subst r.
    destruct (@RepayAll_run ba _ s E) as (Hd & _). exact (Hd eq_refl).
Qed.

(** X20.  Accrual on a sound bank.  With a validated interest rate
    configuration, fee parameters, share values and a liquidity vault that
    are not negative, positive total assets and total liabilities that are
    not negative, [AccrueInterest] succeeds at every time: no error, no
    panic.  Neither share value falls, neither fee accumulator falls, and
    the vault ends between zero and what it held. *)
Theorem AccrueInterest_sound_bank (now : Z) (b : Bank.t) :
  let cfg := BankConfig.InterestRateConfig (Bank.BankConfig b) in
  let b' := snd (Bank.AccrueInterest now b) in
  InterestRateConfig.Validate cfg = None ->
  0 <= InterestRateConfig.ProtocolIrFee cfg ->
  0 <= InterestRateConfig.InsuranceIrFee cfg ->
  0 <= InterestRateConfig.ProtocolFixedFeeApr cfg ->
  0 <= InterestRateConfig.InsuranceFeeFixedApr cfg ->
  0 < Bank.GetTotalAssetQuantity b ->
  0 <= Bank.GetTotalLiabilityQuantity b ->
  0 <= Bank.AssetShareValue b ->
  0 <= Bank.LiabilityShareValue b ->
  0 <= Bank.LiquidityVault b ->
  fst (Bank.AccrueInterest now b) = Ok tt
  /\ Bank.AssetShareValue b <= Bank.AssetShareValue b'
  /\ Bank.LiabilityShareValue b <= Bank.LiabilityShareValue b'
  /\ Bank.CollectedGroupFeesOutstanding b
     <= Bank.CollectedGroupFeesOutstanding b'
  /\ Bank.CollectedInsuranceFeesOutstanding b
     <= Bank.CollectedInsuranceFeesOutstanding b'
  /\ 0 <= Bank.LiquidityVault b' <= Bank.LiquidityVault b
  /\ Bank.TotalAssetShares b' = Bank.TotalAssetShares b
  /\ Bank.TotalLiabilityShares b' = Bank.TotalLiabilityShares b.
Proof.
  intros cfg b' Hv Hpi Hii Hpf Hif Ha Hl Hav Hlv Hvault. subst b'.
  destruct (Z_le_gt_dec (Int64.sub now (Bank.LastUpdate b)) 0) as [Ht|Ht].
  { rewrite (@AccrueInterest_no_time b now Ht). cbn [fst snd].
    repeat split; try lra; assumption. }
  apply Z.gt_lt in Ht.
  destruct (Qeq_dec (Bank.GetTotalLiabilityQuantity b) 0) as [Hl0|Hl0].
  { rewrite (@AccrueInterest_no_totals b now Ht (or_intror Hl0)).
    cbn [fst snd Bank.set_LastUpdate Bank.AssetShareValue
         Bank.LiabilityShareValue Bank.CollectedGroupFeesOutstanding
         Bank.CollectedInsuranceFeesOutstanding Bank.LiquidityVault
         Bank.TotalAssetShares Bank.TotalLiabilityShares].
    repeat split; try lra; assumption. }
  assert (Ha0 : ~ Bank.GetTotalAssetQuantity b == 0) by lra.
  set (u := DivRound (Bank.GetTotalLiabilityQuantity b)
              (Bank.GetTotalAssetQuantity b) DivisionPrecision).
  assert (Hu : 0 <= u) by (apply DivRound_nonneg; assumption).
  destruct (@CalcInterestRate_total cfg u Hv Hpi Hii Hpf Hif Hu)
    as (base & la & ba & ga & ia & Hbase & Hr & Hla & Hba & Hla0 & Hga0
          & Hia0 & Hbb & _).
  assert (Hbase0 : 0 <= base).
  { destruct (@InterestRateCurve_total cfg Hv u Hu) as (r & Hr' & Hr0).
    rewrite Hbase in Hr'. now injection Hr' as <-. }
  rewrite (@AccrueInterest_accrued b now la ba ga ia Ht Ha0 Hl0 Hr).
  set (timeDelta := Int64.sub now (Bank.LastUpdate b)) in *.
  pose proof (@perPeriod_nonneg timeDelta la Ht Hla0) as P1.
  pose proof (@perPeriod_nonneg timeDelta ba Ht ltac:(lra)) as P2.
  assert (P3 : 0 <= perPeriod timeDelta
                      (Mul (Bank.GetTotalLiabilityQuantity b) ga))
    by (apply perPeriod_nonneg; [assumption|];
        unfold Mul; apply Qmult_le_0_compat; assumption).
  assert (P4 : 0 <= perPeriod timeDelta
                      (Mul (Bank.GetTotalLiabilityQuantity b) ia))
    by (apply perPeriod_nonneg; [assumption|];
        unfold Mul; apply Qmult_le_0_compat; assumption).
  set (g := perPeriod timeDelta (Mul (Bank.GetTotalLiabilityQuantity b) ga))
    in *.
  set (i := perPeriod timeDelta (Mul (Bank.GetTotalLiabilityQuantity b) ia))
    in *.
  set (pa := perPeriod timeDelta la) in *.
  set (pb := perPeriod timeDelta ba) in *.
  cbn [fst snd Bank.set_LastUpdate Bank.AssetShareValue
       Bank.LiabilityShareValue Bank.CollectedGroupFeesOutstanding
       Bank.CollectedInsuranceFeesOutstanding Bank.LiquidityVault
       Bank.TotalAssetShares Bank.TotalLiabilityShares
       Bank.set_LiquidityVault Bank.set_CollectedInsuranceFeesOutstanding
       Bank.set_CollectedGroupFeesOutstanding Bank.set_LiabilityShareValue
       Bank.set_AssetShareValue].
  set (vault := if IsPositive (Bank.LiquidityVault b) then _ else _).
  assert (Hvault' : 0 <= vault <= Bank.LiquidityVault b).
  { subst vault.
    destruct (IsPositive (Bank.LiquidityVault b)) eqn:Hp; [|lra].
    destruct (LessThan _ EMPTY_BALANCE_THRESHOLD) eqn:Hlow;
      order_facts; q_consts; unfold Sub in *; lra. }
  assert (Hneg : IsNegative vault = false)
    by (apply IsNegative_false; lra).
  rewrite Hneg.
  assert (0 <= Bank.AssetShareValue b * pa)
    by (apply Qmult_le_0_compat; assumption).
  assert (0 <= Bank.LiabilityShareValue b * pb)
    by (apply Qmult_le_0_compat; assumption).
  unfold Mul, Add, ONE, NewFromInt. change (inject_Z 1) with 1.
  split; [reflexivity|].
  split; [lra|]. split; [lra|]. split; [lra|]. split; [lra|].
  split; [exact Hvault'|]. split; reflexivity.
Qed.

Lemma AccrueInterest_sound_bank_witness :
  let b := Scenario.bank 50 5 10 in
  fst (Bank.AccrueInterest (MIN_EMISSIONS_START_TIME + 3600) b) = Ok tt
  /\ Bank.AssetShareValue b
     <= Bank.AssetShareValue
          (snd (Bank.AccrueInterest (MIN_EMISSIONS_START_TIME + 3600) b)).
Proof.
  intros b.
  pose proof (@AccrueInterest_sound_bank (MIN_EMISSIONS_START_TIME + 3600) b)
    as H.
  cbv zeta in H.
  assert (H1 : InterestRateConfig.Validate
                 (BankConfig.InterestRateConfig (Bank.BankConfig b)) = None)
    by reflexivity.
  assert (H2 : 0 <= InterestRateConfig.ProtocolIrFee
                      (BankConfig.InterestRateConfig (Bank.BankConfig b)))
    by (vm_compute; discriminate).
  assert (H3 : 0 < Bank.GetTotalAssetQuantity b) by (vm_compute; reflexivity).
  assert (H4 : 0 <= Bank.GetTotalLiabilityQuantity b)
    by (vm_compute; discriminate).
  assert (H5 : 0 <= Bank.AssetShareValue b) by (vm_compute; discriminate).
  assert (H6 : 0 <= Bank.LiquidityVault b) by (vm_compute; discriminate).
  destruct (H H1 H2 H2 H2 H2 H3 H4 H5 H5 H6) as (A1 & A2 & _).
  split; assumption.
Defined.

(* ================================================================== *)
(** ** Decreasing a balance *)

Section Decrease.

Import BankAccountWrapper.

Lemma DecreaseBalanceInternal_ok ba delta ty after :
  DecreaseBalanceInternal delta ty ba = (Ok tt, after) ->
  let assetAmount :=
    Mul (Balance.AssetShares (Balance ba)) (Bank.AssetShareValue (Bank ba)) in
  let assetAmountDecrease := Min assetAmount delta in
  let liabilityAmountIncrease := Max (Sub delta assetAmount) Zero in
  let assetSharesDecrease :=
    DivRound assetAmountDecrease (Bank.AssetShareValue (Bank ba))
      DivisionPrecision in
  let liabilitySharesIncrease :=
    DivRound liabilityAmountIncrease (Bank.LiabilityShareValue (Bank ba))
      DivisionPrecision in
  (ty = BalanceDecreaseTypeWithdrawOnly -> liabilityAmountIncrease == 0)
  /\ (ty = BalanceDecreaseTypeBorrowOnly -> assetAmountDecrease == 0)
  /\ Balance.AssetShares (Balance after)
     = Add (Balance.AssetShares (Balance ba))
           (Mul assetSharesDecrease (NewFromInt (-1)))
  /\ Balance.LiabilityShares (Balance after)
     = Add (Balance.LiabilityShares (Balance ba)) liabilitySharesIncrease
  /\ Bank.TotalAssetShares (Bank after)
     = Add (Bank.TotalAssetShares (Bank ba))
           (Mul assetSharesDecrease (NewFromInt (-1)))
  /\ Bank.TotalLiabilityShares (Bank after)
     = Add (Bank.TotalLiabilityShares (Bank ba)) liabilitySharesIncrease
  /\ 0 <= Balance.AssetShares (Balance after)
  /\ 0 <= Balance.LiabilityShares (Balance after)
  /\ Bank.GetTotalLiabilityQuantity (Bank after)
     <= Bank.GetTotalAssetQuantity (Bank after).
Proof.
  intros H assetAmount dec inc sd si. revert H.
  unfold DecreaseBalanceInternal.
  unfold bindM at 1, get at 1. unfold bindM at 1.
  destruct (ClaimEmissions_keeps (clk ba) ba)
    as (r & s & -> & Hr & Hc & Hi & Hb & HA & HL & HV & HW & HTA & HTL
          & HLV & HCI & HBC).
  destruct Hr as [-> |[-> | ->]]; [|discriminate|discriminate].
  unfold onBalance, onBank, Bank.GetAssetAmount, Bank.GetAssetShares,
    Bank.GetLiabilityShares, Balance.ChangeAssetShares,
    Balance.ChangeLiabilityShares, Bank.ChangeAssetShares,
    Bank.ChangeLiabilityShares, Bank.CheckUtilizationRatio,
    Bank.GetAssetAmount, Bank.GetLiabilityAmount, Div,
    Bank.GetTotalLiabilityQuantity, Bank.GetTotalAssetQuantity.
  run_monad. rewrite ?HA, ?HL, ?HV, ?HW, ?HTA, ?HTL.
  fold assetAmount. fold dec inc.
  destruct (Bank.AssertOperationalMode (Bank s) _) as [[]|e|p];
    [| destruct ty; simpl; repeat (destruct (negb _)); discriminate
     | destruct ty; simpl; repeat (destruct (negb _)); discriminate].
  intros H.
  destruct ty; simpl in H;
    repeat (match type of H with
            | context [if ?c then _ else _] =>
                let E := fresh "E" in destruct c eqn:E
            end; simpl in H; rewrite ?HA, ?HL, ?HV, ?HW, ?HTA, ?HTL in H;
            try discriminate H).
  all: injection H as <-; simpl; rewrite ?HA, ?HL, ?HV, ?HW, ?HTA, ?HTL.
  all: fold sd si.
  all: order_facts; q_consts.
  all: repeat match goal with
              | |- _ /\ _ => split
              end;
    try reflexivity; try assumption; try discriminate;
    try (intros _; assumption).
  all: intros _;
    match goal with
    | E : negb (IsZero _) = false |- _ =>
        apply negb_false_iff in E; apply IsZero_eq in E; exact E
    end.
Qed.

(** X21.  What a successful [DecreaseBalanceInternal] has done, with
    [assetAmountDecrease = min(assetAmount, delta)] and
    [liabilityAmountIncrease = max(delta - assetAmount, 0)]: the balance and
    the bank's total have lost the shares of the first and gained the
    shares of the second, neither kind of shares of the balance is
    negative, and the bank's liabilities do not exceed its assets.  Under
    WithdrawOnly the liabilities of the balance have not grown at all;
    under BorrowOnly its assets have not shrunk. *)
Theorem decrease_balance_split (ba : BankAccountWrapper.t) (delta : Decimal)
  (ty : BalanceDecreaseType) :
  fst (DecreaseBalanceInternal delta ty ba) = Ok tt ->
  let after := snd (DecreaseBalanceInternal delta ty ba) in
  let assetAmount :=
    Mul (Balance.AssetShares (Balance ba)) (Bank.AssetShareValue (Bank ba)) in
  let assetSharesDecrease :=
    DivRound (Min assetAmount delta) (Bank.AssetShareValue (Bank ba))
      DivisionPrecision in
  let liabilitySharesIncrease :=
    DivRound (Max (Sub delta assetAmount) Zero)
      (Bank.LiabilityShareValue (Bank ba)) DivisionPrecision in
  Balance.AssetShares (Balance after)
  == Balance.AssetShares (Balance ba) - assetSharesDecrease
  /\ Balance.LiabilityShares (Balance after)
     == Balance.LiabilityShares (Balance ba) + liabilitySharesIncrease
  /\ Bank.TotalAssetShares (Bank after)
     == Bank.TotalAssetShares (Bank ba) - assetSharesDecrease
  /\ Bank.TotalLiabilityShares (Bank after)
     == Bank.TotalLiabilityShares (Bank ba) + liabilitySharesIncrease
  /\ 0 <= Balance.AssetShares (Balance after)
  /\ 0 <= Balance.LiabilityShares (Balance after)
  /\ Bank.GetTotalLiabilityQuantity (Bank after)
     <= Bank.GetTotalAssetQuantity (Bank after)
  /\ (ty = BalanceDecreaseTypeWithdrawOnly ->
      Balance.LiabilityShares (Balance after)
      == Balance.LiabilityShares (Balance ba))
  /\ (ty = BalanceDecreaseTypeBorrowOnly ->
      Balance.AssetShares (Balance after)
      == Balance.AssetShares (Balance ba)).
Proof.
  intros H after assetAmount sd si. subst after.
  destruct (DecreaseBalanceInternal delta ty ba) as [r s] eqn:E.
  cbn [fst snd] in *. subst r.
  destruct (@DecreaseBalanceInternal_ok ba delta ty s E)
    as (Hw & Hb & HA & HL & HTA & HTL & HA0 & HL0 & Hu).
  fold assetAmount in Hw, Hb, HA, HL, HTA, HTL. fold sd in HA, HTA.
  fold si in HL, HTL.
  assert (Hsi : ty = BalanceDecreaseTypeWithdrawOnly -> si == 0).
  { intros Ht. subst si. unfold DivRound. apply Round_zero.
    rewrite (Hw Ht). unfold Qdiv. ring. }
  assert (Hsd : ty = BalanceDecreaseTypeBorrowOnly -> sd == 0).
  { intros Ht. subst sd. unfold DivRound. apply Round_zero.
    rewrite (Hb Ht). unfold Qdiv. ring. }
  split; [rewrite HA; unfold Add, Mul, NewFromInt;
          change (inject_Z (-1)) with (-1 # 1); ring|].
  split; [rewrite HL; reflexivity|].
  split; [rewrite HTA; unfold Add, Mul, NewFromInt;
          change (inject_Z (-1)) with (-1 # 1); ring|].
  split; [rewrite HTL; reflexivity|].
  do 3 (split; [assumption|]).
  split; intros Ht.
  - rewrite HL. unfold Add. rewrite (Hsi Ht). ring.
  - rewrite HA. unfold Add, Mul. rewrite (Hsd Ht). ring.
Qed.

Lemma decrease_balance_split_witness :
  let ba := Scenario.wrapper 0 (Scenario.balance 10 0) (Scenario.bank 50 5 0) in
  Balance.LiabilityShares (Balance (snd (Withdraw 4 ba)))
  == Balance.LiabilityShares (Balance ba).
Proof.
  intros ba.
  assert (H : fst (DecreaseBalanceInternal 4 BalanceDecreaseTypeWithdrawOnly ba)
              = Ok tt) by (vm_compute; reflexivity).
  apply (@decrease_balance_split ba 4 BalanceDecreaseTypeWithdrawOnly H).
  reflexivity.
Defined.


End Decrease.

(* ================================================================== *)
(** ** Health totals and the checks on them *)

Section HealthTotals.

Variable requirementType : RequirementType.

Lemma sumHealthComponents_app l1 l2 a0 b0 :
  RiskEngine.sumHealthComponents (l1 ++ l2) requirementType a0 b0
  = bind (RiskEngine.sumHealthComponents l1 requirementType a0 b0)
      (fun '(a, b) => RiskEngine.sumHealthComponents l2 requirementType a b).
Proof.
  revert a0 b0. induction l1 as [|x l1 IH]; intros a0 b0; simpl.
  - reflexivity.
  - destruct (BankAccountWithPriceFeed.CalcWeightedAssetsAndLiabsValues
                x requirementType) as [[a b]|e|p]; cbn [bind]; auto.
Qed.

(** The running totals only shift the result. *)
Lemma sumHealthComponents_shift l a0 b0 a b :
  RiskEngine.sumHealthComponents l requirementType Zero Zero = Ok (a, b) ->
  exists a' b',
    RiskEngine.sumHealthComponents l requirementType a0 b0 = Ok (a', b')
    /\ a' == a0 + a /\ b' == b0 + b.
Proof.
  assert (G : forall l c0 d0 c d a0 b0,
            RiskEngine.sumHealthComponents l requirementType c0 d0 = Ok (c, d) ->
            exists a' b',
              RiskEngine.sumHealthComponents l requirementType a0 b0
              = Ok (a', b')
              /\ a' - a0 == c - c0 /\ b' - b0 == d - d0).
  { clear. induction l as [|x l IH]; intros c0 d0 c d a0 b0; simpl.
    - intros [= <- <-]. exists a0, b0. split; [reflexivity|]. split; ring.
    - destruct (BankAccountWithPriceFeed.CalcWeightedAssetsAndLiabsValues
                  x requirementType) as [[xa xb]|e|p]; cbn [bind];
        try discriminate.
      intros H.
      destruct (IH _ _ _ _ (Add a0 xa) (Add b0 xb) H) as (a' & b' & E & Ea & Eb).
      exists a', b'. split; [exact E|]. unfold Add in *. split; lra. }
  intros H. destruct (G l _ _ _ _ a0 b0 H) as (a' & b' & E & Ea & Eb).
  exists a', b'. split; [exact E|]. unfold Zero in *. split; lra.
Qed.

End HealthTotals.

(** X22.  The health totals are sums over the positions: the totals of a
    list of positions put together from two lists are the sums of the
    totals of the two, for every requirement type; and they fail as soon
    as the totals of the first list fail. *)
Theorem GetAccountHealthComponents_additive (account : Account.t)
  (l1 l2 : list BankAccountWithPriceFeed.t) (requirementType : RequirementType) :
  let engine l :=
    {| RiskEngine.MarginfiAccount := account;
       RiskEngine.BankAccountsWithPrice := l |} in
  (forall a1 b1 a2 b2,
     RiskEngine.GetAccountHealthComponents (engine l1) requirementType
     = Ok (a1, b1) ->
     RiskEngine.GetAccountHealthComponents (engine l2) requirementType
     = Ok (a2, b2) ->
     exists a b,
       RiskEngine.GetAccountHealthComponents (engine (l1 ++ l2)) requirementType
       = Ok (a, b)
       /\ a == a1 + a2 /\ b == b1 + b2)
  /\ (forall e,
        RiskEngine.GetAccountHealthComponents (engine l1) requirementType
        = Err e ->
        RiskEngine.GetAccountHealthComponents (engine (l1 ++ l2)) requirementType
        = Err e).
Proof.
  intros engine. unfold RiskEngine.GetAccountHealthComponents, engine.
  cbn [RiskEngine.BankAccountsWithPrice]. split.
  - intros a1 b1 a2 b2 H1 H2. rewrite sumHealthComponents_app, H1.
    cbn [bind]. now apply sumHealthComponents_shift.
  - intros e H. rewrite sumHealthComponents_app, H. reflexivity.
Qed.

(** X23.  A position in a bank of the Isolated tier, or one without a
    price feed, counts for nothing in the health totals, its liabilities
    included: whenever the side of its balance is defined, its weighted
    assets and liabilities are both zero, for every requirement type. *)
Theorem isolated_position_counts_zero (a : BankAccountWithPriceFeed.t)
  (requirementType : RequirementType) :
  RiskEngine.isIsolated a = true \/ BankAccountWithPriceFeed.PriceFeed a = None ->
  (forall side,
     Balance.GetSide (BankAccountWithPriceFeed.Balance a) = Ok side ->
     BankAccountWithPriceFeed.CalcWeightedAssetsAndLiabsValues a requirementType
     = Ok (Zero, Zero))
  /\ BankAccountWithPriceFeed.CalcWeightedAssets a requirementType = Ok Zero
  /\ BankAccountWithPriceFeed.CalcWeightedLiabs a requirementType = Ok Zero.
Proof.
  intros H.
  assert (HA : BankAccountWithPriceFeed.CalcWeightedAssets a requirementType
               = Ok Zero).
  { unfold BankAccountWithPriceFeed.CalcWeightedAssets.
    unfold RiskEngine.isIsolated in H.
    destruct (BankConfig.RiskTier _); [|reflexivity].
    destruct H as [H|H]; [discriminate | now rewrite H]. }
  assert (HL : BankAccountWithPriceFeed.CalcWeightedLiabs a requirementType
               = Ok Zero).
  { unfold BankAccountWithPriceFeed.CalcWeightedLiabs.
    unfold RiskEngine.isIsolated in H.
    destruct (BankConfig.RiskTier _); [|reflexivity].
    destruct H as [H|H]; [discriminate | now rewrite H]. }
  split; [|split; assumption].
  intros side Hs.
  unfold BankAccountWithPriceFeed.CalcWeightedAssetsAndLiabsValues.
  rewrite Hs, HA, HL. destruct side; reflexivity.
Qed.

Lemma isolated_position_counts_zero_witness :
  BankAccountWithPriceFeed.CalcWeightedLiabs
    {| BankAccountWithPriceFeed.Bank := Scenario.bank 50 5 0;
       BankAccountWithPriceFeed.Balance := Scenario.balance 0 5;
       BankAccountWithPriceFeed.PriceFeed := None |} Maintenance
  = Ok Zero.
Proof.
  apply (@isolated_position_counts_zero
           {| BankAccountWithPriceFeed.Bank := Scenario.bank 50 5 0;
              BankAccountWithPriceFeed.Balance := Scenario.balance 0 5;
              BankAccountWithPriceFeed.PriceFeed := None |} Maintenance).
  right. reflexivity.
Defined.

(* ================================================================== *)
(** ** Risk tiers and the health check *)

Section RiskTiers.

Let hasLiabilities (a : BankAccountWithPriceFeed.t) : bool :=
  negb (Balance.IsEmpty (BankAccountWithPriceFeed.Balance a)
          BalanceSideLiabilities).

Lemma isInIsolatedRiskTier_existsb l init :
  fold_left (fun isInIsolatedRiskTier a =>
               if RiskEngine.isIsolated a then true else isInIsolatedRiskTier)
            l init
  = init || existsb RiskEngine.isIsolated l.
Proof.
  revert init. induction l as [|x l IH]; intros init; simpl.
  - now rewrite orb_false_r.
  - rewrite IH. destruct (RiskEngine.isIsolated x), init; reflexivity.
Qed.

Lemma CheckAccountRiskTiers_cases (r : RiskEngine.t) :
  let debts := filter hasLiabilities (RiskEngine.BankAccountsWithPrice r) in
  RiskEngine.CheckAccountRiskTiers r
  = if existsb RiskEngine.isIsolated debts && negb (Nat.eqb (length debts) 1)
    then Err IsolatedAccountIllegalState else Ok tt.
Proof.
  intros debts. unfold RiskEngine.CheckAccountRiskTiers.
  fold hasLiabilities. fold debts.
  now rewrite isInIsolatedRiskTier_existsb.
Qed.

Lemma CheckAccountRiskTiers_Ok (r : RiskEngine.t) :
  let debts := filter hasLiabilities (RiskEngine.BankAccountsWithPrice r) in
  RiskEngine.CheckAccountRiskTiers r = Ok tt
  <-> (forall a, In a debts -> RiskEngine.isIsolated a = true -> debts = [a]).
Proof.
  intros debts. rewrite CheckAccountRiskTiers_cases. fold debts.
  destruct (existsb RiskEngine.isIsolated debts) eqn:He; cbn [andb].
  - apply existsb_exists in He. destruct He as (x & Hx & Hi).
    destruct (Nat.eqb_spec (length debts) 1) as [Hn|Hn]; cbn [negb].
    + split; [|reflexivity]. intros _ a Ha _.
      destruct debts as [|y [|z t]]; try discriminate.
      destruct Ha as [-> |[]]. reflexivity.
    + split; [discriminate|]. intros H.
      specialize (H x Hx Hi). rewrite H in Hn. now elim Hn.
  - split; [|reflexivity]. intros _ a Ha Hi.
    assert (existsb RiskEngine.isIsolated debts = true)
      by (apply existsb_exists; eauto).
    congruence.
Qed.

End RiskTiers.

(** X24.  [CheckAccountRiskTiers] accepts an account exactly when every
    position with liabilities in a bank of the Isolated tier is the
    account's only position with liabilities; it fails with
    [IsolatedAccountIllegalState] otherwise, and with nothing else. *)
Theorem CheckAccountRiskTiers_isolated_alone (r : RiskEngine.t) :
  let debts :=
    filter (fun a => negb (Balance.IsEmpty
                             (BankAccountWithPriceFeed.Balance a)
                             BalanceSideLiabilities))
           (RiskEngine.BankAccountsWithPrice r) in
  (RiskEngine.CheckAccountRiskTiers r = Ok tt
   <-> (forall a, In a debts -> RiskEngine.isIsolated a = true -> debts = [a]))
  /\ (RiskEngine.CheckAccountRiskTiers r = Ok tt
      \/ RiskEngine.CheckAccountRiskTiers r = Err IsolatedAccountIllegalState).
Proof.
  intros debts. split.
  - apply CheckAccountRiskTiers_Ok.
  - rewrite CheckAccountRiskTiers_cases. destruct (_ && _); auto.
Qed.

(** X25.  [CheckAccountHealth] accepts exactly the accounts whose health
    totals are defined, whose weighted assets cover the weighted
    liabilities, and which [CheckAccountRiskTiers] accepts; for such an
    account [GetAccountHealth] returns a health that is not negative.  With
    defined totals that do not cover, the answer is
    [RiskEngineInitRejected], before the risk tiers are looked at. *)
Theorem CheckAccountHealth_accepts (r : RiskEngine.t)
  (requirementType : RequirementType) :
  (RiskEngine.CheckAccountHealth r requirementType = Ok tt
   <-> exists totalAssets totalLiabilities,
         RiskEngine.GetAccountHealthComponents r requirementType
         = Ok (totalAssets, totalLiabilities)
         /\ totalLiabilities <= totalAssets
         /\ RiskEngine.CheckAccountRiskTiers r = Ok tt)
  /\ (RiskEngine.CheckAccountHealth r requirementType = Ok tt ->
      exists health,
        RiskEngine.GetAccountHealth r requirementType = Ok health
        /\ 0 <= health)
  /\ (forall totalAssets totalLiabilities,
        RiskEngine.GetAccountHealthComponents r requirementType
        = Ok (totalAssets, totalLiabilities) ->
        totalAssets < totalLiabilities ->
        RiskEngine.CheckAccountHealth r requirementType
        = Err RiskEngineInitRejected).
Proof.
  unfold RiskEngine.CheckAccountHealth, RiskEngine.GetAccountHealth.
  destruct (RiskEngine.GetAccountHealthComponents r requirementType)
    as [[ta tl]|e|p]; cbn [bind].
  - destruct (GreaterThanOrEqual ta tl) eqn:Hg; cbn [negb]; order_facts.
    + split; [|split].
      * split; [intros H; exists ta, tl; auto|].
        intros (a & l & [= <- <-] & _ & H). exact H.
      * intros _. eexists. split; [reflexivity|]. unfold Sub. lra.
      * intros a l [= <- <-] H. lra.
    + split; [|split].
      * split; [discriminate|].
        intros (a & l & [= <- <-] & H & _). lra.
      * discriminate.
      * reflexivity.
  - split; [|split]; try discriminate.
    split; [discriminate|]. intros (a & l & H & _). discriminate.
  - split; [|split]; try discriminate.
    split; [discriminate|]. intros (a & l & H & _). discriminate.
Qed.

(** X26.  The two liquidation checks agree.  A health that the
    post-liquidation check returns is the health the pre-liquidation check
    returns on the same snapshot, it is the Maintenance health of
    [GetAccountHealth], it is not positive, and it is above the health
    handed in.  Without a position for the bank the pre-liquidation check
    answers [LendingAccountBalanceNotFound]. *)
Theorem liquidation_checks_agree (r : RiskEngine.t) (bankId : UUID) :
  (forall preLiquidationHealth health,
     RiskEngine.CheckPostLiquidationConditionAndGetAccountHealth r bankId
       preLiquidationHealth = Ok health ->
     RiskEngine.CheckPreLiquidationConditionAndGetAccountHealth r bankId
     = Ok health
     /\ preLiquidationHealth < health)
  /\ (forall health,
        RiskEngine.CheckPreLiquidationConditionAndGetAccountHealth r bankId
        = Ok health ->
        RiskEngine.GetAccountHealth r Maintenance = Ok health
        /\ health <= 0)
  /\ (Account.GetFlag (RiskEngine.MarginfiAccount r) InFlashloanFlag = false ->
      Forall (fun a => Balance.BankId (BankAccountWithPriceFeed.Balance a)
                       <> bankId)
             (RiskEngine.BankAccountsWithPrice r) ->
      RiskEngine.CheckPreLiquidationConditionAndGetAccountHealth r bankId
      = Err LendingAccountBalanceNotFound).
Proof.
  unfold RiskEngine.CheckPostLiquidationConditionAndGetAccountHealth,
    RiskEngine.CheckPreLiquidationConditionAndGetAccountHealth,
    RiskEngine.GetAccountHealth.
  destruct (Account.GetFlag _ _).
  { repeat split; try discriminate. }
  destruct (RiskEngine.findLiabilityBankBalance _ bankId None) as [a|] eqn:Hfind;
    cbn [bind BankAccountWithPriceFeed.IsEmpty].
  2:{ repeat split; try discriminate. }
  assert (Hnot : Forall (fun a => Balance.BankId
                                    (BankAccountWithPriceFeed.Balance a)
                                  <> bankId)
                        (RiskEngine.BankAccountsWithPrice r) -> False).
  { intros HF. rewrite findLiabilityBankBalance_absent in Hfind by assumption.
    discriminate. }
  destruct (Balance.IsEmpty _ BalanceSideLiabilities);
    [repeat split; try discriminate; intros; contradiction|].
  destruct (Balance.IsEmpty _ BalanceSideAssets); cbn [negb];
    [|repeat split; try discriminate; intros; contradiction].
  destruct (RiskEngine.GetAccountHealthComponents r Maintenance)
    as [[ta tl]|e|p] eqn:Hc; cbn [bind].
  - destruct (LessThanOrEqual (Sub ta tl) Zero) eqn:Hle; cbn [negb].
    + split; [|split; [|intros; contradiction]].
      * intros pre h. destruct (LessThanOrEqual (Sub ta tl) pre) eqn:Hp;
          [discriminate|].
        intros [= <-]. split; [reflexivity|]. now apply LessThanOrEqual_false.
      * intros h [= <-]. split; [reflexivity|].
        now apply LessThanOrEqual_le in Hle.
    + repeat split; try discriminate; intros; contradiction.
  - repeat split; try discriminate; intros; contradiction.
  - repeat split; try discriminate; intros; contradiction.
Qed.

(* ================================================================== *)
(** ** What the loader hands to the risk engine *)

Section Loader.

Variable bankAccountService : BankAccountService.
Variable priceFeedMgr : PriceAdapterMgr.
Variable changedBankAccounts : list BankAccountWrapper.t.

(** An entry that carries the bank and the balance of a changed wrapper. *)
Let fromChanged (e : BankAccountWithPriceFeed.t) : Prop :=
  exists w, In w changedBankAccounts
            /\ BankAccountWithPriceFeed.Bank e = BankAccountWrapper.Bank w
            /\ BankAccountWithPriceFeed.Balance e = BankAccountWrapper.Balance w.

(** An entry for a bank of which there is no changed wrapper. *)
Let unchanged (e : BankAccountWithPriceFeed.t) : Prop :=
  forall w, In w changedBankAccounts ->
            Bank.Id (BankAccountWrapper.Bank w)
            <> Bank.Id (BankAccountWithPriceFeed.Bank e).

Lemma changedBankAccountsMap_lookup k :
  match changedBankAccountsMap changedBankAccounts k with
  | Some w => In w changedBankAccounts
              /\ Bank.Id (BankAccountWrapper.Bank w) = k
  | None => forall w, In w changedBankAccounts ->
                      Bank.Id (BankAccountWrapper.Bank w) <> k
  end.
Proof.
  unfold changedBankAccountsMap.
  assert (G : forall l (m : UUID -> option BankAccountWrapper.t) (seen : list BankAccountWrapper.t),
            match m k with
            | Some w => In w seen /\ Bank.Id (BankAccountWrapper.Bank w) = k
            | None => forall w, In w seen ->
                                Bank.Id (BankAccountWrapper.Bank w) <> k
            end ->
            match fold_left
                    (fun m bankAccount k =>
                       if (k =? Bank.Id (BankAccountWrapper.Bank bankAccount))%Z
                       then Some bankAccount else m k) l m k with
            | Some w => In w (seen ++ l)
                        /\ Bank.Id (BankAccountWrapper.Bank w) = k
            | None => forall w, In w (seen ++ l) ->
                                Bank.Id (BankAccountWrapper.Bank w) <> k
            end).
  { induction l as [|x l IH]; intros m seen Hm; simpl.
    - rewrite app_nil_r. exact Hm.
    - replace (seen ++ x :: l) with ((seen ++ [x]) ++ l)
        by (rewrite <- app_assoc; reflexivity).
      apply IH.
      destruct (Z.eqb_spec k (Bank.Id (BankAccountWrapper.Bank x))) as [E|E].
      + split; [apply in_or_app; right; now left | now symmetry].
      + destruct (m k) as [w|].
        * destruct Hm as [Hin Hid]. split; [apply in_or_app; now left | exact Hid].
        * intros w Hw. apply in_app_or in Hw. destruct Hw as [Hw|[<- |[]]].
          -- now apply Hm.
          -- intros E'. apply E. now symmetry.  }
  apply (G changedBankAccounts (fun _ => None) []). intros w [].
Qed.

Lemma loadChangedBankAccounts_entries l acc r :
  (forall w, In w l -> In w changedBankAccounts) ->
  loadChangedBankAccounts priceFeedMgr l acc = Ok r ->
  (forall e, In e acc -> In e r)
  /\ (forall e, In e r -> In e acc \/ fromChanged e)
  /\ (forall w, In w l ->
        exists e, In e r
                  /\ BankAccountWithPriceFeed.Bank e = BankAccountWrapper.Bank w
                  /\ BankAccountWithPriceFeed.Balance e
                     = BankAccountWrapper.Balance w).
Proof.
  revert acc. induction l as [|x l IH]; intros acc Hl; simpl.
  - intros [= <-]. repeat split; auto. intros w [].
  - destruct (GetPriceAdapter priceFeedMgr (BankAccountWrapper.Bank x))
      as [pf|e|p]; cbn [bind]; try discriminate.
    intros H. apply IH in H; [|intros w Hw; apply Hl; now right].
    destruct H as (H1 & H2 & H3). split; [|split].
    + intros e He. apply H1. apply in_or_app. now left.
    + intros e He. apply H2 in He. destruct He as [He|He]; [|now right].
      apply in_app_or in He. destruct He as [He|[<- |[]]]; [now left|].
      right. exists x. split; [apply Hl; now left|]. split; reflexivity.
    + intros w [<- |Hw]; [|now apply H3].
      eexists. split; [apply H1; apply in_or_app; right; now left|].
      split; reflexivity.
Qed.

Hypothesis store_consistent :
  forall k b, GetBankById bankAccountService k = Ok b -> Bank.Id b = k.

Lemma loadBalances_entries balances acc r :
  loadBalances bankAccountService priceFeedMgr
    (changedBankAccountsMap changedBankAccounts) balances acc = Ok r ->
  forall e, In e r -> In e acc \/ fromChanged e \/ unchanged e.
Proof.
  revert acc. induction balances as [|x l IH]; intros acc; simpl.
  - intros [= <-]. auto.
  - destruct (GetBankById bankAccountService (Balance.BankId x))
      as [bank|e|p] eqn:Hb; cbn [bind]; try discriminate.
    apply store_consistent in Hb.
    destruct (GetPriceAdapter priceFeedMgr bank) as [pf|e|p]; cbn [bind];
      try discriminate.
    pose proof (changedBankAccountsMap_lookup (Balance.BankId x)) as Hm.
    destruct (changedBankAccountsMap changedBankAccounts (Balance.BankId x))
      as [w|].
    + destruct Hm as [Hin Hid].
      destruct (Z.eqb_spec (Bank.Id (BankAccountWrapper.Bank w)) (Bank.Id bank))
        as [E|E]; [|congruence].
      intros H e He. apply (IH _ H) in He.
      destruct He as [He|He]; [|now right].
      apply in_app_or in He. destruct He as [He|[<- |[]]]; [now left|].
      right; left. exists w. repeat split; assumption.
    + intros H e He. apply (IH _ H) in He.
      destruct He as [He|He]; [|now right].
      apply in_app_or in He. destruct He as [He|[<- |[]]]; [now left|].
      right; right. intros w Hw. cbn [BankAccountWithPriceFeed.Bank].
      rewrite Hb. now apply Hm.
Qed.

Lemma loadMissingChangedBankAccounts_entries existing l acc r :
  (forall w, In w l -> In w changedBankAccounts) ->
  loadMissingChangedBankAccounts priceFeedMgr existing l acc = Ok r ->
  (forall e, In e acc -> In e r)
  /\ (forall e, In e r -> In e acc \/ fromChanged e)
  /\ (forall w, In w l ->
        existing (Bank.Id (BankAccountWrapper.Bank w)) = false ->
        exists e, In e r
                  /\ BankAccountWithPriceFeed.Bank e = BankAccountWrapper.Bank w
                  /\ BankAccountWithPriceFeed.Balance e
                     = BankAccountWrapper.Balance w).
Proof.
  revert acc. induction l as [|x l IH]; intros acc Hl; simpl.
  - intros [= <-]. repeat split; auto. intros w [].
  - destruct (existing (Bank.Id (BankAccountWrapper.Bank x))) eqn:Hx;
      cbn [negb].
    + intros H. apply IH in H; [|intros w Hw; apply Hl; now right].
      destruct H as (H1 & H2 & H3). split; [exact H1|]. split; [exact H2|].
      intros w [<- |Hw] He; [congruence | now apply H3].
    + destruct (GetPriceAdapter priceFeedMgr (BankAccountWrapper.Bank x))
        as [pf|e|p]; cbn [bind]; try discriminate.
      intros H. apply IH in H; [|intros w Hw; apply Hl; now right].
      destruct H as (H1 & H2 & H3). split; [|split].
      * intros e He. apply H1. apply in_or_app. now left.
      * intros e He. apply H2 in He. destruct He as [He|He]; [|now right].
        apply in_app_or in He. destruct He as [He|[<- |[]]]; [now left|].
        right. exists x. split; [apply Hl; now left|]. split; reflexivity.
      * intros w [<- |Hw] He; [|now apply H3].
        eexists. split; [apply H1; apply in_or_app; right; now left|].
        split; reflexivity.
Qed.

Lemma LoadBankAccountWithPriceFeeds_entries accountId r :
  LoadBankAccountWithPriceFeeds bankAccountService accountId
    changedBankAccounts priceFeedMgr = Ok r ->
  (forall e, In e r -> fromChanged e \/ unchanged e)
  /\ (forall w, In w changedBankAccounts ->
        exists e, In e r /\ fromChanged e
                  /\ Bank.Id (BankAccountWithPriceFeed.Bank e)
                     = Bank.Id (BankAccountWrapper.Bank w)).
Proof.
  unfold LoadBankAccountWithPriceFeeds.
  destruct (ListBalances bankAccountService accountId uuid_Nil)
    as [balances|e|p]; cbn [bind]; try discriminate.
  destruct (Nat.eqb (length balances) 0).
  - intros H. apply loadChangedBankAccounts_entries in H; [|auto].
    destruct H as (_ & H2 & H3). split.
    + intros e He. apply H2 in He. destruct He as [[]|He]. now left.
    + intros w Hw. destruct (H3 w Hw) as (e & He & Eb & Ebal).
      exists e. split; [exact He|]. split; [exists w; auto | now rewrite Eb].
  - destruct (loadBalances _ _ _ balances []) as [stored|e|p] eqn:Hs;
      cbn [bind]; try discriminate.
    pose proof (loadBalances_entries _ _ Hs) as Hst.
    intros H. apply loadMissingChangedBankAccounts_entries in H; [|auto].
    destruct H as (H1 & H2 & H3). split.
    + intros e He. apply H2 in He. destruct He as [He|He]; [|now left].
      apply Hst in He. destruct He as [[]|He]. exact He.
    + intros w Hw.
      destruct (existsb
                  (fun account =>
                     (Bank.Id (BankAccountWithPriceFeed.Bank account)
                      =? Bank.Id (BankAccountWrapper.Bank w))%Z) stored)
        eqn:Hex.
      * apply existsb_exists in Hex. destruct Hex as (e & He & Hid).
        apply Z.eqb_eq in Hid.
        exists e. split; [now apply H1|]. split; [|exact Hid].
        destruct (Hst e He) as [[]|[Hc|Hu]]; [exact Hc|].
        exfalso. apply (Hu w Hw). now symmetry.
      * destruct (H3 w Hw Hex) as (e & He & Eb & Ebal).
        exists e. split; [exact He|]. split; [exists w; auto | now rewrite Eb].
Qed.

End Loader.

(** X27.  The loader prefers what is in memory.  Let the bank store hand
    back, for an id, a bank of that id.  Then every position the loader
    returns either carries the bank and the balance of one of the changed
    wrappers, or belongs to a bank of which there is no changed wrapper;
    and for every changed wrapper the result has a position of its bank
    that carries the bank and the balance of a changed wrapper. *)
Theorem LoadBankAccountWithPriceFeeds_prefers_changed
  (bankAccountService : BankAccountService) (priceFeedMgr : PriceAdapterMgr)
  (accountId : UUID) (changedBankAccounts : list BankAccountWrapper.t)
  (loaded : list BankAccountWithPriceFeed.t) :
  (forall k b, GetBankById bankAccountService k = Ok b -> Bank.Id b = k) ->
  LoadBankAccountWithPriceFeeds bankAccountService accountId
    changedBankAccounts priceFeedMgr = Ok loaded ->
  let fromChanged e :=
    exists w, In w changedBankAccounts
              /\ BankAccountWithPriceFeed.Bank e = BankAccountWrapper.Bank w
              /\ BankAccountWithPriceFeed.Balance e
                 = BankAccountWrapper.Balance w in
  (forall e, In e loaded ->
     fromChanged e
     \/ (forall w, In w changedBankAccounts ->
           Bank.Id (BankAccountWrapper.Bank w)
           <> Bank.Id (BankAccountWithPriceFeed.Bank e)))
  /\ (forall w, In w changedBankAccounts ->
        exists e, In e loaded /\ fromChanged e
                  /\ Bank.Id (BankAccountWithPriceFeed.Bank e)
                     = Bank.Id (BankAccountWrapper.Bank w)).
Proof.
  intros Hstore Hload fromChanged.
  exact (@LoadBankAccountWithPriceFeeds_entries bankAccountService priceFeedMgr
           changedBankAccounts Hstore accountId loaded Hload).
Qed.

Lemma LoadBankAccountWithPriceFeeds_prefers_changed_witness :
  let changed :=
    [Scenario.wrapper 0 (Scenario.balance 20 0) (Scenario.bank 60 5 0)] in
  exists loaded,
    LoadBankAccountWithPriceFeeds Scenario.service 3%Z changed Scenario.feeds
    = Ok loaded
    /\ forall w, In w changed ->
         exists e, In e loaded
                   /\ (exists w', In w' changed
                         /\ BankAccountWithPriceFeed.Bank e
                            = BankAccountWrapper.Bank w'
                         /\ BankAccountWithPriceFeed.Balance e
                            = BankAccountWrapper.Balance w')
                   /\ Bank.Id (BankAccountWithPriceFeed.Bank e)
                      = Bank.Id (BankAccountWrapper.Bank w).
Proof.
  intros changed.
  assert (Hstore : forall k b,
            GetBankById Scenario.service k = Ok b -> Bank.Id b = k).
  { intros k b. cbn [GetBankById Scenario.service].
    destruct (Z.eqb_spec k 7); [|discriminate].
    intros [= <-]. now subst k. }
  eexists. split; [vm_compute; reflexivity|].
  apply (@LoadBankAccountWithPriceFeeds_prefers_changed Scenario.service
           Scenario.feeds 3%Z changed _ Hstore).
  vm_compute. reflexivity.
Defined.

(* ================================================================== *)
(** ** The initial health check on freshly loaded positions *)

Lemma CheckAccountHealth_Ok (r : RiskEngine.t)
  (requirementType : RequirementType) :
  RiskEngine.CheckAccountHealth r requirementType = Ok tt ->
  exists totalAssets totalLiabilities,
    RiskEngine.GetAccountHealthComponents r requirementType
    = Ok (totalAssets, totalLiabilities)
    /\ totalLiabilities <= totalAssets
    /\ RiskEngine.CheckAccountRiskTiers r = Ok tt.
Proof.
  unfold RiskEngine.CheckAccountHealth.
  destruct (RiskEngine.GetAccountHealthComponents r requirementType)
    as [[ta tl]|e|p]; cbn [bind]; try discriminate.
  destruct (GreaterThanOrEqual ta tl) eqn:Hg; cbn [negb]; [|discriminate].
  apply GreaterThanOrEqual_ge in Hg. intros H. exists ta, tl. auto.
Qed.

(** X28.  [CheckAccountInitHealth] and the flashloan flag.  For an account
    in a flashloan the check answers [nil] at once, whatever the
    positions, where [NewRiskEngine] refuses to build an engine.  For any
    other account an answer of [nil] means: the positions of the engine's
    account were loaded, their Initial health totals are defined, the
    weighted assets cover the weighted liabilities, and the risk tiers are
    in order. *)
Theorem CheckAccountInitHealth_accepts (r : RiskEngine.t)
  (bankAccountService : BankAccountService) (account : Account.t)
  (bankAccounts : list BankAccountWrapper.t) (priceFeedMgr : PriceAdapterMgr) :
  (Account.GetFlag account InFlashloanFlag = true ->
   RiskEngine.CheckAccountInitHealth r bankAccountService account bankAccounts
     priceFeedMgr = Ok tt
   /\ RiskEngine.NewRiskEngine bankAccountService account bankAccounts
        priceFeedMgr = Err AccountInFlashloan)
  /\ (Account.GetFlag account InFlashloanFlag = false ->
      RiskEngine.CheckAccountInitHealth r bankAccountService account
        bankAccounts priceFeedMgr = Ok tt ->
      exists loaded totalAssets totalLiabilities,
        let engine :=
          {| RiskEngine.MarginfiAccount := RiskEngine.MarginfiAccount r;
             RiskEngine.BankAccountsWithPrice := loaded |} in
        LoadBankAccountWithPriceFeeds bankAccountService
          (Account.Id (RiskEngine.MarginfiAccount r)) bankAccounts priceFeedMgr
        = Ok loaded
        /\ RiskEngine.GetAccountHealthComponents engine Initial
           = Ok (totalAssets, totalLiabilities)
        /\ totalLiabilities <= totalAssets
        /\ RiskEngine.CheckAccountRiskTiers engine = Ok tt).
Proof.
  unfold RiskEngine.CheckAccountInitHealth, RiskEngine.NewRiskEngine,
    RiskEngine.NewRiskEngineNoFlashloanCheck.
  split.
  - intros ->. split; reflexivity.
  - intros ->.
    destruct (LoadBankAccountWithPriceFeeds _ _ _ _) as [loaded|e|p];
      cbn [bind]; try discriminate.
    intros H. apply CheckAccountHealth_Ok in H.
    destruct H as (ta & tl & H1 & H2 & H3).
    exists loaded, ta, tl. cbv zeta. auto.
Qed.

(* ================================================================== *)
(** ** The liquidation price *)

Lemma clampLiquidationPrice_nonneg liquidationPrice v :
  clampLiquidationPrice liquidationPrice = Ok v -> 0 <= v.
Proof.
  unfold clampLiquidationPrice.
  destruct (IsZero liquidationPrice) eqn:Hz; cbn [orb].
  - intros [= <-]. unfold Zero. lra.
  - destruct (LessThan liquidationPrice Zero) eqn:Hl; intros [= <-].
    + unfold Zero. lra.
    + order_facts. q_consts. lra.
Qed.

Lemma changedBalance_none changed accountId bankId balance :
  (forall ba, In ba changed ->
     ~ (Balance.AccountId (BankAccountWrapper.Balance ba) = accountId
        /\ Balance.BankId (BankAccountWrapper.Balance ba) = bankId)) ->
  changedBalance changed accountId bankId balance = balance.
Proof.
  induction changed as [|x l IH]; intros H; simpl; [reflexivity|].
  destruct (Z.eqb_spec (Balance.AccountId (BankAccountWrapper.Balance x))
              accountId) as [E1|E1];
    destruct (Z.eqb_spec (Balance.BankId (BankAccountWrapper.Balance x))
                bankId) as [E2|E2]; cbn [andb];
    try (apply IH; intros ba Hba; apply H; now right).
  exfalso. apply (H x); [now left | auto].
Qed.

(** X29.  The liquidation price is never negative: whatever the stores and
    the price feeds hand back, a price that [ComputeLiquidationPriceForBank]
    returns is zero or above.  For a bank that is not in the map it fails;
    an error of [FindBalance] other than "record not found" is handed on;
    and when the store has no balance for the account and the bank, with
    or without "record not found", and no changed wrapper has one, the
    price is zero. *)
Theorem ComputeLiquidationPriceForBank_never_negative
  (bankAccountService : BankAccountService) (banks : UUID -> option Bank.t)
  (changedbankAccounts : list BankAccountWrapper.t)
  (priceFeedMgr : PriceAdapterMgr) (accountId bankId : UUID)
  (marginReqType : RequirementType) :
  let price :=
    ComputeLiquidationPriceForBank bankAccountService banks
      changedbankAccounts priceFeedMgr accountId bankId marginReqType in
  (forall v, price = Ok v -> 0 <= v)
  /\ (banks bankId = None -> price = Err errBankNotFound)
  /\ (forall bank balance e,
        banks bankId = Some bank ->
        FindBalance bankAccountService bankId accountId = (balance, Some e) ->
        is_ErrRecordNotFound e = false ->
        price = Err e)
  /\ (forall bank err,
        banks bankId = Some bank ->
        FindBalance bankAccountService bankId accountId = (None, err) ->
        err = None \/ err = Some gorm_ErrRecordNotFound ->
        (forall ba, In ba changedbankAccounts ->
           ~ (Balance.AccountId (BankAccountWrapper.Balance ba) = accountId
              /\ Balance.BankId (BankAccountWrapper.Balance ba) = bankId)) ->
        price = Ok Zero).
Proof.
  intros price. subst price. unfold ComputeLiquidationPriceForBank.
  split; [|split; [|split]].
  - intros v. assert (Hz : 0 <= Zero) by (unfold Zero; lra).
    destruct (banks bankId) as [bank|]; [|discriminate].
    destruct (FindBalance bankAccountService bankId accountId) as [balance err].
    destruct (match err with
              | Some e => if is_ErrRecordNotFound e then Ok tt else Err e
              | None => Ok tt
              end) as [[]|e|p]; cbn [bind]; try discriminate.
    destruct (changedBalance _ _ _ balance) as [bal|];
      [|intros [= <-]; exact Hz].
    destruct (negb (Balance.Active bal)); [intros [= <-]; exact Hz|].
    destruct (ComputeHealthComponents _ _ _ _ _ _) as [[assets liabilities]|e|p];
      cbn [bind]; try discriminate.
    destruct (GetPriceAdapter priceFeedMgr bank) as [priceInfo|e|p];
      cbn [bind]; try discriminate.
    destruct (adapterPrice priceInfo TimeWeighted Original) as [pr|e|p];
      cbn [bind]; try discriminate.
    unfold Balance.ComputeQuantity.
    destruct (IsZero (Balance.LiabilityShares bal)).
    + destruct (IsZero liabilities); [intros [= <-]; exact Hz|].
      destruct (IsZero (Bank.GetAssetQuantity bank _));
        [intros [= <-]; exact Hz|].
      destruct (Bank.GetAssetWeight bank marginReqType pr false) as [w|e|p];
        cbn [bind]; try discriminate.
      destruct (IsZero (Mul _ w)); [intros [= <-]; exact Hz|].
      destruct (Div assets _) as [q|e|p]; cbn [bind]; try discriminate.
      apply clampLiquidationPrice_nonneg.
    + destruct (IsZero (Bank.GetLiabilityQuantity bank _));
        [intros [= <-]; exact Hz|].
      destruct (IsZero (Mul _ _)); [intros [= <-]; exact Hz|].
      destruct (Div _ _) as [q|e|p]; cbn [bind]; try discriminate.
      apply clampLiquidationPrice_nonneg.
  - intros ->. reflexivity.
  - intros bank balance e -> -> ->. reflexivity.
  - intros bank err -> -> Herr Hnone.
    rewrite changedBalance_none by assumption.
    destruct Herr as [-> | ->]; reflexivity.
Qed.

(* ================================================================== *)
(** ** Increasing a balance: the bank's side *)

Section IncreaseBank.

Import BankAccountWrapper.

Lemma IncreaseBalanceInternal_ok ba delta ty after :
  IncreaseBalanceInternal delta ty ba = (Ok tt, after) ->
  let liabilityAmount :=
    Mul (Balance.LiabilityShares (Balance ba))
        (Bank.LiabilityShareValue (Bank ba)) in
  let liabilityAmountDecrease := Min liabilityAmount delta in
  let assetAmountIncrease := Max (Sub delta liabilityAmount) Zero in
  let assetSharesIncrease :=
    DivRound assetAmountIncrease (Bank.AssetShareValue (Bank ba))
      DivisionPrecision in
  let liabilitySharesDecrease :=
    DivRound liabilityAmountDecrease (Bank.LiabilityShareValue (Bank ba))
      DivisionPrecision in
  (ty = BalanceIncreaseTypeRepayOnly -> assetAmountIncrease == 0)
  /\ (ty = BalanceIncreaseTypeDepositOnly -> liabilityAmountDecrease == 0)
  /\ Balance.AssetShares (Balance after)
     = Add (Balance.AssetShares (Balance ba)) assetSharesIncrease
  /\ Balance.LiabilityShares (Balance after)
     = Add (Balance.LiabilityShares (Balance ba))
           (Mul liabilitySharesDecrease (NewFromInt (-1)))
  /\ Bank.TotalAssetShares (Bank after)
     = Add (Bank.TotalAssetShares (Bank ba)) assetSharesIncrease
  /\ Bank.TotalLiabilityShares (Bank after)
     = Add (Bank.TotalLiabilityShares (Bank ba))
           (Mul liabilitySharesDecrease (NewFromInt (-1)))
  /\ 0 <= Balance.AssetShares (Balance after)
  /\ 0 <= Balance.LiabilityShares (Balance after)
  /\ Bank.GetTotalLiabilityQuantity (Bank after)
     <= Bank.GetTotalAssetQuantity (Bank after).
Proof.
  intros H liabilityAmount dec inc si sd. revert H.
  unfold IncreaseBalanceInternal.
  unfold bindM at 1, get at 1. unfold bindM at 1.
  destruct (discard_ClaimEmissions_keeps (clk ba) ba)
    as (s & -> & Hc & Hi & Hb & HA & HL & HV & HW & HTA & HTL
          & HLV & HCI & HBC).
  unfold onBalance, onBank, Bank.GetLiabilityAmount, Bank.GetAssetShares,
    Bank.GetLiabilityShares, Balance.ChangeAssetShares,
    Balance.ChangeLiabilityShares, Bank.ChangeAssetShares,
    Bank.ChangeLiabilityShares, Bank.CheckUtilizationRatio,
    Bank.GetAssetAmount, Bank.GetLiabilityAmount, Div,
    Bank.GetTotalLiabilityQuantity, Bank.GetTotalAssetQuantity.
  run_monad. rewrite ?HA, ?HL, ?HV, ?HW, ?HTA, ?HTL.
  fold liabilityAmount. fold dec inc.
  destruct (Bank.AssertOperationalMode (Bank s) _) as [[]|e|p];
    [| destruct ty; simpl; repeat (destruct (negb _)); discriminate
     | destruct ty; simpl; repeat (destruct (negb _)); discriminate].
  intros H.
  destruct ty; simpl in H;
    repeat (match type of H with
            | context [if ?c then _ else _] =>
                let E := fresh "E" in destruct c eqn:E
            end; simpl in H; rewrite ?HA, ?HL, ?HV, ?HW, ?HTA, ?HTL in H;
            try discriminate H).
  all: injection H as <-; simpl; rewrite ?HA, ?HL, ?HV, ?HW, ?HTA, ?HTL.
  all: fold sd si.
  all: order_facts; q_consts.
  all: repeat match goal with
              | |- _ /\ _ => split
              end;
    try reflexivity; try assumption; try discriminate;
    try (intros _; assumption).
  all: intros _;
    match goal with
    | E : negb (IsZero _) = false |- _ =>
        apply negb_false_iff in E; apply IsZero_eq in E; exact E
    end.
Qed.

(** X30.  What a successful [IncreaseBalanceInternal] has done to the
    bank, with [liabilityAmountDecrease = min(liabilityAmount, delta)] and
    [assetAmountIncrease = max(delta - liabilityAmount, 0)].  The bank's
    totals move by the shares by which the balance moves, neither kind of
    shares of the balance is negative, and the bank's liabilities do not
    exceed its assets.  Under RepayOnly the assets of the balance have not
    grown; under DepositOnly its liabilities have not shrunk. *)
Theorem increase_balance_conserves_shares (ba : BankAccountWrapper.t)
  (delta : Decimal) (ty : BalanceIncreaseType) :
  fst (IncreaseBalanceInternal delta ty ba) = Ok tt ->
  let after := snd (IncreaseBalanceInternal delta ty ba) in
  Bank.TotalAssetShares (Bank after) - Bank.TotalAssetShares (Bank ba)
  == Balance.AssetShares (Balance after) - Balance.AssetShares (Balance ba)
  /\ Bank.TotalLiabilityShares (Bank after)
     - Bank.TotalLiabilityShares (Bank ba)
     == Balance.LiabilityShares (Balance after)
        - Balance.LiabilityShares (Balance ba)
  /\ 0 <= Balance.AssetShares (Balance after)
  /\ 0 <= Balance.LiabilityShares (Balance after)
  /\ Bank.GetTotalLiabilityQuantity (Bank after)
     <= Bank.GetTotalAssetQuantity (Bank after)
  /\ (ty = BalanceIncreaseTypeRepayOnly ->
      Balance.AssetShares (Balance after)
      == Balance.AssetShares (Balance ba))
  /\ (ty = BalanceIncreaseTypeDepositOnly ->
      Balance.LiabilityShares (Balance after)
      == Balance.LiabilityShares (Balance ba)).
Proof.
  intros H after. subst after.
  destruct (IncreaseBalanceInternal delta ty ba) as [r s] eqn:E.
  cbn [fst snd] in *. subst r.
  destruct (@IncreaseBalanceInternal_ok ba delta ty s E)
    as (Hr & Hd & HA & HL & HTA & HTL & HA0 & HL0 & Hu).
  set (si := DivRound (Max _ _) _ _) in *.
  set (sd := DivRound (Min _ _) _ _) in *.
  assert (Hsi : ty = BalanceIncreaseTypeRepayOnly -> si == 0).
  { intros Ht. subst si. unfold DivRound. apply Round_zero.
    rewrite (Hr Ht). unfold Qdiv. ring. }
  assert (Hsd : ty = BalanceIncreaseTypeDepositOnly -> sd == 0).
  { intros Ht. subst sd. unfold DivRound. apply Round_zero.
    rewrite (Hd Ht). unfold Qdiv. ring. }
  split; [rewrite HA, HTA; unfold Add; ring|].
  split; [rewrite HL, HTL; unfold Add; ring|].
  do 3 (split; [assumption|]).
  split; intros Ht.
  - rewrite HA. unfold Add. rewrite (Hsi Ht). ring.
  - rewrite HL. unfold Add, Mul. rewrite (Hsd Ht). ring.
Qed.

Lemma increase_balance_conserves_shares_witness :
  let ba := Scenario.wrapper 0 (Scenario.balance 0 3) (Scenario.bank 50 5 0) in
  Balance.AssetShares (Balance (snd (Repay 2 ba)))
  == Balance.AssetShares (Balance ba).
Proof.
  intros ba.
  assert (H : fst (IncreaseBalanceInternal 2 BalanceIncreaseTypeRepayOnly ba)
              = Ok tt) by (vm_compute; reflexivity).
  apply (@increase_balance_conserves_shares ba 2 BalanceIncreaseTypeRepayOnly H).
  reflexivity.
Defined.

End IncreaseBank.

